(** * webid operator: the Page and WebServer reconcilers

    A shallow embedding of the two controllers of the webid operator
    (controllers/pages and controllers/webserver) together with the
    properties their specification states about them.

    Layout of the development:
    - [GoBytes]: byte strings and the string order used by [sort.Strings];
    - [SHA1], [Base64]: the two standard-library codecs [makeHash] calls;
    - [types], [metav1], [meta], [controllerutil], [v1alpha1], [appsv1],
      [corev1], [netv1]: the objects of the API;
    - [client]: the cluster, the requests of a reconciler and their trace;
    - [pages]: the Page reconciler (cache, aggregation, digest, finalizer);
    - [config], [webserver]: the WebServer reconciler (five ensure-steps,
      status conditions);
    - [fixtures], [vocabulary]: concrete clusters, and the notions the
      statements are written with;
    - the properties, one block per subject. *)

From Stdlib Require Import ZArith String List Ascii Lia Permutation Strings.Byte DecimalString.
From stdpp Require Import base gmap strings list fin_maps sorting.

Local Open Scope Z_scope.

(* ------------------------------------------------------------------ *)
(** ** Byte strings and the order of [sort.Strings] *)

Module GoBytes.

(** A Go [[]byte]; the nil slice and the empty slice are both [[]],
    which is how [bytes.Equal] treats them. *)
Abbreviation bytes := (list byte).

#[global] Instance byte_eq_decision : EqDecision byte := byte_eq_dec.

(** [bytes.Equal] *)
Definition bytes_Equal (a b : bytes) : bool := bool_decide (a = b).

(** The conversion [[]byte(s)] of a Go string. *)
Definition bytes_of_string (s : string) : bytes := list_byte_of_string s.

Definition byte_to_Z (b : byte) : Z := Z.of_N (Byte.to_N b).

Definition byte_of_Z (z : Z) : byte :=
  match Byte.of_N (Z.to_N (z mod 256)) with
  | Some b => b
  | None => x00
  end.

(** Go compares strings byte by byte; [sort.Strings] sorts by [<]. *)
Definition str_le (a b : string) : Prop := String.leb a b = true.

#[global] Instance str_le_dec a b : Decision (str_le a b).
Proof. unfold str_le. apply _. Defined.

(** [sort.Strings], as a function on the slice of keys. *)
Definition sort_Strings (keys : list string) : list string :=
  merge_sort str_le keys.

End GoBytes.
Import GoBytes.

(* ------------------------------------------------------------------ *)
(** ** crypto/sha1 *)

Module SHA1.

Definition add32 (a b : Z) : Z := (a + b) mod 2 ^ 32.

Definition rotl32 (n x : Z) : Z :=
  Z.lor (Z.shiftl x n mod 2 ^ 32) (Z.shiftr x (32 - n)).

Definition not32 (x : Z) : Z := Z.lxor x 4294967295.

(** big-endian encoding of [x] on [n] bytes *)
Fixpoint be_bytes (n : nat) (x : Z) : list Z :=
  match n with
  | O => []
  | S n' => Z.shiftr x (8 * Z.of_nat n') mod 256 :: be_bytes n' x
  end.

Definition pad (msg : list Z) : list Z :=
  let l := Z.of_nat (length msg) in
  msg ++ [128] ++ repeat 0 (Z.to_nat ((55 - l) mod 64)) ++ be_bytes 8 (8 * l).

Fixpoint words (n : nat) (bs : list Z) : list Z :=
  match n, bs with
  | S n', b0 :: b1 :: b2 :: b3 :: rest =>
      (Z.shiftl b0 24 + Z.shiftl b1 16 + Z.shiftl b2 8 + b3) :: words n' rest
  | _, _ => []
  end.

Definition wd (w : list Z) (i : nat) : Z := nth i w 0.

Fixpoint schedule (n : nat) (w : list Z) : list Z :=
  match n with
  | O => w
  | S n' =>
      let t := length w in
      let x := Z.lxor (Z.lxor (wd w (t - 3)) (wd w (t - 8)))
                      (Z.lxor (wd w (t - 14)) (wd w (t - 16))) in
      schedule n' (w ++ [rotl32 1 x])
  end.

Definition state : Type := Z * Z * Z * Z * Z.

Definition round (t : nat) (wt : Z) (s : state) : state :=
  let '(a, b, c, d, e) := s in
  let '(f, k) :=
    if (t <? 20)%nat then (Z.lor (Z.land b c) (Z.land (not32 b) d), 1518500249)
    else if (t <? 40)%nat then (Z.lxor (Z.lxor b c) d, 1859775393)
    else if (t <? 60)%nat then
      (Z.lor (Z.lor (Z.land b c) (Z.land b d)) (Z.land c d), 2400959708)
    else (Z.lxor (Z.lxor b c) d, 3395469782) in
  let temp := add32 (add32 (add32 (add32 (rotl32 5 a) f) e) k) wt in
  (temp, a, rotl32 30 b, c, d).

Fixpoint rounds (t : nat) (w : list Z) (s : state) : state :=
  match w with
  | [] => s
  | wt :: w' => rounds (S t) w' (round t wt s)
  end.

Definition block (s : state) (bs : list Z) : state :=
  let '(h0, h1, h2, h3, h4) := s in
  let '(a, b, c, d, e) := rounds 0 (schedule 64 (words 16 bs)) s in
  (add32 h0 a, add32 h1 b, add32 h2 c, add32 h3 d, add32 h4 e).

Fixpoint blocks (n : nat) (s : state) (bs : list Z) : state :=
  match n with
  | O => s
  | S n' => blocks n' (block s (firstn 64 bs)) (skipn 64 bs)
  end.

Definition init : state :=
  (1732584193, 4023233417, 2562383102, 271733878, 3285377520).

(** [h := sha1.New(); h.Write(msg); h.Sum(nil)] *)
Definition Sum (msg : bytes) : bytes :=
  let p := pad (map byte_to_Z msg) in
  let '(h0, h1, h2, h3, h4) := blocks (length p / 64) init p in
  map byte_of_Z
    (be_bytes 4 h0 ++ be_bytes 4 h1 ++ be_bytes 4 h2 ++ be_bytes 4 h3 ++ be_bytes 4 h4).

End SHA1.

(* ------------------------------------------------------------------ *)
(** ** encoding/base64, [StdEncoding] *)

Module Base64.

Definition alphabet : string :=
  "ABCDEFGHIJKLMNOPQRSTUVWXYZabcdefghijklmnopqrstuvwxyz0123456789+/".

Definition digit (i : Z) : ascii :=
  match String.get (Z.to_nat i) alphabet with
  | Some c => c
  | None => "="%char
  end.

Fixpoint encode (bs : list Z) : string :=
  match bs with
  | [] => EmptyString
  | [b0] =>
      String (digit (Z.shiftr b0 2))
        (String (digit (Z.shiftl (Z.land b0 3) 4)) "==")
  | [b0; b1] =>
      String (digit (Z.shiftr b0 2))
        (String (digit (Z.lor (Z.shiftl (Z.land b0 3) 4) (Z.shiftr b1 4)))
           (String (digit (Z.shiftl (Z.land b1 15) 2)) "="))
  | b0 :: b1 :: b2 :: rest =>
      String (digit (Z.shiftr b0 2))
        (String (digit (Z.lor (Z.shiftl (Z.land b0 3) 4) (Z.shiftr b1 4)))
           (String (digit (Z.lor (Z.shiftl (Z.land b1 15) 2) (Z.shiftr b2 6)))
              (String (digit (Z.land b2 63)) (encode rest))))
  end.

(** [base64.StdEncoding.EncodeToString] *)
Definition EncodeToString (bs : bytes) : string := encode (map byte_to_Z bs).

End Base64.

(* ------------------------------------------------------------------ *)
(** ** Objects of the API: k8s.io/apimachinery and api/v1alpha1 *)

Module types.

Record NamespacedName := { Namespace : string; Name : string }.

#[global] Instance NamespacedName_eq_dec : EqDecision NamespacedName.
Proof. solve_decision. Defined.

#[global] Instance NamespacedName_countable : Countable NamespacedName :=
  inj_countable' (fun n => (Namespace n, Name n))
                 (fun p => {| Namespace := fst p; Name := snd p |})
                 (fun n => match n with Build_NamespacedName _ _ => eq_refl end).

End types.
Export types(NamespacedName).

Module metav1.

Inductive ConditionStatus := ConditionTrue | ConditionFalse | ConditionUnknown.

#[global] Instance ConditionStatus_eq_dec : EqDecision ConditionStatus.
Proof. solve_decision. Defined.

Record Condition := {
  Type_ : string;
  Status : ConditionStatus;
  Reason : string;
  Message : string }.

Record OwnerReference := {
  OwnerKind : string;
  OwnerName : string;
  Controller : bool }.

(** The part of [metav1.ObjectMeta] the controllers read or write.
    [DeletionTimestamp] is a pointer in Go: [None] is nil.  [Annotations]
    is tested against nil by [setWebStatus], so it is optional too. *)
Record ObjectMeta := {
  Name : string;
  Namespace : string;
  Labels : gmap string string;
  Annotations : option (gmap string string);
  Finalizers : list string;
  DeletionTimestamp : option Z;
  OwnerReferences : list OwnerReference }.

Definition newMeta (name ns : string) (labels : gmap string string) : ObjectMeta :=
  {| Name := name; Namespace := ns; Labels := labels; Annotations := None;
     Finalizers := []; DeletionTimestamp := None; OwnerReferences := [] |}.

Definition withFinalizers (fs : list string) (m : ObjectMeta) : ObjectMeta :=
  {| Name := Name m; Namespace := Namespace m; Labels := Labels m;
     Annotations := Annotations m; Finalizers := fs;
     DeletionTimestamp := DeletionTimestamp m;
     OwnerReferences := OwnerReferences m |}.

Definition withAnnotations (a : option (gmap string string)) (m : ObjectMeta) : ObjectMeta :=
  {| Name := Name m; Namespace := Namespace m; Labels := Labels m;
     Annotations := a; Finalizers := Finalizers m;
     DeletionTimestamp := DeletionTimestamp m;
     OwnerReferences := OwnerReferences m |}.

Definition withOwner (o : OwnerReference) (m : ObjectMeta) : ObjectMeta :=
  {| Name := Name m; Namespace := Namespace m; Labels := Labels m;
     Annotations := Annotations m; Finalizers := Finalizers m;
     DeletionTimestamp := DeletionTimestamp m;
     OwnerReferences := OwnerReferences m ++ [o] |}.

Definition nsName (m : ObjectMeta) : NamespacedName :=
  {| types.Namespace := Namespace m; types.Name := Name m |}.

(** What the API server does to the metadata of an object it is asked to
    delete while finalizers are left on it: it stamps the object, once,
    with the time of the request.  The controllers only test the stamp
    against nil and the model keeps no clock: the stamp is 0. *)
Definition markDeleted (m : ObjectMeta) : ObjectMeta :=
  match DeletionTimestamp m with
  | Some _ => m
  | None =>
      {| Name := Name m; Namespace := Namespace m; Labels := Labels m;
         Annotations := Annotations m; Finalizers := Finalizers m;
         DeletionTimestamp := Some 0;
         OwnerReferences := OwnerReferences m |}
  end.

End metav1.

Module meta.

Import metav1.

(** Modelled from the spec: [meta.SetStatusCondition] of apimachinery, the
    ConditionStatusManager of section 4.4: the first entry of the same
    type is replaced in place (status, reason, message), otherwise the
    condition is appended; no other entry is touched.  Transition times
    are not represented. *)
Fixpoint SetStatusCondition (conditions : list Condition) (c : Condition) : list Condition :=
  match conditions with
  | [] => [c]
  | x :: rest =>
      if bool_decide (Type_ x = Type_ c) then c :: rest
      else x :: SetStatusCondition rest c
  end.

(** [meta.FindStatusCondition] *)
Definition FindStatusCondition (conditions : list Condition) (t : string) : option Condition :=
  List.find (fun x => bool_decide (Type_ x = t)) conditions.

End meta.

Module controllerutil.

(** [controllerutil.AddFinalizer]: appends the token unless it is there;
    the flag tells whether the list changed. *)
Definition AddFinalizer (m : metav1.ObjectMeta) (f : string) : metav1.ObjectMeta * bool :=
  if bool_decide (f ∈ metav1.Finalizers m) then (m, false)
  else (metav1.withFinalizers (metav1.Finalizers m ++ [f]) m, true).

(** [controllerutil.RemoveFinalizer]: drops every occurrence of the token;
    the flag tells whether the list changed. *)
Definition RemoveFinalizer (m : metav1.ObjectMeta) (f : string) : metav1.ObjectMeta * bool :=
  let fs := List.filter (fun x => negb (bool_decide (x = f))) (metav1.Finalizers m) in
  (metav1.withFinalizers fs m,
   negb (length fs =? length (metav1.Finalizers m))%nat).

End controllerutil.

Module v1alpha1.

(** [PageSpec]: [WebServer] names the WebServer of the same namespace the
    page belongs to (the controller reads [page.Spec.WebServer]). *)
Record PageSpec := {
  PageSpec_Name : string;
  PageSpec_Contents : string;
  PageSpec_WebServer : string }.

Record Page := {
  Page_Meta : metav1.ObjectMeta;
  Page_Spec : PageSpec }.

Record WebServerSpec := {
  Image : string;
  Replicas : Z }.

Record WebServerStatus := {
  Conditions : list metav1.Condition }.

Record WebServer := {
  WebServer_Meta : metav1.ObjectMeta;
  WebServer_Spec : WebServerSpec;
  WebServer_Status : WebServerStatus }.

Definition GetDeletionTimestamp (p : Page) : option Z :=
  metav1.DeletionTimestamp (Page_Meta p).

Definition Page_withMeta (m : metav1.ObjectMeta) (p : Page) : Page :=
  {| Page_Meta := m; Page_Spec := Page_Spec p |}.

Definition WebServer_withMeta (m : metav1.ObjectMeta) (w : WebServer) : WebServer :=
  {| WebServer_Meta := m; WebServer_Spec := WebServer_Spec w;
     WebServer_Status := WebServer_Status w |}.

Definition WebServer_withStatus (s : WebServerStatus) (w : WebServer) : WebServer :=
  {| WebServer_Meta := WebServer_Meta w; WebServer_Spec := WebServer_Spec w;
     WebServer_Status := s |}.

End v1alpha1.

(** The children of a WebServer: apps/v1, core/v1 and networking/v1. *)
Module appsv1.

Record ContainerPort := { ContainerPort_Port : Z; ContainerPort_Name : string }.

Record VolumeMount := {
  VolumeMount_Name : string;
  VolumeMount_ReadOnly : bool;
  VolumeMount_MountPath : string }.

Record Container := {
  Container_Image : string;
  Container_Name : string;
  Container_ImagePullPolicy : string;
  Container_Ports : list ContainerPort;
  Container_VolumeMounts : list VolumeMount }.

(** a volume backed by the ConfigMap [Volume_ConfigMap] *)
Record Volume := { Volume_Name : string; Volume_ConfigMap : string }.

(** [Deployment_Replicas] is [*int32] in Go: [None] is nil. *)
Record Deployment := {
  Deployment_Meta : metav1.ObjectMeta;
  Deployment_Replicas : option Z;
  Deployment_Selector : gmap string string;
  Deployment_TemplateLabels : gmap string string;
  Deployment_Containers : list Container;
  Deployment_Volumes : list Volume }.

Definition Deployment_withMeta (m : metav1.ObjectMeta) (d : Deployment) : Deployment :=
  {| Deployment_Meta := m; Deployment_Replicas := Deployment_Replicas d;
     Deployment_Selector := Deployment_Selector d;
     Deployment_TemplateLabels := Deployment_TemplateLabels d;
     Deployment_Containers := Deployment_Containers d;
     Deployment_Volumes := Deployment_Volumes d |}.

Definition Container_withImage (img : string) (c : Container) : Container :=
  {| Container_Image := img; Container_Name := Container_Name c;
     Container_ImagePullPolicy := Container_ImagePullPolicy c;
     Container_Ports := Container_Ports c;
     Container_VolumeMounts := Container_VolumeMounts c |}.

End appsv1.

Module corev1.

(** [BinaryData] is a Go map: [None] is the nil map. *)
Record ConfigMap := {
  ConfigMap_Meta : metav1.ObjectMeta;
  ConfigMap_BinaryData : option (gmap string bytes) }.

Definition ConfigMap_withMeta (m : metav1.ObjectMeta) (cm : ConfigMap) : ConfigMap :=
  {| ConfigMap_Meta := m; ConfigMap_BinaryData := ConfigMap_BinaryData cm |}.

(** A ConfigMap as the API server keeps it.  [BinaryData] is tagged
    [omitempty]: a map of length 0 is left out of what is sent, and what
    comes back is the nil map. *)
Definition ConfigMap_stored (cm : ConfigMap) : ConfigMap :=
  {| ConfigMap_Meta := ConfigMap_Meta cm;
     ConfigMap_BinaryData :=
       match ConfigMap_BinaryData cm with
       | Some m => if (size m =? 0)%nat then None else Some m
       | None => None
       end |}.

Record ServicePort := { ServicePort_Name : string; ServicePort_Port : Z }.

Record Service := {
  Service_Meta : metav1.ObjectMeta;
  Service_Ports : list ServicePort;
  Service_Selector : gmap string string }.

Definition Service_withMeta (m : metav1.ObjectMeta) (s : Service) : Service :=
  {| Service_Meta := m; Service_Ports := Service_Ports s;
     Service_Selector := Service_Selector s |}.

End corev1.

Module netv1.

Record HTTPIngressPath := {
  Path : string;
  PathType : string;
  Backend_ServiceName : string;
  Backend_PortName : string }.

Record IngressRule := { Host : string; Paths : list HTTPIngressPath }.

Record Ingress := {
  Ingress_Meta : metav1.ObjectMeta;
  Ingress_ClassName : option string;
  Ingress_Rules : list IngressRule }.

Definition Ingress_withMeta (m : metav1.ObjectMeta) (i : Ingress) : Ingress :=
  {| Ingress_Meta := m; Ingress_ClassName := Ingress_ClassName i;
     Ingress_Rules := Ingress_Rules i |}.

End netv1.

(* ------------------------------------------------------------------ *)
(** ** The cluster, and the client the reconcilers talk to *)

Module client.

Import metav1.

(** Errors: the one [apierrors.IsNotFound] recognises, and all the others
    (a failed request, a conflict, an error built by [fmt.Errorf]). *)
Inductive error :=
| NotFound (msg : string)
| Failure (msg : string).

#[global] Instance error_eq_dec : EqDecision error.
Proof. solve_decision. Defined.

(** [apierrors.IsNotFound] *)
Definition IsNotFound (e : error) : bool :=
  match e with NotFound _ => true | Failure _ => false end.

(** What a Go function of type [(T, error)] hands back when exactly one
    of the two is non-nil. *)
Inductive result (A : Type) :=
| Ok (a : A)
| Err (e : error).
Arguments Ok {A} a.
Arguments Err {A} e.

Inductive Kind := KPage | KWebServer | KDeployment | KConfigMap | KService | KIngress.

Inductive Verb := VGet | VList | VCreate | VUpdate | VDelete | VStatusUpdate.

#[global] Instance Kind_eq_dec : EqDecision Kind.
Proof. solve_decision. Defined.

#[global] Instance Verb_eq_dec : EqDecision Verb.
Proof. solve_decision. Defined.

(** What an observer of one reconcile call sees, in order: the requests
    sent to the API server with their outcome, and the errors logged.
    (Informational and debug log lines are not recorded.) *)
Inductive Event :=
| Call (v : Verb) (k : Kind) (n : NamespacedName) (outcome : option error)
| LogError (e : error) (msg : string).

#[global] Instance Event_eq_dec : EqDecision Event.
Proof. solve_decision. Defined.

Record Cluster := {
  Pages : list v1alpha1.Page;
  WebServers : list v1alpha1.WebServer;
  Deployments : list appsv1.Deployment;
  ConfigMaps : list corev1.ConfigMap;
  Services : list corev1.Service;
  Ingresses : list netv1.Ingress }.

(** The state one reconcile call runs against:
    - [cluster]: the objects the API server holds;
    - [faults]: what the API server does to the next requests, one entry
      per request: [Some e] makes the request fail with [e], [None] (or an
      exhausted list) lets it through;
    - [trace]: the events so far, oldest first;
    - [Data]: the field [Data] of [pages.Reconciler], the cache shared by
      the two reconcilers ([r.mu] guards each access; calls are modelled
      one at a time). *)
Record World := {
  cluster : Cluster;
  faults : list (option error);
  trace : list Event;
  Data : gmap NamespacedName (option (gmap string bytes)) }.

Definition M (A : Type) : Type := World -> A * World.

Definition ret {A} (a : A) : M A := fun w => (a, w).

Definition bind {A B} (m : M A) (k : A -> M B) : M B :=
  fun w => let (a, w') := m w in k a w'.

(** An object kind the client can store: [client.Object]. *)
Class Object (A : Type) := {
  kind : Kind;
  meta_of : A -> ObjectMeta;
  objects : Cluster -> list A;
  set_objects : list A -> Cluster -> Cluster;
  with_meta : ObjectMeta -> A -> A;
  (** what [Create] stores of the submitted object *)
  as_stored : A -> A;
  (** what [Update] stores, from the stored and the submitted object: the
      status subresource is not written through [Update] *)
  persist : A -> A -> A }.

Definition key_of `{Object A} (a : A) : NamespacedName := nsName (meta_of a).

Definition lookup_obj `{Object A} (n : NamespacedName) (l : list A) : option A :=
  List.find (fun a => bool_decide (key_of a = n)) l.

Definition replace_obj `{Object A} (a : A) (l : list A) : list A :=
  map (fun b => if bool_decide (key_of b = key_of a) then a else b) l.

Definition remove_obj `{Object A} (n : NamespacedName) (l : list A) : list A :=
  List.filter (fun b => negb (bool_decide (key_of b = n))) l.

(** An object marked for deletion is removed by the API server once its
    last finalizer is gone. *)
Definition finalised `{Object A} (a : A) : bool :=
  match DeletionTimestamp (meta_of a), Finalizers (meta_of a) with
  | Some _, [] => true
  | _, _ => false
  end.

(** What the API server has in store for the next request. *)
Definition next_fault (w : World) : option error :=
  match faults w with
  | f :: _ => f
  | [] => None
  end.

(** One request: the next entry of [faults] is consumed; unless it injects
    an error, [serve] answers from the stored objects.  The request and its
    outcome are appended to the trace. *)
Definition request {A} (v : Verb) (k : Kind) (n : NamespacedName)
    (serve : Cluster -> error + A * Cluster) : M (result A) := fun w =>
  let answer :=
    match next_fault w with
    | Some e => inl e
    | None => serve (cluster w)
    end in
  match answer with
  | inl e =>
      (Err e, {| cluster := cluster w; faults := tail (faults w);
                 trace := trace w ++ [Call v k n (Some e)]; Data := Data w |})
  | inr (a, c) =>
      (Ok a, {| cluster := c; faults := tail (faults w);
                trace := trace w ++ [Call v k n None]; Data := Data w |})
  end.

Definition serveGet `{Object A} (n : NamespacedName) (c : Cluster) : error + A * Cluster :=
  match lookup_obj n (objects c) with
  | Some a => inr (a, c)
  | None => inl (NotFound "not found")
  end.

Definition serveCreate `{Object A} (a : A) (c : Cluster) : error + unit * Cluster :=
  match lookup_obj (key_of a) (objects c) with
  | Some _ => inl (Failure "already exists")
  | None => inr (tt, set_objects (objects c ++ [as_stored a]) c)
  end.

Definition serveUpdate `{Object A} (a : A) (c : Cluster) : error + A * Cluster :=
  match lookup_obj (key_of a) (objects c) with
  | None => inl (NotFound "not found")
  | Some old =>
      let new := persist old a in
      if finalised new
      then inr (new, set_objects (remove_obj (key_of a) (objects c)) c)
      else inr (new, set_objects (replace_obj new (objects c)) c)
  end.

(** An object that carries finalizers is not removed by a delete request:
    it stays, marked for deletion, until its last finalizer is gone. *)
Definition serveDelete `{Object A} (a : A) (c : Cluster) : error + unit * Cluster :=
  match lookup_obj (key_of a) (objects c) with
  | None => inl (NotFound "not found")
  | Some old =>
      match Finalizers (meta_of old) with
      | [] => inr (tt, set_objects (remove_obj (key_of a) (objects c)) c)
      | _ :: _ =>
          inr (tt, set_objects
                     (replace_obj (with_meta (markDeleted (meta_of old)) old) (objects c)) c)
      end
  end.

(** [r.Get(ctx, n, obj)] *)
Definition Get `{Object A} (n : NamespacedName) : M (result A) :=
  request VGet kind n (serveGet n).

(** [r.Create(ctx, obj)] *)
Definition Create `{Object A} (a : A) : M (result unit) :=
  request VCreate kind (key_of a) (serveCreate a).

(** [r.Update(ctx, obj)]; on success the object is refreshed from the
    answer of the server. *)
Definition Update `{Object A} (a : A) : M (result A) :=
  request VUpdate kind (key_of a) (serveUpdate a).

(** [r.Delete(ctx, obj)] *)
Definition Delete `{Object A} (a : A) : M (result unit) :=
  request VDelete kind (key_of a) (serveDelete a).

(** [log.Error(err, msg)] *)
Definition logError (e : error) (msg : string) : M unit := fun w =>
  (tt, {| cluster := cluster w; faults := faults w;
          trace := trace w ++ [LogError e msg]; Data := Data w |}).

Definition set_Pages (l : list v1alpha1.Page) (c : Cluster) : Cluster :=
  {| Pages := l; WebServers := WebServers c; Deployments := Deployments c;
     ConfigMaps := ConfigMaps c; Services := Services c; Ingresses := Ingresses c |}.

Definition set_WebServers (l : list v1alpha1.WebServer) (c : Cluster) : Cluster :=
  {| Pages := Pages c; WebServers := l; Deployments := Deployments c;
     ConfigMaps := ConfigMaps c; Services := Services c; Ingresses := Ingresses c |}.

Definition set_Deployments (l : list appsv1.Deployment) (c : Cluster) : Cluster :=
  {| Pages := Pages c; WebServers := WebServers c; Deployments := l;
     ConfigMaps := ConfigMaps c; Services := Services c; Ingresses := Ingresses c |}.

Definition set_ConfigMaps (l : list corev1.ConfigMap) (c : Cluster) : Cluster :=
  {| Pages := Pages c; WebServers := WebServers c; Deployments := Deployments c;
     ConfigMaps := l; Services := Services c; Ingresses := Ingresses c |}.

Definition set_Services (l : list corev1.Service) (c : Cluster) : Cluster :=
  {| Pages := Pages c; WebServers := WebServers c; Deployments := Deployments c;
     ConfigMaps := ConfigMaps c; Services := l; Ingresses := Ingresses c |}.

Definition set_Ingresses (l : list netv1.Ingress) (c : Cluster) : Cluster :=
  {| Pages := Pages c; WebServers := WebServers c; Deployments := Deployments c;
     ConfigMaps := ConfigMaps c; Services := Services c; Ingresses := l |}.

#[global] Instance Page_Object : Object v1alpha1.Page := {|
  kind := KPage; meta_of := v1alpha1.Page_Meta;
  objects := Pages; set_objects := set_Pages;
  with_meta := v1alpha1.Page_withMeta; as_stored := fun new => new;
  persist := fun _ new => new |}.

#[global] Instance WebServer_Object : Object v1alpha1.WebServer := {|
  kind := KWebServer; meta_of := v1alpha1.WebServer_Meta;
  objects := WebServers; set_objects := set_WebServers;
  with_meta := v1alpha1.WebServer_withMeta; as_stored := fun new => new;
  persist := fun old new =>
    v1alpha1.WebServer_withStatus (v1alpha1.WebServer_Status old) new |}.

#[global] Instance Deployment_Object : Object appsv1.Deployment := {|
  kind := KDeployment; meta_of := appsv1.Deployment_Meta;
  objects := Deployments; set_objects := set_Deployments;
  with_meta := appsv1.Deployment_withMeta; as_stored := fun new => new;
  persist := fun _ new => new |}.

#[global] Instance ConfigMap_Object : Object corev1.ConfigMap := {|
  kind := KConfigMap; meta_of := corev1.ConfigMap_Meta;
  objects := ConfigMaps; set_objects := set_ConfigMaps;
  with_meta := corev1.ConfigMap_withMeta; as_stored := corev1.ConfigMap_stored;
  persist := fun _ new => corev1.ConfigMap_stored new |}.

#[global] Instance Service_Object : Object corev1.Service := {|
  kind := KService; meta_of := corev1.Service_Meta;
  objects := Services; set_objects := set_Services;
  with_meta := corev1.Service_withMeta; as_stored := fun new => new;
  persist := fun _ new => new |}.

#[global] Instance Ingress_Object : Object netv1.Ingress := {|
  kind := KIngress; meta_of := netv1.Ingress_Meta;
  objects := Ingresses; set_objects := set_Ingresses;
  with_meta := netv1.Ingress_withMeta; as_stored := fun new => new;
  persist := fun _ new => new |}.

(** [r.Status().Update(ctx, web)]: only the status of the stored object
    is replaced. *)
Definition StatusUpdate (web : v1alpha1.WebServer) : M (result v1alpha1.WebServer) :=
  request VStatusUpdate KWebServer (key_of web) (fun c =>
    match lookup_obj (key_of web) (WebServers c) with
    | None => inl (NotFound "not found")
    | Some old =>
        let new := v1alpha1.WebServer_withStatus (v1alpha1.WebServer_Status web) old in
        inr (new, set_WebServers (replace_obj new (WebServers c)) c)
    end).

(** [r.List(ctx, list, client.InNamespace(ns), client.MatchingFields{field: value})]
    over Pages: the stored pages of the namespace that the index registered
    under [field] files under [value], in the order the store holds them. *)
Definition ListPages (ns : string) (index : v1alpha1.Page -> list string) (value : string)
    : M (result (list v1alpha1.Page)) :=
  request VList KPage {| types.Namespace := ns; types.Name := value |} (fun c =>
    inr (List.filter
           (fun p => bool_decide (Namespace (v1alpha1.Page_Meta p) = ns)
                     && bool_decide (value ∈ index p))
           (Pages c), c)).

(** [ctrl.SetControllerReference(web, obj, scheme)]: records [web] as the
    controlling owner in the metadata of a child built by the reconciler.
    For a freshly built child of the namespace of its owner it succeeds. *)
Definition SetControllerReference (web : v1alpha1.WebServer) (m : ObjectMeta) : ObjectMeta :=
  withOwner {| OwnerKind := "WebServer";
               OwnerName := Name (v1alpha1.WebServer_Meta web);
               Controller := true |} m.

End client.
Import client.

Declare Scope go_scope.
Delimit Scope go_scope with go.
Notation "x <- c ;; k" := (bind c (fun x => k))
(at level 100, c at next level, right associativity) : go_scope.
Notation "c ;;; k" := (bind c (fun _ => k))
(at level 100, right associativity) : go_scope.
Local Open Scope go_scope.

(* ------------------------------------------------------------------ *)
(** ** controllers/pages: the Page reconciler *)

Module pages.

Import metav1 v1alpha1.

(** [type PageData map[string][]byte]; [None] is the nil map. *)
Abbreviation PageData := (option (gmap string bytes)).

Definition pageFinalizer : string := "tomasji.github.com/finalizer".
Definition webServerKey : string := "spec.webserver".

(** The index [SetupWithManager] registers under [webServerKey]. *)
Definition webServerIndex (page : Page) : list string :=
  [PageSpec_WebServer (Page_Spec page)].

(** *** The cache: [GetData], [SetData], [DataDiffer] *)

(** [r.Data[webNsName]]: a missing key reads as the nil map. *)
Definition GetData (webNsName : NamespacedName) : M PageData := fun w =>
  (default None (Data w !! webNsName), w).

Definition SetData (webNsName : NamespacedName) (data : PageData) : M unit := fun w =>
  (tt, {| cluster := cluster w; faults := faults w; trace := trace w;
          Data := <[webNsName := data]> (Data w) |}).

(** The loop of [DataDiffer] over [oldData]: some key of [oldData] is
    missing from [newData] or carries other bytes there.  Go visits the
    keys in an unspecified order and stops at the first such key; which
    one comes first does not change the answer. *)
Definition someKeyDiffers (oldData newData : gmap string bytes) : bool :=
  existsb (fun kv =>
             match newData !! kv.1 with
             | None => true
             | Some new => negb (bytes_Equal kv.2 new)
             end)
          (map_to_list oldData).

(** [DataDiffer] compares 2 maps and returns true if they differ *)
Definition DataDiffer (oldData newData : PageData) : bool :=
  match oldData, newData with
  | None, None => false
  | None, Some _ => true
  | Some _, None => true
  | Some o, Some n =>
      if negb (size o =? size n)%nat then true
      else someKeyDiffers o n
  end.

(** *** The digest: [makeHash] *)

(** [data[k]]: a missing key (and the nil map) read as the nil slice *)
Definition valueAt (data : PageData) (k : string) : bytes :=
  match data with
  | Some m => default [] (m !! k)
  | None => []
  end.

(** What the loop over the sorted keys writes into the hash: for each
    key, the key and then the bytes stored under it. *)
Definition hashInput (data : PageData) (keys : list string) : bytes :=
  fold_left (fun h k => h ++ bytes_of_string k ++ valueAt data k) keys [].

(** [makeHash], for the order [range data] happened to yield the keys in. *)
Definition makeHashFrom (rangeOrder : list string) (data : PageData) : string :=
  let keys := sort_Strings rangeOrder in
  Base64.EncodeToString (SHA1.Sum (hashInput data keys)).

Definition keysOf (data : PageData) : list string :=
  match data with
  | Some m => (map_to_list m).*1
  | None => []
  end.

Definition makeHash (data : PageData) : string :=
  makeHashFrom (keysOf data) data.

(** *** Fetching and finalizers *)

(** [getPage]: [(nil, nil)] when the page is gone, [(nil, err)] on any
    other failure, [(page, nil)] otherwise. *)
Definition getPage (namespacedName : NamespacedName) : M (option Page * option error) :=
  r <- Get namespacedName ;;
  match r with
  | Ok page => ret (Some page, None)
  | Err err =>
      if IsNotFound err then ret (None, None)
      else logError err "Failed to get page" ;;; ret (None, Some err)
  end.

(** [addFinalizer]: the page as the caller holds it afterwards, and the
    error. *)
Definition addFinalizer (page : Page) : M (Page * option error) :=
  let (m, finalizerAdded) := controllerutil.AddFinalizer (Page_Meta page) pageFinalizer in
  let page := Page_withMeta m page in
  if negb finalizerAdded then ret (page, None)
  else
    r <- Update page ;;
    match r with
    | Ok page' => ret (page', None)
    | Err err =>
        logError err "Failed to update custom resource to add finalizer" ;;;
        ret (page, Some err)
    end.

Definition removeFinalizer (page : Page) : M (Page * option error) :=
  let (m, finalizerRemoved) := controllerutil.RemoveFinalizer (Page_Meta page) pageFinalizer in
  let page := Page_withMeta m page in
  if negb finalizerRemoved then ret (page, None)
  else
    r <- Update page ;;
    match r with
    | Ok page' => ret (page', None)
    | Err err =>
        logError err "Failed to update custom resource to remove finalizer" ;;;
        ret (page, Some err)
    end.

(** [getWebServer]: both kinds of failure are logged (at different
    levels) and returned. *)
Definition getWebServer (namespacedName : NamespacedName) : M (result WebServer) :=
  r <- Get namespacedName ;;
  match r with
  | Ok webserver => ret (Ok webserver)
  | Err err =>
      if IsNotFound err then ret (Err err)
      else logError err "Failed to get WebServer for Page." ;;; ret (Err err)
  end.

(** *** Aggregation: [prepareData] *)

(** The loop of [prepareData] over [list.Items]. *)
Definition collect (items : list Page) : gmap string bytes :=
  fold_left
    (fun newData i =>
       match GetDeletionTimestamp i with
       | Some _ => newData
       | None => <[PageSpec_Name (Page_Spec i) :=
                     bytes_of_string (PageSpec_Contents (Page_Spec i))]> newData
       end)
    items ∅.

Definition prepareData (namespace webServer : string) : M (bool * string * option error) :=
  let nsName := {| types.Namespace := namespace; types.Name := webServer |} in
  r <- ListPages namespace webServerIndex webServer ;;
  match r with
  | Err err => ret (false, EmptyString, Some err)
  | Ok items =>
      let newData := Some (collect items) in
      oldData <- GetData nsName ;;
      if DataDiffer oldData newData then
        SetData nsName newData ;;;
        ret (true, makeHash newData, None)
      else ret (false, EmptyString, None)
  end.

(** [setWebStatus] *)
Definition setWebStatus (web : WebServer) (hash : string) : M (option error) :=
  let conditions :=
    meta.SetStatusCondition (Conditions (WebServer_Status web))
      {| Type_ := "UpToDate"; Status := ConditionFalse;
         Reason := "PageChanged"; Message := "Reconciling" |} in
  let web := WebServer_withStatus {| Conditions := conditions |} web in
  let annotations := default ∅ (Annotations (WebServer_Meta web)) in
  let web := WebServer_withMeta
               (withAnnotations (Some (<["pages" := hash]> annotations))
                  (WebServer_Meta web)) web in
  r <- Update web ;;
  match r with
  | Err err => logError err "Failed to update WebServer status" ;;; ret (Some err)
  | Ok _ => ret None
  end.

(** *** [Reconcile] *)

Definition Reconcile (req : NamespacedName) : M (result unit) :=
  r <- getPage req ;;
  match r with
  | (None, None) => ret (Ok tt)
  | (None, Some err) => ret (Err err)
  | (Some page, _) =>
      let markedForDeletion := bool_decide (GetDeletionTimestamp page <> None) in
      r <- (if negb markedForDeletion then addFinalizer page else ret (page, None)) ;;
      let (page, err) := r in
      match err with
      | Some err => ret (Err err)
      | None =>
          let namespace := Namespace (Page_Meta page) in
          let webServer := PageSpec_WebServer (Page_Spec page) in
          r <- getWebServer {| types.Namespace := namespace; types.Name := webServer |} ;;
          match r with
          | Err err => ret (Err err)
          | Ok web =>
              r <- prepareData namespace webServer ;;
              let '(dataChanged, hash, err) := r in
              (match err with
               | Some err => logError err "Failed to get web page data"
               | None => ret tt
               end) ;;;
              err <- (if dataChanged then setWebStatus web hash else ret None) ;;
              match err with
              | Some err => ret (Err err)
              | None =>
                  r <- (if markedForDeletion then removeFinalizer page
                        else ret (page, None)) ;;
                  match r.2 with
                  | Some err => ret (Err err)
                  | None => ret (Ok tt)
                  end
              end
          end
      end
  end.

End pages.

(* ------------------------------------------------------------------ *)
(** ** controllers/config and controllers/webserver *)

Module config.

Record Config := {
  IngressDomain : string;
  IngressClass : string }.

End config.

Module webserver.

Import metav1 v1alpha1 appsv1 corev1 netv1.

Record Reconciler := { Cfg : config.Config }.

Definition typeAvailableWeb : string := "Available".

(** [reconcileHelperFunc]: the result is [None] when the step panicked
    instead of returning. *)
Definition reconcileHelperFunc : Type := WebServer -> M (option (result WebServer)).

Definition returned {A} (m : M (result A)) : M (option (result A)) :=
  r <- m ;; ret (Some r).

(** [getObj]: as [pages.getPage], for the WebServer. *)
Definition getObj (namespacedName : NamespacedName) : M (option WebServer * option error) :=
  r <- Get namespacedName ;;
  match r with
  | Ok web => ret (Some web, None)
  | Err err =>
      if IsNotFound err then ret (None, None)
      else logError err "Failed to get webserver" ;;; ret (None, Some err)
  end.

(** [setStatus] updates status conditions, returns the updated web object *)
Definition setStatus (web : WebServer) (status : ConditionStatus) (message : string)
    : M (result WebServer) :=
  let statusReason : string := "Reconciling" in
  let conditions :=
    meta.SetStatusCondition (Conditions (WebServer_Status web))
      {| Type_ := typeAvailableWeb; Status := status;
         Reason := statusReason; Message := message |} in
  let web := WebServer_withStatus {| Conditions := conditions |} web in
  r <- StatusUpdate web ;;
  match r with
  | Err err => logError err "Failed to update WebServer status" ;;; ret (Err err)
  | Ok web =>
      r <- Get (nsName (WebServer_Meta web)) ;;
      match r with
      | Err err => logError err "Failed to re-fetch webserver" ;;; ret (Err err)
      | Ok web => ret (Ok web)
      end
  end.

(** [failWithStatus] logs the error and tries to set web status.Conditions.
    returns {nil, error} *)
Definition failWithStatus (web : WebServer) (err : error) (msg : string)
    : M (result WebServer) :=
  logError err msg ;;;
  r <- setStatus web ConditionFalse "Failed to create deployment" ;;
  (match r with
   | Err _ => logError err "failed to set status"
   | Ok _ => ret tt
   end) ;;;
  ret (Err err).

Definition selectorLabels (appName : string) : gmap string string :=
  <["app.kubernetes.io/part-of" := "webid-operator"]>
    (<["app.kubernetes.io/name" := appName +:+ "-nginx"]> ∅).

(** *** Deployment *)

Definition createDeployment (web : WebServer) : M (option error) :=
  let volName : string := "config" in
  let configMountPath : string := "/etc/web" in
  let name := Name (WebServer_Meta web) in
  let labels := selectorLabels name in
  let deployment :=
    {| Deployment_Meta := newMeta name (Namespace (WebServer_Meta web)) labels;
       Deployment_Replicas := Some (Replicas (WebServer_Spec web));
       Deployment_Selector := labels;
       Deployment_TemplateLabels := labels;
       Deployment_Containers :=
         [ {| Container_Image := Image (WebServer_Spec web);
              Container_Name := "main";
              Container_ImagePullPolicy := "IfNotPresent";
              Container_Ports :=
                [ {| ContainerPort_Port := 80; ContainerPort_Name := "http" |} ];
              Container_VolumeMounts :=
                [ {| VolumeMount_Name := volName; VolumeMount_ReadOnly := true;
                     VolumeMount_MountPath := configMountPath |} ] |} ];
       Deployment_Volumes := [ {| Volume_Name := volName; Volume_ConfigMap := name |} ] |} in
  let deployment :=
    Deployment_withMeta (SetControllerReference web (Deployment_Meta deployment)) deployment in
  r <- Create deployment ;;
  match r with
  | Err err => logError err "Failed to create new Deployment" ;;; ret (Some err)
  | Ok _ => ret None
  end.

(** [deploymentDiffers] returns true if docker image or number of replicas
    are different than expected.  [None]: the call panics, on the nil
    dereference [*deployment.Spec.Replicas].  Go evaluates the right
    operand of [||] only when the left one is false. *)
Definition deploymentDiffers (web : WebServer) (deployment : Deployment) : option bool :=
  if negb (length (Deployment_Containers deployment) =? 1)%nat then Some true
  else
    match Deployment_Containers deployment with
    | [] => None
    | c0 :: _ =>
        if bool_decide (Image (WebServer_Spec web) <> Container_Image c0) then Some true
        else
          match Deployment_Replicas deployment with
          | None => None
          | Some replicas =>
              Some (bool_decide (Replicas (WebServer_Spec web) <> replicas))
          end
    end.

(** [%d] of [fmt] *)
Definition decimal (n : nat) : string := NilEmpty.string_of_uint (Nat.to_uint n).

Definition containersError (deployment : Deployment) : error :=
  Failure ("deployment '" +:+ Name (Deployment_Meta deployment) +:+ "' has "
           +:+ decimal (length (Deployment_Containers deployment))
           +:+ " containers (expected 1)").

(** [updateDeployment] updates image and/or replicas of the deployment *)
Definition updateDeployment (web : WebServer) (deployment : Deployment) : M (option error) :=
  if negb (length (Deployment_Containers deployment) =? 1)%nat then
    r <- Delete deployment ;;
    (match r with
     | Err delErr => logError delErr "deleting deployment"
     | Ok _ => ret tt
     end) ;;;
    ret (Some (containersError deployment))
  else
    let containers :=
      match Deployment_Containers deployment with
      | c0 :: rest => Container_withImage (Image (WebServer_Spec web)) c0 :: rest
      | [] => []
      end in
    let deployment :=
      {| Deployment_Meta := Deployment_Meta deployment;
         Deployment_Replicas := Some (Replicas (WebServer_Spec web));
         Deployment_Selector := Deployment_Selector deployment;
         Deployment_TemplateLabels := Deployment_TemplateLabels deployment;
         Deployment_Containers := containers;
         Deployment_Volumes := Deployment_Volumes deployment |} in
    r <- Update deployment ;;
    match r with
    | Err err => ret (Some err)
    | Ok _ => ret None
    end.

(** [reconcileDeployment] gets the deployment (NS+name is same as of the
    web resource); if not found, create it; if found, compare it with the
    required status, update if necessary *)
Definition reconcileDeployment (r : Reconciler) : reconcileHelperFunc := fun web =>
  g <- Get (nsName (WebServer_Meta web)) ;;
  match g with
  | Err err =>
      if negb (IsNotFound err)
      then returned (failWithStatus web err "Failed to fetch deployment")
      else
        e <- createDeployment web ;;
        match e with
        | Some err => returned (failWithStatus web err "Failed to create deployment")
        | None => ret (Some (Ok web))
        end
  | Ok deployment =>
      match deploymentDiffers web deployment with
      | None => ret None
      | Some true =>
          e <- updateDeployment web deployment ;;
          match e with
          | Some err => returned (failWithStatus web err "Failed to update deployment")
          | None => ret (Some (Ok web))
          end
      | Some false => ret (Some (Ok web))
      end
  end.

(** *** ConfigMaps *)

Definition typeConfig : string := "config".
Definition typeData : string := "data".
Definition fileConfig : string := "default.conf".

Definition ConfigCMName (base : string) : string := base +:+ "-" +:+ typeConfig.
Definition DataCMName (base : string) : string := base +:+ "-" +:+ typeData.

Definition nginxConfigData : string := "
server {
    listen       80;
    listen  [::]:80;
    server_name  localhost;

    location / {
        root   /var/www;
        autoindex on;
        autoindex_exact_size off;
        autoindex_format html;
        autoindex_localtime on;
        default_type text/html;
        index  index.html index.htm;
    }

    error_page   500 502 503 504  /50x.html;
    location = /50x.html {
        root   /usr/share/nginx/html;
    }
}
".

(** [createConfigMap] creates a configMap, set ownership to web *)
Definition createConfigMap (web : WebServer) (name : string)
    (items : option (gmap string bytes)) : M (option error) :=
  let labels : gmap string string :=
    <["app.kubernetes.io/part-of" := "webid-operator"]>
      (<["app.kubernetes.io/name" := name]> ∅) in
  let configMap :=
    {| ConfigMap_Meta :=
         SetControllerReference web (newMeta name (Namespace (WebServer_Meta web)) labels);
       ConfigMap_BinaryData := items |} in
  r <- Create configMap ;;
  match r with
  | Err err => logError err "Failed to create new ConfigMap" ;;; ret (Some err)
  | Ok _ => ret None
  end.

Definition createConfigCM (web : WebServer) : M (option error) :=
  createConfigMap web (ConfigCMName (Name (WebServer_Meta web)))
    (Some (<[fileConfig := bytes_of_string nginxConfigData]> ∅)).

(** [r.DataProvider] is the Page reconciler: its [GetData] and
    [DataDiffer]. *)
Definition createDataCM (web : WebServer) : M (option error) :=
  data <- pages.GetData (nsName (WebServer_Meta web)) ;;
  createConfigMap web (DataCMName (Name (WebServer_Meta web))) data.

Definition configMapDiffers (configMap : ConfigMap) (data : option (gmap string bytes)) : bool :=
  pages.DataDiffer (ConfigMap_BinaryData configMap) data.

Definition updateConfigMap (configMap : ConfigMap) (data : option (gmap string bytes))
    : M (option error) :=
  let configMap :=
    {| ConfigMap_Meta := ConfigMap_Meta configMap; ConfigMap_BinaryData := data |} in
  r <- Update configMap ;;
  match r with
  | Err err => ret (Some err)
  | Ok _ => ret None
  end.

(** [reconcileConfigCM] gets the configMap with nginx configuration; if not
    found, create it *)
Definition reconcileConfigCM (r : Reconciler) : reconcileHelperFunc := fun web =>
  let cmName := ConfigCMName (Name (WebServer_Meta web)) in
  let nsName := {| types.Namespace := Namespace (WebServer_Meta web); types.Name := cmName |} in
  g <- Get (A := ConfigMap) nsName ;;
  match g with
  | Err err =>
      if negb (IsNotFound err)
      then returned (failWithStatus web err "Failed to fetch configMap")
      else
        e <- createConfigCM web ;;
        match e with
        | Some err => returned (failWithStatus web err "Failed to create configMap")
        | None => ret (Some (Ok web))
        end
  | Ok _ => ret (Some (Ok web))
  end.

(** [reconcileDataCM] gets the configMap with nginx web pages; if not
    found, create it; if not up to date, update it *)
Definition reconcileDataCM (r : Reconciler) : reconcileHelperFunc := fun web =>
  let cmName := DataCMName (Name (WebServer_Meta web)) in
  let nsName := {| types.Namespace := Namespace (WebServer_Meta web); types.Name := cmName |} in
  g <- Get nsName ;;
  match g with
  | Err err =>
      if negb (IsNotFound err)
      then returned (failWithStatus web err "Failed to fetch configMap")
      else
        e <- createDataCM web ;;
        match e with
        | Some err => returned (failWithStatus web err "Failed to create configMap")
        | None => ret (Some (Ok web))
        end
  | Ok configMap =>
      data <- pages.GetData (metav1.nsName (WebServer_Meta web)) ;;
      if configMapDiffers configMap data then
        e <- updateConfigMap configMap data ;;
        match e with
        | Some err => returned (failWithStatus web err "Failed to update configMap")
        | None => ret (Some (Ok web))
        end
      else ret (Some (Ok web))
  end.

(** *** Service *)

Definition createService (r : Reconciler) (web : WebServer) : M (option error) :=
  let httpPort : string := "http" in
  let name := Name (WebServer_Meta web) in
  let labels : gmap string string :=
    <["app.kubernetes.io/part-of" := "webid-operator"]>
      (<["app.kubernetes.io/name" := name +:+ "-nginx"]> ∅) in
  let service :=
    {| Service_Meta :=
         SetControllerReference web (newMeta name (Namespace (WebServer_Meta web)) labels);
       Service_Ports := [ {| ServicePort_Name := httpPort; ServicePort_Port := 80 |} ];
       Service_Selector := selectorLabels name |} in
  r <- Create service ;;
  match r with
  | Err err => logError err "Failed to create new Service" ;;; ret (Some err)
  | Ok _ => ret None
  end.

(** [reconcileService] gets the service (NS+name is same as of the web
    resource); if not found, create it *)
Definition reconcileService (r : Reconciler) : reconcileHelperFunc := fun web =>
  g <- Get (A := Service) (nsName (WebServer_Meta web)) ;;
  match g with
  | Err err =>
      if negb (IsNotFound err)
      then returned (failWithStatus web err "Failed to fetch service")
      else
        e <- createService r web ;;
        match e with
        | Some err => returned (failWithStatus web err "Failed to create service")
        | None => ret (Some (Ok web))
        end
  | Ok _ => ret (Some (Ok web))
  end.

(** *** Ingress *)

Definition createIngress (r : Reconciler) (web : WebServer) : M (option error) :=
  let httpPort : string := "http" in
  let name := Name (WebServer_Meta web) in
  let labels : gmap string string :=
    <["app.kubernetes.io/part-of" := "webid-operator"]>
      (<["app.kubernetes.io/name" := name +:+ "-nginx"]> ∅) in
  let ingress :=
    {| Ingress_Meta :=
         SetControllerReference web (newMeta name (Namespace (WebServer_Meta web)) labels);
       Ingress_ClassName := Some (config.IngressClass (Cfg r));
       Ingress_Rules :=
         [ {| Host := config.IngressDomain (Cfg r);
              Paths := [ {| Path := "/"; PathType := "Prefix";
                            Backend_ServiceName := name;
                            Backend_PortName := httpPort |} ] |} ] |} in
  r <- Create ingress ;;
  match r with
  | Err err => logError err "Failed to create new Ingress" ;;; ret (Some err)
  | Ok _ => ret None
  end.

(** [reconcileIngress] gets the ingress (NS+name is same as of the web
    resource); if not found, create it *)
Definition reconcileIngress (r : Reconciler) : reconcileHelperFunc := fun web =>
  g <- Get (A := Ingress) (nsName (WebServer_Meta web)) ;;
  match g with
  | Err err =>
      if negb (IsNotFound err)
      then returned (failWithStatus web err "Failed to fetch ingress")
      else
        e <- createIngress r web ;;
        match e with
        | Some err => returned (failWithStatus web err "Failed to create ingress")
        | None => ret (Some (Ok web))
        end
  | Ok _ => ret (Some (Ok web))
  end.

(** *** [Reconcile] *)

Definition reconcileFuncs (r : Reconciler) : list reconcileHelperFunc :=
  [ reconcileDeployment r;
    reconcileConfigCM r;
    reconcileDataCM r;
    reconcileService r;
    reconcileIngress r ].

(** The loop [for _, reconcileFunc := range reconcileFuncs]: the first
    step that does not hand back a WebServer ends it. *)
Fixpoint runSteps (fs : list reconcileHelperFunc) (web : WebServer)
    : M (option (result WebServer)) :=
  match fs with
  | [] => ret (Some (Ok web))
  | reconcileFunc :: rest =>
      x <- reconcileFunc web ;;
      match x with
      | Some (Ok web) => runSteps rest web
      | Some (Err err) => ret (Some (Err err))
      | None => ret None
      end
  end.

Definition Reconcile (r : Reconciler) (req : NamespacedName) : M (option (result unit)) :=
  g <- getObj req ;;
  match g with
  | (None, None) => ret (Some (Ok tt))
  | (None, Some err) => ret (Some (Err err))
  | (Some web, _) =>
      s <- (if (length (Conditions (WebServer_Status web)) =? 0)%nat
            then setStatus web ConditionUnknown "Starting reconciliation"
            else ret (Ok web)) ;;
      match s with
      | Err err => ret (Some (Err err))
      | Ok web =>
          x <- runSteps (reconcileFuncs r) web ;;
          match x with
          | None => ret None
          | Some (Err err) => ret (Some (Err err))
          | Some (Ok web) =>
              s <- setStatus web ConditionTrue "Finished reconciliation" ;;
              match s with
              | Err err => ret (Some (Err err))
              | Ok _ => ret (Some (Ok tt))
              end
          end
      end
  end.

End webserver.

(* ------------------------------------------------------------------ *)
(** ** Concrete clusters used to exercise the reconcilers *)

Module fixtures.

Import metav1 v1alpha1 appsv1 corev1.

Definition emptyCluster : Cluster :=
  {| Pages := []; WebServers := []; Deployments := []; ConfigMaps := [];
     Services := []; Ingresses := [] |}.

Definition world (c : Cluster) (fs : list (option error))
    (data : gmap NamespacedName (option (gmap string bytes))) : World :=
  {| cluster := c; faults := fs; trace := []; Data := data |}.

Definition nn (ns name : string) : NamespacedName :=
  {| types.Namespace := ns; types.Name := name |}.

(** Site [s1] of scenario 1: image [x:1], two replicas. *)
Definition s1 : WebServer :=
  {| WebServer_Meta := newMeta "s1" "default" ∅;
     WebServer_Spec := {| Image := "x:1"; Replicas := 2 |};
     WebServer_Status := {| Conditions := [] |} |}.

Definition mkPage (name : string) (fs : list string) (del : option Z)
    (display contents site : string) : Page :=
  {| Page_Meta := withFinalizers fs
                    {| Name := name; Namespace := "default"; Labels := ∅;
                       Annotations := None; Finalizers := [];
                       DeletionTimestamp := del; OwnerReferences := [] |};
     Page_Spec := {| PageSpec_Name := display; PageSpec_Contents := contents;
                     PageSpec_WebServer := site |} |}.

(** Page [p1] of scenario 2, as the user creates it. *)
Definition p1 : Page := mkPage "p1" [] None "idx" "hello" "s1".

(** [p1] once reconciled and then deleted by the user: the finalizer is
    on, the deletion timestamp is set. *)
Definition p1_deleting : Page :=
  mkPage "p1" [pages.pageFinalizer] (Some 1700000000) "idx" "hello" "s1".

Definition idxHello : gmap string bytes := <["idx" := bytes_of_string "hello"]> ∅.

Definition withPages (ps : list Page) (c : Cluster) : Cluster := set_Pages ps c.
Definition withSites (ws : list WebServer) (c : Cluster) : Cluster := set_WebServers ws c.

(** Page [p2], being deleted. *)
Definition p2_deleting : Page :=
  mkPage "p2" [pages.pageFinalizer] (Some 1700000000) "about" "bye" "s1".

Definition twoPages : World :=
  world (withPages [p2_deleting; p1] emptyCluster) [] ∅.

(** [p1] alone: the site it names does not exist. *)
Definition orphan : World := world (withPages [p1] emptyCluster) [] ∅.

(** [p1] being deleted, its site gone, its entry still cached. *)
Definition orphanDeleting : World :=
  world (withPages [p1_deleting] emptyCluster) [] (<[nn "default" "s1" := Some idxHello]> ∅).

(** [p1] being deleted under site [s1], its entry cached; the API server
    lets two requests through and fails the third one. *)
Definition listingFails : World :=
  world (withSites [s1] (withPages [p1_deleting] emptyCluster))
        [None; None; Some (Failure "list failed")]
        (<[nn "default" "s1" := Some idxHello]> ∅).

(** A Deployment of [s1] left with another image and no replica count. *)
Definition foreignDeployment : Deployment :=
  {| Deployment_Meta := newMeta "s1" "default" ∅;
     Deployment_Replicas := None;
     Deployment_Selector := ∅;
     Deployment_TemplateLabels := ∅;
     Deployment_Containers :=
       [ {| Container_Image := "y:9"; Container_Name := "main";
            Container_ImagePullPolicy := "Always";
            Container_Ports := []; Container_VolumeMounts := [] |} ];
     Deployment_Volumes := [] |}.

(** Site [s1] alone, nothing created yet. *)
Definition freshSite : World := world (withSites [s1] emptyCluster) [] ∅.

(** As [freshSite], but the API server fails the twelfth request, the fetch
    of the Ingress. *)
Definition ingressDown : World :=
  world (withSites [s1] emptyCluster)
        (replicate 11 None ++ [Some (Failure "connection refused")]) ∅.

(** A Deployment of [s1] that has lost its container. *)
Definition brokenDeployment : Deployment :=
  {| Deployment_Meta := newMeta "s1" "default" ∅;
     Deployment_Replicas := Some 2;
     Deployment_Selector := ∅;
     Deployment_TemplateLabels := ∅;
     Deployment_Containers := [];
     Deployment_Volumes := [] |}.

Definition brokenWorkload : World :=
  world (set_Deployments [brokenDeployment] (withSites [s1] emptyCluster)) [] ∅.

(** [p1] once reconciled: the finalizer is on. *)
Definition p1_active : Page := mkPage "p1" [pages.pageFinalizer] None "idx" "hello" "s1".

(** [p1] and [s1] at rest: the cache holds the aggregate of the pages. *)
Definition atRest : World :=
  world (withSites [s1] (withPages [p1_active] emptyCluster)) []
        (<[nn "default" "s1" := Some idxHello]> ∅).

(** [p1] reconciled for the first time after its finalizer was set: the
    cache holds nothing for [s1] yet. *)
Definition firstAggregate : World :=
  world (withSites [s1] (withPages [p1_active] emptyCluster)) [] ∅.

(** As [firstAggregate], but the fourth request, the update of the site,
    fails. *)
Definition siteUpdateFails : World :=
  world (withSites [s1] (withPages [p1_active] emptyCluster))
        [None; None; None; Some (Failure "conflict")] ∅.

(** A Service of [s1] that has drifted: no port, no selector. *)
Definition driftedService : Service :=
  {| Service_Meta := newMeta "s1" "default" ∅; Service_Ports := [];
     Service_Selector := ∅ |}.

Definition drifted : World :=
  world (set_Services [driftedService] (withSites [s1] emptyCluster)) [] ∅.

(** [s1] with the foreign Deployment in place. *)
Definition foreignWorkload : World :=
  world (set_Deployments [foreignDeployment] (withSites [s1] emptyCluster)) [] ∅.

(** The data ConfigMap of [s1], created before any page was reconciled. *)
Definition emptyDataCM : ConfigMap :=
  {| ConfigMap_Meta := newMeta "s1-data" "default" ∅; ConfigMap_BinaryData := None |}.

(** [s1] with that ConfigMap, after the pages were aggregated. *)
Definition staleDataCM : World :=
  world (set_ConfigMaps [emptyDataCM] (withSites [s1] emptyCluster)) []
        (<[nn "default" "s1" := Some idxHello]> ∅).

Definition rec : webserver.Reconciler :=
  {| webserver.Cfg := {| config.IngressDomain := "example.org";
                         config.IngressClass := "nginx" |} |}.

End fixtures.

(* ------------------------------------------------------------------ *)
(** ** The vocabulary of the specification *)

Module vocabulary.

Import metav1 v1alpha1 pages.

(** The events of a run that started in [w] and ended in [w']. *)
Definition since (w w' : World) : list Event := skipn (length (trace w)) (trace w').

(** The equality rule, in the words of the specification. *)
Definition sizesDiffer (a b : gmap string bytes) : Prop := size a <> size b.

Definition keyMissing (a b : gmap string bytes) : Prop :=
  exists k, (is_Some (a !! k) /\ b !! k = None) \/ (a !! k = None /\ is_Some (b !! k)).

Definition sharedValueDiffers (a b : gmap string bytes) : Prop :=
  exists k x y, a !! k = Some x /\ b !! k = Some y /\ x <> y.

Definition differsRule (oldData newData : PageData) : Prop :=
  match oldData, newData with
  | None, None => False
  | None, Some _ | Some _, None => True
  | Some a, Some b => sizesDiffer a b \/ keyMissing a b \/ sharedValueDiffers a b
  end.

(** What is written into the hash for one key. *)
Definition chunk (data : PageData) (k : string) : bytes :=
  bytes_of_string k ++ valueAt data k.

(** The pages the aggregate of site [site] of namespace [ns] is made of,
    in the words of the specification: same namespace, site-reference
    equal to the name of the site, not marked for deletion. *)
Definition contributes (ns site : string) (p : Page) : bool :=
  bool_decide (Namespace (Page_Meta p) = ns)
  && bool_decide (PageSpec_WebServer (Page_Spec p) = site)
  && bool_decide (GetDeletionTimestamp p = None).

Definition entry (p : Page) : string * bytes :=
  (PageSpec_Name (Page_Spec p), bytes_of_string (PageSpec_Contents (Page_Spec p))).

(** The map from display-name to content bytes built from those pages; of
    two pages with one display-name the later one of the listing stays. *)
Definition aggregateOf (ns site : string) (ps : list Page) : gmap string bytes :=
  list_to_map (rev (map entry (List.filter (contributes ns site) ps))).

Definition live (p : Page) : bool := bool_decide (GetDeletionTimestamp p = None).

Definition listed (ns site : string) (p : Page) : bool :=
  bool_decide (Namespace (Page_Meta p) = ns) && bool_decide (site ∈ webServerIndex p).

(** "When the WebServer of the page cannot be fetched, [Reconcile] returns
    that error before the aggregate is recomputed and before any finalizer
    is touched", said of the run of [Reconcile req] from [w]: once the
    fetch has failed, the error is the result, and the run holds no listing
    of pages and no update of a page. *)
Definition fetchFailureComesFirst (req : NamespacedName) (w : World) : Prop :=
  forall n e,
    In (Call VGet KWebServer n (Some e)) (since w (pages.Reconcile req w).2) ->
    (pages.Reconcile req w).1 = Err e
    /\ (forall n' o, ~ In (Call VList KPage n' o) (since w (pages.Reconcile req w).2))
    /\ (forall n' o, ~ In (Call VUpdate KPage n' o) (since w (pages.Reconcile req w).2)).

(** "[deploymentDiffers] is total only if a Deployment with one container
    carries a replica count", said of one call. *)
Definition totalOnlyWithReplicas (web : WebServer) (deployment : appsv1.Deployment) : Prop :=
  length (appsv1.Deployment_Containers deployment) = 1%nat ->
  webserver.deploymentDiffers web deployment <> None ->
  appsv1.Deployment_Replicas deployment <> None.

(** The children of the sites, as stored. *)
Definition children (c : Cluster)
    : list appsv1.Deployment * list corev1.ConfigMap * list corev1.Service * list netv1.Ingress :=
  (Deployments c, ConfigMaps c, Services c, Ingresses c).

(** Events that concern the WebServer object itself or the log, not a
    child and not a page. *)
Definition aboutSite (ev : Event) : Prop :=
  match ev with
  | Call _ k _ _ => k = KWebServer
  | LogError _ _ => True
  end.

(** The fetches of children among the events, in order: which child each
    ensure-step looked for. *)
Definition childFetches (l : list Event) : list (Kind * NamespacedName) :=
  omap (fun ev =>
          match ev with
          | Call VGet k n _ => if bool_decide (k = KWebServer) then None else Some (k, n)
          | _ => None
          end) l.

(** The five children of a site, in the order of the ensure-steps:
    Deployment, config ConfigMap, data ConfigMap, Service, Ingress. *)
Definition expectedFetches (web : WebServer) : list (Kind * NamespacedName) :=
  let ns := metav1.Namespace (WebServer_Meta web) in
  let name := metav1.Name (WebServer_Meta web) in
  [ (KDeployment, {| types.Namespace := ns; types.Name := name |});
    (KConfigMap, {| types.Namespace := ns; types.Name := webserver.ConfigCMName name |});
    (KConfigMap, {| types.Namespace := ns; types.Name := webserver.DataCMName name |});
    (KService, {| types.Namespace := ns; types.Name := name |});
    (KIngress, {| types.Namespace := ns; types.Name := name |}) ].

(** The condition of type [Available] on the stored WebServer [req]. *)
Definition availableCondition (req : NamespacedName) (w : World) : option metav1.Condition :=
  match lookup_obj req (WebServers (cluster w)) with
  | Some web => meta.FindStatusCondition (Conditions (WebServer_Status web)) "Available"
  | None => None
  end.

(** The start of [webserver.Reconcile], up to the loop over the steps:
    [Available=Unknown] is written when the site has no condition yet. *)
Definition startOfPass (web : WebServer) : M (result WebServer) :=
  if (length (Conditions (WebServer_Status web)) =? 0)%nat
  then webserver.setStatus web metav1.ConditionUnknown "Starting reconciliation"
  else ret (Ok web).

(** "[Available] is set with the reasons [Starting reconciliation] and
    [Finished reconciliation]", said of the run of [Reconcile r req] from
    [w]: the condition written at the start of the pass of a site
    without conditions, and the one stored when the pass has succeeded. *)
Definition reasonsAsStated (r : webserver.Reconciler) (req : NamespacedName) (w : World)
    : Prop :=
  (forall web w1 web0 w0,
      webserver.getObj req w = ((Some web, None), w1) ->
      Conditions (WebServer_Status web) = [] ->
      webserver.setStatus web metav1.ConditionUnknown "Starting reconciliation" w1
      = (Ok web0, w0) ->
      exists c, availableCondition req w0 = Some c
                /\ metav1.Status c = metav1.ConditionUnknown
                /\ metav1.Reason c = "Starting reconciliation")
  /\ (forall w',
         webserver.Reconcile r req w = (Some (Ok tt), w') ->
         exists c, availableCondition req w' = Some c
                   /\ metav1.Status c = metav1.ConditionTrue
                   /\ metav1.Reason c = "Finished reconciliation").

(** The world after one more request, answered [o], that changed nothing
    stored. *)
Definition answered (v : Verb) (k : Kind) (n : NamespacedName) (o : option error)
    (w : World) : World :=
  {| cluster := cluster w; faults := tail (faults w);
     trace := trace w ++ [Call v k n o]; Data := Data w |}.

(** The stored objects other than the WebServers. *)
Definition besidesSites (c : Cluster)
    : list Page * list appsv1.Deployment * list corev1.ConfigMap
      * list corev1.Service * list netv1.Ingress :=
  (Pages c, Deployments c, ConfigMaps c, Services c, Ingresses c).

(** The cluster without the WebServers and without the children of kind
    [k]: what a step for a child of kind [k] has no business with. *)
Definition forget (k : Kind) (c : Cluster) : Cluster :=
  {| Pages := Pages c;
     WebServers := [];
     Deployments := if bool_decide (k = KDeployment) then [] else Deployments c;
     ConfigMaps := if bool_decide (k = KConfigMap) then [] else ConfigMaps c;
     Services := if bool_decide (k = KService) then [] else Services c;
     Ingresses := if bool_decide (k = KIngress) then [] else Ingresses c |}.

(** A step that minds its own child: it changes no stored object but
    children of kind [k] and, when it fails, the WebServer; it leaves the
    cache alone; and when it succeeds it hands back the WebServer it was
    given and has not written to any WebServer. *)
Definition mindsOnly (k : Kind) (step : webserver.reconcileHelperFunc) : Prop :=
  forall web w,
    forget k (cluster (step web w).2) = forget k (cluster w)
    /\ Data (step web w).2 = Data w
    /\ (forall web', (step web w).1 = Some (Ok web') ->
          web' = web /\ WebServers (cluster (step web w).2) = WebServers (cluster w)).



(** The name [name] in the namespace of the site. *)
Definition childName (web : WebServer) (name : string) : NamespacedName :=
  {| types.Namespace := metav1.Namespace (WebServer_Meta web); types.Name := name |}.




(** The five children of the site are stored and the two the reconciler
    keeps up to date are up to date: the Deployment is in order for
    [deploymentDiffers], the data ConfigMap does not differ from the cached
    aggregate of the pages. *)
Definition settled (web : WebServer) (w : World) : Prop :=
  let name := metav1.Name (WebServer_Meta web) in
  (exists dep, lookup_obj (childName web name) (Deployments (cluster w)) = Some dep
               /\ webserver.deploymentDiffers web dep = Some false)
  /\ is_Some (lookup_obj (childName web (webserver.ConfigCMName name)) (ConfigMaps (cluster w)))
  /\ (exists data,
        lookup_obj (childName web (webserver.DataCMName name)) (ConfigMaps (cluster w))
        = Some data
        /\ webserver.configMapDiffers data
             (default None (Data w !! metav1.nsName (WebServer_Meta web))) = false)
  /\ is_Some (lookup_obj (childName web name) (Services (cluster w)))
  /\ is_Some (lookup_obj (childName web name) (Ingresses (cluster w))).

End vocabulary.
Import vocabulary.

(* ================================================================== *)
(** * Properties *)

(* ------------------------------------------------------------------ *)
(** ** The codecs on known inputs *)

(** SHA-1 of ["abc"], the test vector of FIPS 180. *)
Example SHA1_abc :
  map byte_to_Z (SHA1.Sum (bytes_of_string "abc"))
  = [169; 153; 62; 54; 71; 6; 129; 106; 186; 62; 37; 113; 120; 80; 194; 108;
     156; 208; 216; 157].
Proof. vm_compute. reflexivity. Qed.

Example Base64_padding :
  Base64.EncodeToString (bytes_of_string "hello") = "aGVsbG8="%string
  /\ Base64.EncodeToString (bytes_of_string "hell") = "aGVsbA=="%string
  /\ Base64.EncodeToString (bytes_of_string "hello!") = "aGVsbG8h"%string.
Proof. vm_compute. repeat split; reflexivity. Qed.

(** The digest of the aggregate of scenario 2, and of the empty one. *)
Example makeHash_idx_hello :
  pages.makeHash (Some fixtures.idxHello) = "oWpI/JxWWRlzW6NvU6Dvnn7umkw="%string
  /\ pages.makeHash (Some ∅) = "2jmj7l5rSw0yVb/vlWAYkK/YBwk="%string.
Proof. vm_compute. split; reflexivity. Qed.

(* ------------------------------------------------------------------ *)
(** ** The order of [sort.Strings] *)

Section string_order.

Lemma str_le_trans a b c : str_le a b -> str_le b c -> str_le a c.
Proof.
  unfold str_le, String.leb. revert b c.
  induction a as [|x a IH]; intros [|y b] [|z c]; simpl; try congruence.
  unfold Ascii.compare.
  destruct (N.compare_spec (N_of_ascii x) (N_of_ascii y)) as [E1|E1|E1];
  destruct (N.compare_spec (N_of_ascii y) (N_of_ascii z)) as [E2|E2|E2];
  destruct (N.compare_spec (N_of_ascii x) (N_of_ascii z)) as [E3|E3|E3];
  try congruence; try lia; eauto.
Qed.

#[local] Instance str_le_transitive : Transitive str_le.
Proof. intros a b c. apply str_le_trans. Qed.

#[local] Instance str_le_antisymm : AntiSymm eq str_le.
Proof. intros a b. apply String.leb_antisym. Qed.

#[local] Instance str_le_total : Total str_le.
Proof. intros a b. apply String.leb_total. Qed.

Lemma sort_Strings_sorted keys : Sorted str_le (sort_Strings keys).
Proof. apply Sorted_merge_sort, _. Qed.

Lemma sort_Strings_perm keys : sort_Strings keys ≡ₚ keys.
Proof. apply merge_sort_Permutation. Qed.

(** Sorting forgets the order the keys came in. *)
Lemma sort_Strings_order_irrelevant keys keys' :
  keys ≡ₚ keys' -> sort_Strings keys = sort_Strings keys'.
Proof.
  intros Hp. apply (Sorted_unique str_le); try apply sort_Strings_sorted.
  now rewrite !sort_Strings_perm.
Qed.

End string_order.

(* ------------------------------------------------------------------ *)
(** ** The cache's equality rule: [DataDiffer] *)

Module DataDiffer_facts.

Import pages.

Lemma someKeyDiffers_true a b :
  someKeyDiffers a b = true <->
  exists k x, a !! k = Some x /\
              (b !! k = None \/ exists y, b !! k = Some y /\ x <> y).
Proof.
  unfold someKeyDiffers. rewrite existsb_exists. split.
  - intros [[k x] [Hin Hf]]. apply list_elem_of_In, elem_of_map_to_list in Hin.
    exists k, x. split; [exact Hin|]. simpl in Hf.
    destruct (b !! k) as [y|]; [right|now left].
    exists y. split; [reflexivity|].
    unfold bytes_Equal in Hf. apply negb_true_iff, bool_decide_eq_false in Hf. exact Hf.
  - intros (k & x & Ha & Hb). exists (k, x). split.
    + apply list_elem_of_In, elem_of_map_to_list. exact Ha.
    + simpl. destruct Hb as [-> | (y & -> & Hne)]; [reflexivity|].
      unfold bytes_Equal. apply negb_true_iff, bool_decide_eq_false. exact Hne.
Qed.

Lemma someKeyDiffers_false a b : someKeyDiffers a b = false <-> a ⊆ b.
Proof.
  rewrite map_subseteq_spec. split.
  - intros Hf k x Ha.
    destruct (b !! k) as [y|] eqn:Hb.
    + destruct (decide (x = y)) as [->|Hne]; [reflexivity|].
      assert (someKeyDiffers a b = true) as Ht; [|congruence].
      apply someKeyDiffers_true. exists k, x. split; [exact Ha|]. right. eauto.
    + assert (someKeyDiffers a b = true) as Ht; [|congruence].
      apply someKeyDiffers_true. exists k, x. split; [exact Ha|]. now left.
  - intros Hsub. apply not_true_is_false. intros Ht.
    apply someKeyDiffers_true in Ht as (k & x & Ha & Hb).
    apply Hsub in Ha. destruct Hb as [Hb | (y & Hb & Hne)]; congruence.
Qed.

(** Two present aggregates do not differ exactly when they are the same
    map. *)
Lemma DataDiffer_present a b : DataDiffer (Some a) (Some b) = false <-> a = b.
Proof.
  unfold DataDiffer. split.
  - destruct (size a =? size b)%nat eqn:Hs; simpl; [|discriminate].
    apply Nat.eqb_eq in Hs. intros Hf. apply someKeyDiffers_false in Hf.
    apply map_subseteq_size_eq; [exact Hf | lia].
  - intros ->. rewrite Nat.eqb_refl. simpl. now apply someKeyDiffers_false.
Qed.

Lemma differsRule_present a b : differsRule (Some a) (Some b) <-> a <> b.
Proof.
  simpl. split.
  - intros [Hs | [(k & Hk) | (k & x & y & Ha & Hb & Hne)]] ->.
    + now apply Hs.
    + destruct Hk as [[[x Hx] Hn] | [Hn [x Hx]]]; congruence.
    + congruence.
  - intros Hne.
    destruct (DataDiffer (Some a) (Some b)) eqn:Hd.
    + unfold DataDiffer in Hd.
      destruct (size a =? size b)%nat eqn:Hs; simpl in Hd.
      * apply someKeyDiffers_true in Hd as (k & x & Ha & [Hb | (y & Hb & Hxy)]).
        -- right; left. exists k. left. split; [eauto | exact Hb].
        -- right; right. exists k, x, y. auto.
      * left. apply Nat.eqb_neq in Hs. exact Hs.
    + apply DataDiffer_present in Hd. contradiction.
Qed.

Lemma DataDiffer_rule oldData newData :
  DataDiffer oldData newData = true <-> differsRule oldData newData.
Proof.
  destruct oldData as [a|], newData as [b|].
  - rewrite differsRule_present.
    destruct (DataDiffer (Some a) (Some b)) eqn:Hd.
    + split; [|reflexivity]. intros _ ->.
      assert (DataDiffer (Some b) (Some b) = false) by now apply DataDiffer_present.
      congruence.
    + apply DataDiffer_present in Hd. split; [discriminate | contradiction].
  - simpl. tauto.
  - simpl. tauto.
  - simpl. split; [discriminate | contradiction].
Qed.

Lemma DataDiffer_refl A : DataDiffer A A = false.
Proof. destruct A as [a|]; [now apply DataDiffer_present | reflexivity]. Qed.

Lemma DataDiffer_sym oldData newData :
  DataDiffer oldData newData = DataDiffer newData oldData.
Proof.
  destruct oldData as [a|], newData as [b|]; try reflexivity.
  destruct (DataDiffer (Some a) (Some b)) eqn:H1, (DataDiffer (Some b) (Some a)) eqn:H2;
    try reflexivity.
  - apply DataDiffer_present in H2. subst. rewrite DataDiffer_refl in H1. discriminate.
  - apply DataDiffer_present in H1. subst. rewrite DataDiffer_refl in H2. discriminate.
Qed.

(** C2. [DataDiffer] follows the equality rule of the cache: two absent
    aggregates do not differ, an absent and a present one differ, and two
    present ones differ exactly when their sizes differ, or a key of one
    is missing from the other, or a shared key carries different bytes.
    Hence an aggregate never differs from itself, the absent aggregate
    differs from the empty one, and the answer does not depend on the
    order of the two arguments. *)
Theorem DataDiffer_equality_rule :
  (forall oldData newData : PageData,
      DataDiffer oldData newData = true <-> differsRule oldData newData)
  /\ DataDiffer None None = false
  /\ (forall b, DataDiffer None (Some b) = true /\ DataDiffer (Some b) None = true)
  /\ (forall A : PageData, DataDiffer A A = false)
  /\ DataDiffer None (Some ∅) = true
  /\ (forall oldData newData : PageData,
         DataDiffer oldData newData = DataDiffer newData oldData).
Proof.
  split; [exact DataDiffer_rule|].
  split; [reflexivity|].
  split; [intros b; split; reflexivity|].
  split; [exact DataDiffer_refl|].
  split; [reflexivity | exact DataDiffer_sym].
Qed.

End DataDiffer_facts.

(* ------------------------------------------------------------------ *)
(** ** The digest: [makeHash] *)

Module makeHash_facts.

Import pages.

Lemma hashInput_from data keys acc :
  fold_left (fun h k => h ++ bytes_of_string k ++ valueAt data k) keys acc
  = acc ++ concat (map (chunk data) keys).
Proof.
  revert acc. induction keys as [|k keys IH]; intros acc; simpl.
  - now rewrite app_nil_r.
  - rewrite IH. unfold chunk. now rewrite <- !app_assoc.
Qed.

(** The bytes hashed are the chunks of the keys, key first and value
    second, laid end to end in the order of the sorted keys. *)
Lemma hashInput_concat data keys :
  hashInput data keys = concat (map (chunk data) keys).
Proof. unfold hashInput. now rewrite hashInput_from. Qed.

(** The keys are visited in sorted order, each key of the aggregate
    once. *)
Lemma makeHash_keys (m : gmap string bytes) :
  Sorted str_le (sort_Strings (keysOf (Some m)))
  /\ NoDup (sort_Strings (keysOf (Some m)))
  /\ forall k, k ∈ sort_Strings (keysOf (Some m)) <-> is_Some (m !! k).
Proof.
  split; [apply sort_Strings_sorted|]. split.
  - rewrite sort_Strings_perm. apply NoDup_fst_map_to_list.
  - intros k. rewrite sort_Strings_perm. simpl. rewrite list_elem_of_fmap. split.
    + intros [[k' v] [-> Hin]]. apply elem_of_map_to_list in Hin. eauto.
    + intros [v Hv]. exists (k, v). split; [reflexivity|].
      now apply elem_of_map_to_list.
Qed.

Lemma makeHash_unfold data :
  makeHash data
  = Base64.EncodeToString
      (SHA1.Sum (concat (map (chunk data) (sort_Strings (keysOf data))))).
Proof. unfold makeHash, makeHashFrom. now rewrite hashInput_concat. Qed.

(** The order in which [range data] yields the keys does not show in the
    digest: the keys are sorted before anything is hashed. *)
Lemma makeHashFrom_order_irrelevant data order order' :
  order ≡ₚ order' -> makeHashFrom order data = makeHashFrom order' data.
Proof.
  intros Hp. unfold makeHashFrom.
  now rewrite (sort_Strings_order_irrelevant order order' Hp).
Qed.

(** Two aggregates filled with the same entries in different orders have
    the same digest. *)
Lemma makeHash_insertion_order (entries entries' : list (string * bytes)) :
  NoDup entries.*1 -> entries ≡ₚ entries' ->
  makeHash (Some (list_to_map entries)) = makeHash (Some (list_to_map entries')).
Proof.
  intros Hnd Hp.
  now rewrite (list_to_map_proper (M := gmap string) entries entries' Hnd Hp).
Qed.

Lemma keysOf_insert_present (m : gmap string bytes) k v v' :
  m !! k = Some v -> keysOf (Some (<[k := v']> m)) ≡ₚ keysOf (Some m).
Proof.
  intros Hk. simpl. apply NoDup_Permutation; try apply NoDup_fst_map_to_list.
  intros k'. rewrite !list_elem_of_fmap. split.
  - intros [[k0 x] [-> Hin]]. apply elem_of_map_to_list in Hin. simpl.
    destruct (decide (k = k0)) as [<-|Hne].
    + exists (k, v). split; [reflexivity|]. now apply elem_of_map_to_list.
    + rewrite lookup_insert_ne in Hin by exact Hne.
      exists (k0, x). split; [reflexivity|]. now apply elem_of_map_to_list.
  - intros [[k0 x] [-> Hin]]. apply elem_of_map_to_list in Hin. simpl.
    destruct (decide (k = k0)) as [<-|Hne].
    + exists (k, v'). split; [reflexivity|].
      apply elem_of_map_to_list. apply lookup_insert_eq.
    + exists (k0, x). split; [reflexivity|].
      apply elem_of_map_to_list. now rewrite lookup_insert_ne.
Qed.

(** Replacing the bytes stored under one key by other bytes changes the
    byte sequence that is hashed. *)
Lemma hashInput_value_sensitive (m : gmap string bytes) k v v' :
  m !! k = Some v -> v' <> v ->
  hashInput (Some (<[k := v']> m)) (sort_Strings (keysOf (Some (<[k := v']> m))))
  <> hashInput (Some m) (sort_Strings (keysOf (Some m))).
Proof.
  intros Hk Hne.
  rewrite (sort_Strings_order_irrelevant _ _ (keysOf_insert_present m k v v' Hk)).
  rewrite !hashInput_concat.
  destruct (makeHash_keys m) as (_ & Hnd & Hin).
  assert (k ∈ sort_Strings (keysOf (Some m))) as Hmem by (apply Hin; eauto).
  apply list_elem_of_split in Hmem as (l1 & l2 & Hsplit).
  rewrite Hsplit in *. clear Hsplit Hin.
  apply NoDup_app in Hnd as (_ & Hl1 & Hnd2).
  apply NoDup_cons in Hnd2 as (Hl2 & _).
  assert (forall l, k ∉ l ->
            map (chunk (Some (<[k := v']> m))) l = map (chunk (Some m)) l) as Hsame.
  { intros l Hl. apply map_ext_in. intros k' Hk'.
    unfold chunk, valueAt. rewrite lookup_insert_ne; [reflexivity|].
    intros ->. apply Hl, list_elem_of_In, Hk'. }
  rewrite !map_app, !concat_app. simpl.
  rewrite (Hsame l1), (Hsame l2); [|exact Hl2|].
  2:{ intros Hc. apply (Hl1 k Hc). left. }
  intros Heq. apply app_inv_head in Heq.
  apply app_inv_tail in Heq. unfold chunk, valueAt in Heq.
  rewrite lookup_insert_eq, Hk in Heq. simpl in Heq.
  apply app_inv_head in Heq. congruence.
Qed.

End makeHash_facts.

(* ------------------------------------------------------------------ *)
(** ** Requests *)

Section request_facts.

Context {A : Type} (v : Verb) (k : Kind) (n : NamespacedName)
        (serve : Cluster -> error + A * Cluster).

Lemma request_served w a c :
  next_fault w = None -> serve (cluster w) = inr (a, c) ->
  request v k n serve w
  = (Ok a, {| cluster := c; faults := tail (faults w);
              trace := trace w ++ [Call v k n None]; Data := Data w |}).
Proof. intros Hf Hs. unfold request. now rewrite Hf, Hs. Qed.

Lemma request_refused w e :
  next_fault w = None -> serve (cluster w) = inl e ->
  request v k n serve w
  = (Err e, {| cluster := cluster w; faults := tail (faults w);
               trace := trace w ++ [Call v k n (Some e)]; Data := Data w |}).
Proof. intros Hf Hs. unfold request. now rewrite Hf, Hs. Qed.

Lemma request_failed w e :
  next_fault w = Some e ->
  request v k n serve w
  = (Err e, {| cluster := cluster w; faults := tail (faults w);
               trace := trace w ++ [Call v k n (Some e)]; Data := Data w |}).
Proof. intros Hf. unfold request. now rewrite Hf. Qed.

(** A request never touches the cache, and adds exactly one event. *)
Lemma request_frame w :
  Data (request v k n serve w).2 = Data w
  /\ exists o, trace (request v k n serve w).2 = trace w ++ [Call v k n o].
Proof.
  unfold request. destruct (next_fault w) as [e|]; simpl; [eauto|].
  destruct (serve (cluster w)) as [e|[a c]]; simpl; eauto.
Qed.

(** A failed request leaves the stored objects as they were. *)
Lemma request_Err_cluster w e w' :
  request v k n serve w = (Err e, w') -> cluster w' = cluster w.
Proof.
  unfold request. destruct (next_fault w) as [e0|].
  - intros [= <- <-]. reflexivity.
  - destruct (serve (cluster w)) as [e0|[a c]]; intros [= <- <-] || intros [=].
    reflexivity.
Qed.

End request_facts.

Lemma since_app w w' l : trace w' = trace w ++ l -> since w w' = l.
Proof. intros H. unfold since. rewrite H. apply drop_app_length. Qed.

Section client_facts.

Context `{Object A}.

(** What [Get] tells: on success the request got through and the object
    is the stored one; either way nothing stored or cached changes. *)
Lemma Get_inv (n : NamespacedName) w (r : result A) w' :
  Get n w = (r, w') ->
  Data w' = Data w /\ cluster w' = cluster w /\ faults w' = tail (faults w)
  /\ match r with
     | Ok a => next_fault w = None
               /\ lookup_obj n (objects (cluster w)) = Some a
               /\ trace w' = trace w ++ [Call VGet kind n None]
     | Err e => trace w' = trace w ++ [Call VGet kind n (Some e)]
                /\ (next_fault w = Some e
                    \/ next_fault w = None /\ e = NotFound "not found"
                       /\ lookup_obj n (objects (cluster w)) = None)
     end.
Proof.
  unfold Get, request, serveGet. intros Hg.
  repeat case_match; simplify_eq; simpl; repeat split; auto;
    try reflexivity.
Qed.

(** What [Update] tells. *)
Lemma Update_inv (a : A) w (r : result A) w' :
  Update a w = (r, w') ->
  Data w' = Data w
  /\ match r with
     | Ok new =>
         exists old,
           lookup_obj (key_of a) (objects (cluster w)) = Some old
           /\ new = persist old a
           /\ next_fault w = None
           /\ cluster w'
              = set_objects
                  (if finalised new
                   then remove_obj (key_of a) (objects (cluster w))
                   else replace_obj new (objects (cluster w)))
                  (cluster w)
           /\ trace w' = trace w ++ [Call VUpdate kind (key_of a) None]
     | Err e => cluster w' = cluster w
                /\ trace w' = trace w ++ [Call VUpdate kind (key_of a) (Some e)]
     end.
Proof.
  unfold Update, request, serveUpdate. intros Hg.
  repeat case_match; simplify_eq; simpl; repeat split; auto;
    try reflexivity;
    eexists; repeat split; eauto; try reflexivity; congruence.
Qed.

(** What [Create] tells. *)
Lemma Create_inv (a : A) w (r : result unit) w' :
  Create a w = (r, w') ->
  Data w' = Data w
  /\ match r with
     | Ok _ => cluster w' = set_objects (objects (cluster w) ++ [as_stored a]) (cluster w)
               /\ trace w' = trace w ++ [Call VCreate kind (key_of a) None]
     | Err e => cluster w' = cluster w
                /\ trace w' = trace w ++ [Call VCreate kind (key_of a) (Some e)]
     end.
Proof.
  unfold Create, request, serveCreate. intros Hg.
  repeat case_match; simplify_eq; simpl; repeat split; auto;
    try reflexivity.
Qed.

(** What [Delete] tells. *)
Lemma Delete_inv (a : A) w (r : result unit) w' :
  Delete a w = (r, w') ->
  Data w' = Data w
  /\ match r with
     | Ok _ =>
         exists old,
           lookup_obj (key_of a) (objects (cluster w)) = Some old
           /\ cluster w'
              = set_objects
                  (match metav1.Finalizers (meta_of old) with
                   | [] => remove_obj (key_of a) (objects (cluster w))
                   | _ :: _ =>
                       replace_obj (with_meta (metav1.markDeleted (meta_of old)) old)
                         (objects (cluster w))
                   end)
                  (cluster w)
           /\ trace w' = trace w ++ [Call VDelete kind (key_of a) None]
     | Err e => cluster w' = cluster w
                /\ trace w' = trace w ++ [Call VDelete kind (key_of a) (Some e)]
     end.
Proof.
  unfold Delete, request, serveDelete. intros Hg.
  repeat case_match; simplify_eq; simpl; repeat split; auto;
    try reflexivity;
    eexists; repeat split; eauto;
    match goal with H : metav1.Finalizers _ = _ |- _ => now rewrite H end.
Qed.

End client_facts.

(* ------------------------------------------------------------------ *)
(** ** Aggregation: [prepareData] *)

Module prepareData_facts.

Import metav1 v1alpha1 pages.

Lemma collect_from items (acc : gmap string bytes) :
  fold_left
    (fun newData i =>
       match GetDeletionTimestamp i with
       | Some _ => newData
       | None => <[PageSpec_Name (Page_Spec i) :=
                     bytes_of_string (PageSpec_Contents (Page_Spec i))]> newData
       end) items acc
  = fold_left (fun m e => <[e.1 := e.2]> m) (map entry (List.filter live items)) acc.
Proof.
  revert acc. induction items as [|i items IH]; intros acc; [reflexivity|].
  simpl. unfold live at 1.
  destruct (GetDeletionTimestamp i) as [t|] eqn:Hd; simpl; apply IH.
Qed.

Lemma list_to_map_rev (l : list (string * bytes)) :
  (list_to_map (rev l) : gmap string bytes)
  = fold_left (fun m e => <[e.1 := e.2]> m) l ∅.
Proof.
  unfold list_to_map. now rewrite fold_left_rev_right.
Qed.

Lemma filter_live_listed ns site ps :
  List.filter live (List.filter (listed ns site) ps) = List.filter (contributes ns site) ps.
Proof.
  unfold live. induction ps as [|p ps IH]; [reflexivity|]. simpl.
  unfold listed at 1, contributes at 1, webServerIndex.
  destruct (decide (Namespace (Page_Meta p) = ns)) as [Hn|Hn];
    [rewrite (bool_decide_eq_true_2 _ Hn) | rewrite (bool_decide_eq_false_2 _ Hn)];
    simpl; [|exact IH].
  destruct (decide (PageSpec_WebServer (Page_Spec p) = site)) as [Hs|Hs].
  - rewrite (bool_decide_eq_true_2 _ Hs).
    rewrite bool_decide_eq_true_2 by (subst; apply list_elem_of_singleton; reflexivity).
    simpl. destruct (bool_decide (GetDeletionTimestamp p = None)); simpl; now rewrite IH.
  - rewrite (bool_decide_eq_false_2 _ Hs).
    rewrite bool_decide_eq_false_2; [exact IH|].
    intros Hin. apply list_elem_of_singleton in Hin. congruence.
Qed.

(** The loop of [prepareData] over the listing computes [aggregateOf]. *)
Lemma collect_listing ns site ps :
  collect (List.filter (listed ns site) ps) = aggregateOf ns site ps.
Proof.
  unfold collect, aggregateOf.
  now rewrite collect_from, filter_live_listed, list_to_map_rev.
Qed.

(** The keys of the aggregate are the display-names of the contributing
    pages, and every value is the content of such a page. *)
Lemma aggregateOf_lookup ns site ps k :
  (is_Some (aggregateOf ns site ps !! k) <->
   exists p, In p ps /\ contributes ns site p = true /\ PageSpec_Name (Page_Spec p) = k)
  /\ (forall x, aggregateOf ns site ps !! k = Some x ->
        exists p, In p ps /\ contributes ns site p = true
                  /\ PageSpec_Name (Page_Spec p) = k
                  /\ x = bytes_of_string (PageSpec_Contents (Page_Spec p))).
Proof.
  unfold aggregateOf. split.
  - rewrite <- elem_of_dom, dom_list_to_map_L, elem_of_list_to_set.
    rewrite list_elem_of_fmap. split.
    + intros [[k' x] [-> Hin]]. apply list_elem_of_In, in_rev, in_map_iff in Hin.
      destruct Hin as (p & He & Hp). apply filter_In in Hp as [Hp Hc].
      exists p. repeat split; try assumption. now inversion He.
    + intros (p & Hp & Hc & Hk). exists (entry p). split; [now rewrite <- Hk|].
      apply list_elem_of_In. rewrite <- in_rev. apply in_map, filter_In. now split.
  - intros x Hx. apply elem_of_list_to_map_2, list_elem_of_In in Hx.
    rewrite <- in_rev in Hx. apply in_map_iff in Hx as (p & He & Hp).
    apply filter_In in Hp as [Hp Hc]. inversion He; subst.
    exists p. repeat split; assumption.
Qed.

(** [prepareData] when the listing request gets through: the aggregate it
    computes is cached from then on. *)
Lemma prepareData_listed ns site w :
  next_fault w = None ->
  exists changed sha w',
    prepareData ns site w = ((changed, sha, None), w')
    /\ GetData {| types.Namespace := ns; types.Name := site |} w'
       = (Some (aggregateOf ns site (Pages (cluster w))), w')
    /\ (changed = true -> sha = makeHash (Some (aggregateOf ns site (Pages (cluster w)))))
    /\ (changed = DataDiffer (GetData {| types.Namespace := ns; types.Name := site |} w).1
                    (Some (aggregateOf ns site (Pages (cluster w))))).
Proof.
  intros Hf.
  set (agg := aggregateOf ns site (Pages (cluster w))).
  set (nsName := {| types.Namespace := ns; types.Name := site |}).
  unfold prepareData, bind, ListPages.
  erewrite request_served; [|exact Hf|reflexivity].
  fold (listed ns site). rewrite collect_listing. fold agg. fold nsName.
  unfold GetData at 1. simpl.
  destruct (DataDiffer (default None (Data w !! nsName)) (Some agg)) eqn:Hd.
  - simpl. eexists _, _, _. split; [reflexivity|].
    unfold GetData. simpl. rewrite lookup_insert_eq. simpl.
    repeat split; auto.
  - simpl. eexists _, _, _. split; [reflexivity|].
    unfold GetData. simpl.
    destruct (Data w !! nsName) as [[old|]|] eqn:Hold; simpl in Hd |- *;
      try discriminate Hd.
    apply DataDiffer_facts.DataDiffer_present in Hd. subst old.
    repeat split; auto. intros [=].
Qed.

End prepareData_facts.

Module aggregate_recompute.

Import metav1 v1alpha1 pages prepareData_facts.

(** C6. Whenever the listing request of [prepareData] gets through, the
    aggregate it recomputes, which is the cached aggregate of the site
    from then on, is the map built from exactly the stored pages of the
    namespace whose site-reference is the name of the site and that are
    not marked for deletion, each under its display-name with its content
    bytes: every key is the display-name of such a page, every value the
    content of such a page, a page marked for deletion adds nothing, and
    such a page is found under its display-name with its own content unless
    another such page of the same display-name carries other content (then
    the later one of the listing stays). *)
Theorem prepareData_aggregate (ns site : string) (w : World) :
  next_fault w = None ->
  let agg := aggregateOf ns site (Pages (cluster w)) in
  let nsName := {| types.Namespace := ns; types.Name := site |} in
  (exists changed sha w',
      prepareData ns site w = ((changed, sha, None), w')
      /\ GetData nsName w' = (Some agg, w')
      /\ (changed = true -> sha = makeHash (Some agg))
      /\ (changed = DataDiffer (GetData nsName w).1 (Some agg)))
  /\ (forall k,
        is_Some (agg !! k) <->
        exists p, In p (Pages (cluster w))
                  /\ Namespace (Page_Meta p) = ns
                  /\ PageSpec_WebServer (Page_Spec p) = site
                  /\ GetDeletionTimestamp p = None
                  /\ PageSpec_Name (Page_Spec p) = k)
  /\ (forall k x,
        agg !! k = Some x ->
        exists p, In p (Pages (cluster w))
                  /\ Namespace (Page_Meta p) = ns
                  /\ PageSpec_WebServer (Page_Spec p) = site
                  /\ GetDeletionTimestamp p = None
                  /\ PageSpec_Name (Page_Spec p) = k
                  /\ x = bytes_of_string (PageSpec_Contents (Page_Spec p)))
  /\ (forall p,
        In p (Pages (cluster w)) ->
        Namespace (Page_Meta p) = ns ->
        PageSpec_WebServer (Page_Spec p) = site ->
        GetDeletionTimestamp p = None ->
        (forall q, In q (Pages (cluster w)) ->
                   Namespace (Page_Meta q) = ns ->
                   PageSpec_WebServer (Page_Spec q) = site ->
                   GetDeletionTimestamp q = None ->
                   PageSpec_Name (Page_Spec q) = PageSpec_Name (Page_Spec p) ->
                   PageSpec_Contents (Page_Spec q) = PageSpec_Contents (Page_Spec p)) ->
        agg !! PageSpec_Name (Page_Spec p)
        = Some (bytes_of_string (PageSpec_Contents (Page_Spec p)))).
Proof.
  intros Hf agg nsName.
  assert (forall p, contributes ns site p = true <->
                    Namespace (Page_Meta p) = ns
                    /\ PageSpec_WebServer (Page_Spec p) = site
                    /\ GetDeletionTimestamp p = None) as Hc.
  { intros p. unfold contributes.
    rewrite !andb_true_iff, !bool_decide_eq_true. tauto. }
  split; [|split; [|split]].
  - exact (prepareData_listed ns site w Hf).
  - intros k. destruct (aggregateOf_lookup ns site (Pages (cluster w)) k) as [H1 _].
    fold agg in H1. rewrite H1. split.
    + intros (p & Hp & Hcp & Hk). apply Hc in Hcp. exists p. tauto.
    + intros (p & Hp & Hn & Hs & Hd & Hk). exists p. rewrite Hc. tauto.
  - intros k x Hx.
    destruct (aggregateOf_lookup ns site (Pages (cluster w)) k) as [_ H2].
    destruct (H2 x Hx) as (p & Hp & Hcp & Hk & Hv). apply Hc in Hcp.
    exists p. tauto.
  - intros p Hp Hn Hs Hd Hsame.
    destruct (aggregateOf_lookup ns site (Pages (cluster w)) (PageSpec_Name (Page_Spec p)))
      as [H1 H2]. fold agg in H1, H2.
    destruct (proj2 H1) as [x Hx].
    { exists p. rewrite Hc. tauto. }
    destruct (H2 x Hx) as (q & Hq & Hcq & Hk & ->). apply Hc in Hcq as (Hqn & Hqs & Hqd).
    rewrite Hx. now rewrite (Hsame q Hq Hqn Hqs Hqd Hk).
Qed.

(** The theorem at work on the cluster holding [p1] next to a page that is
    being deleted. *)
Lemma prepareData_aggregate_witness :
  next_fault fixtures.twoPages = None
  /\ (exists changed sha w',
         prepareData "default" "s1" fixtures.twoPages = ((changed, sha, None), w')
         /\ GetData (fixtures.nn "default" "s1") w'
            = (Some (aggregateOf "default" "s1" (Pages (cluster fixtures.twoPages))), w')
         /\ (changed = true ->
             sha = makeHash
                     (Some (aggregateOf "default" "s1" (Pages (cluster fixtures.twoPages)))))
         /\ changed = DataDiffer (GetData (fixtures.nn "default" "s1") fixtures.twoPages).1
                        (Some (aggregateOf "default" "s1"
                                 (Pages (cluster fixtures.twoPages))))).
Proof.
  split; [reflexivity|].
  exact (proj1 (prepareData_aggregate "default" "s1" fixtures.twoPages eq_refl)).
Defined.

End aggregate_recompute.

(* ------------------------------------------------------------------ *)
(** ** The Page reconciler, step by step *)

Module pages_facts.

Import metav1 v1alpha1 pages.

Lemma lookup_obj_key `{Object A} (n : NamespacedName) (l : list A) a :
  lookup_obj n l = Some a -> key_of a = n.
Proof.
  unfold lookup_obj. intros Hf. apply find_some in Hf as [_ Hk].
  now apply bool_decide_eq_true in Hk.
Qed.

Lemma lookup_replace_obj `{Object A} (a old : A) (l : list A) :
  lookup_obj (key_of a) l = Some old ->
  lookup_obj (key_of a) (replace_obj a l) = Some a.
Proof.
  unfold lookup_obj, replace_obj. induction l as [|b l IH]; simpl; [discriminate|].
  destruct (bool_decide (key_of b = key_of a)) eqn:Hb; simpl.
  - intros _. now rewrite bool_decide_eq_true_2.
  - rewrite Hb. exact IH.
Qed.

Lemma lookup_remove_obj `{Object A} (n : NamespacedName) (l : list A) :
  lookup_obj n (remove_obj n l) = None.
Proof.
  unfold lookup_obj, remove_obj. induction l as [|b l IH]; simpl; [reflexivity|].
  destruct (bool_decide (key_of b = n)) eqn:Hb; simpl; [exact IH|].
  now rewrite Hb.
Qed.

(** [getPage] hands back a page only when the request got through and the
    page is stored under the requested name. *)
Lemma getPage_found req w page err w1 :
  getPage req w = ((Some page, err), w1) ->
  err = None
  /\ lookup_obj req (Pages (cluster w)) = Some page
  /\ w1 = {| cluster := cluster w; faults := tail (faults w);
             trace := trace w ++ [Call VGet KPage req None]; Data := Data w |}.
Proof.
  unfold getPage, bind, Get, request, serveGet, logError, ret. simpl.
  intros Hg. repeat case_match; simplify_eq; auto.
Qed.

Lemma AddFinalizer_adds m f : f ∈ Finalizers (controllerutil.AddFinalizer m f).1.
Proof.
  unfold controllerutil.AddFinalizer. case_bool_decide; simpl; [assumption|].
  apply elem_of_app. right. now apply list_elem_of_singleton.
Qed.

Lemma AddFinalizer_keeps m f g :
  g ∈ Finalizers m -> g ∈ Finalizers (controllerutil.AddFinalizer m f).1.
Proof.
  unfold controllerutil.AddFinalizer. case_bool_decide; simpl; [trivial|].
  intros Hg. apply elem_of_app. now left.
Qed.

Lemma AddFinalizer_meta m f :
  nsName (controllerutil.AddFinalizer m f).1 = nsName m
  /\ DeletionTimestamp (controllerutil.AddFinalizer m f).1 = DeletionTimestamp m.
Proof. unfold controllerutil.AddFinalizer. case_bool_decide; simpl; auto. Qed.

(** [addFinalizer], when it reports no error: the cache is as before, the
    page the caller holds is the stored one and carries the finalizer on
    top of the tokens it had, and the only request it may have sent is the
    update of that page. *)
Lemma addFinalizer_ok page w1 page' w2 :
  lookup_obj (key_of page) (Pages (cluster w1)) = Some page ->
  addFinalizer page w1 = ((page', None), w2) ->
  Data w2 = Data w1
  /\ lookup_obj (key_of page) (Pages (cluster w2)) = Some page'
  /\ Namespace (Page_Meta page') = Namespace (Page_Meta page)
  /\ Page_Spec page' = Page_Spec page
  /\ pageFinalizer ∈ Finalizers (Page_Meta page')
  /\ (forall g, g ∈ Finalizers (Page_Meta page) -> g ∈ Finalizers (Page_Meta page'))
  /\ (trace w2 = trace w1 \/ trace w2 = trace w1 ++ [Call VUpdate KPage (key_of page) None]).
Proof.
  intros Hst. unfold addFinalizer.
  pose proof (AddFinalizer_adds (Page_Meta page) pageFinalizer) as Hadd.
  pose proof (AddFinalizer_keeps (Page_Meta page) pageFinalizer) as Hkeep.
  pose proof (AddFinalizer_meta (Page_Meta page) pageFinalizer) as [Hns Hdel].
  destruct (controllerutil.AddFinalizer (Page_Meta page) pageFinalizer) as [m added] eqn:Hm.
  simpl in Hadd, Hkeep, Hns, Hdel.
  assert (key_of (Page_withMeta m page) = key_of page) as Hkey by exact Hns.
  destruct added; simpl.
  - unfold bind, logError, ret.
    destruct (Update (Page_withMeta m page) w1) as [[new|e] wu] eqn:Hu; [|discriminate].
    intros [= <- <-].
    apply Update_inv in Hu as (HD & old & Hold & -> & _ & Hc & Hs).
    rewrite Hkey in *. simpl in Hc, Hold |- *.
    assert (finalised (Page_withMeta m page) = false) as Hfin.
    { unfold finalised. simpl. destruct (DeletionTimestamp m); [|reflexivity].
      destruct (Finalizers m); [|reflexivity]. now apply elem_of_nil in Hadd. }
    rewrite Hfin in Hc. rewrite Hc. simpl.
    repeat split; auto.
    + rewrite <- Hkey. eapply lookup_replace_obj. rewrite Hkey. exact Hold.
    + now inversion Hns.
  - unfold controllerutil.AddFinalizer in Hm.
    case_bool_decide; [|discriminate Hm]. injection Hm as <-.
    unfold ret. intros [= <- <-]. destruct page as [pm ps]. simpl in *.
    repeat split; auto.
Qed.

(** [getWebServer], when it fails: nothing stored or cached has changed and
    the failed request is the last one sent. *)
Lemma getWebServer_Err n w2 e w3 :
  getWebServer n w2 = (Err e, w3) ->
  cluster w3 = cluster w2 /\ Data w3 = Data w2
  /\ trace w3
     = trace w2 ++ Call VGet KWebServer n (Some e)
         :: (if IsNotFound e then []
             else [LogError e "Failed to get WebServer for Page."]).
Proof.
  unfold getWebServer, bind, Get, request, serveGet, logError, ret. simpl.
  intros Hg.
  repeat case_match; simplify_eq; simpl; repeat split; auto;
    first [congruence | simpl; rewrite <- ?app_assoc; reflexivity].
Qed.

End pages_facts.

(* ------------------------------------------------------------------ *)
(** ** The Page reconciler when the WebServer cannot be fetched *)

Module webserver_unavailable.

Import metav1 v1alpha1 pages pages_facts.

(** What [addFinalizer] asks of the API server when it succeeds: nothing
    for a page that carries the finalizer, one update of the page
    otherwise. *)
Lemma addFinalizer_requests page w1 page' w2 :
  addFinalizer page w1 = ((page', None), w2) ->
  trace w2
  = trace w1 ++ (if bool_decide (pageFinalizer ∈ Finalizers (Page_Meta page)) then []
                 else [Call VUpdate KPage (key_of page) None]).
Proof.
  unfold addFinalizer, controllerutil.AddFinalizer.
  case_bool_decide; cbn [negb].
  - unfold ret. intros [= _ <-]. now rewrite app_nil_r.
  - unfold bind, logError, ret.
    match goal with
    | |- context [@Update ?T ?O ?a w1] =>
        destruct (@Update T O a w1) as [[new|e] wu] eqn:Hu
    end; [|intros Hr; discriminate Hr].
    intros [= _ <-]. apply Update_inv in Hu as (_ & old & _ & _ & _ & _ & Hs).
    exact Hs.
Qed.

(** C9, as the code has it.  When the fetch of the referenced WebServer
    fails, [Reconcile] returns that very error and stops there: the world
    it leaves is the one the failed fetch left, the cache is untouched, no
    listing of pages has been requested, and no finalizer has been removed
    from the stored page.  A page marked for deletion is stored exactly as
    before and no update of a page has been sent, so its deletion stays
    blocked.  For a page not marked for deletion the finalizer has been
    added and persisted before the fetch: the stored page carries it when
    the call returns, and the update that put it there, if the page did not
    carry it yet, was sent after the fetch of the page and before the fetch
    of the WebServer. *)
Theorem Reconcile_webserver_unavailable req w page w1 page' w2 e w3 :
  getPage req w = ((Some page, None), w1) ->
  (if negb (bool_decide (GetDeletionTimestamp page <> None))
   then addFinalizer page else ret (page, None)) w1 = ((page', None), w2) ->
  getWebServer {| types.Namespace := Namespace (Page_Meta page');
                  types.Name := PageSpec_WebServer (Page_Spec page') |} w2
  = (Err e, w3) ->
  Reconcile req w = (Err e, w3)
  /\ Data w3 = Data w
  /\ (forall n o, ~ In (Call VList KPage n o) (since w w3))
  /\ (exists stored,
         lookup_obj req (Pages (cluster w3)) = Some stored
         /\ forall g, g ∈ Finalizers (Page_Meta page) -> g ∈ Finalizers (Page_Meta stored))
  /\ (GetDeletionTimestamp page <> None ->
      Pages (cluster w3) = Pages (cluster w)
      /\ forall n o, ~ In (Call VUpdate KPage n o) (since w w3))
  /\ (GetDeletionTimestamp page = None ->
      (exists stored,
          lookup_obj req (Pages (cluster w3)) = Some stored
          /\ pageFinalizer ∈ Finalizers (Page_Meta stored))
      /\ since w w3
         = Call VGet KPage req None
             :: (if bool_decide (pageFinalizer ∈ Finalizers (Page_Meta page)) then []
                 else [Call VUpdate KPage req None])
             ++ Call VGet KWebServer
                  {| types.Namespace := Namespace (Page_Meta page');
                     types.Name := PageSpec_WebServer (Page_Spec page') |} (Some e)
             :: (if IsNotFound e then []
                 else [LogError e "Failed to get WebServer for Page."])).
Proof.
  intros H1 H2 H3.
  assert (Reconcile req w = (Err e, w3)) as HR.
  { unfold Reconcile, bind. rewrite H1. cbv zeta. unfold bind in H2. rewrite H2.
    rewrite H3. reflexivity. }
  split; [exact HR|].
  apply getPage_found in H1 as (_ & Hst & ->).
  pose proof (lookup_obj_key _ _ _ Hst) as Hkey. subst req.
  apply getWebServer_Err in H3 as (Hc3 & Hd3 & Ht3).
  destruct (bool_decide (GetDeletionTimestamp page <> None)) eqn:Hmark; simpl in H2.
  - (* marked for deletion: [addFinalizer] is not called *)
    unfold ret in H2. injection H2 as <- <-. simpl in *.
    assert (forall ev, In ev (since w w3) ->
              ev = Call VGet KPage (key_of page) None
              \/ ev = Call VGet KWebServer
                        {| types.Namespace := Namespace (Page_Meta page);
                           types.Name := PageSpec_WebServer (Page_Spec page) |} (Some e)
              \/ exists msg, ev = LogError e msg) as Hev.
    { intros ev. rewrite (since_app w w3 _ ltac:(rewrite Ht3, <- app_assoc; reflexivity)).
      simpl. destruct (IsNotFound e); simpl; intuition eauto. }
    repeat split.
    + congruence.
    + intros n o Hin. apply Hev in Hin as [Hin | [Hin | [msg Hin]]]; discriminate.
    + exists page. rewrite Hc3. split; [exact Hst | auto].
    + now rewrite Hc3.
    + intros n o Hin. apply Hev in Hin as [Hin | [Hin | [msg Hin]]]; discriminate.
    + apply bool_decide_eq_true in Hmark. congruence.
    + apply bool_decide_eq_true in Hmark. congruence.
  - (* not marked: the finalizer is ensured first *)
    apply bool_decide_eq_false in Hmark.
    pose proof (addFinalizer_requests _ _ _ _ H2) as Hreq.
    apply addFinalizer_ok in H2 as (Hd2 & Hst2 & _ & _ & Hhas & Hkeep & Ht2);
      [|exact Hst].
    repeat split.
    + simpl in Hd2. congruence.
    + intros n o Hin.
      assert (exists l, since w w3
                = Call VGet KPage (key_of page) None :: l ++
                  Call VGet KWebServer
                    {| types.Namespace := Namespace (Page_Meta page');
                       types.Name := PageSpec_WebServer (Page_Spec page') |} (Some e)
                  :: (if IsNotFound e then []
                      else [LogError e "Failed to get WebServer for Page."])
                /\ (l = [] \/ l = [Call VUpdate KPage (key_of page) None])) as (l & Hs & Hl).
      { destruct Ht2 as [Ht2 | Ht2]; [exists [] | eexists [_]]; (split; [|auto]);
          apply since_app; rewrite Ht3, Ht2; simpl; rewrite <- ?app_assoc; reflexivity. }
      rewrite Hs in Hin. simpl in Hin. destruct Hin as [Hin | Hin]; [discriminate|].
      apply in_app_or in Hin as [Hin | Hin].
      * destruct Hl as [-> | ->]; simpl in Hin; [contradiction|].
        destruct Hin as [Hin | []]. discriminate.
      * simpl in Hin. destruct Hin as [Hin | Hin]; [discriminate|].
        destruct (IsNotFound e); simpl in Hin; [contradiction|].
        destruct Hin as [Hin | []]. discriminate.
    + exists page'. rewrite Hc3. split; [exact Hst2 | exact Hkeep].
    + contradiction.
    + contradiction.
    + exists page'. rewrite Hc3. split; [exact Hst2 | exact Hhas].
    + apply since_app. rewrite Ht3, Hreq. cbn [trace].
      rewrite <- !app_assoc. reflexivity.
Qed.

(** The theorem on [p1] being deleted after its site is gone. *)
Lemma Reconcile_webserver_unavailable_witness :
  Reconcile (fixtures.nn "default" "p1") fixtures.orphanDeleting
  = (Err (NotFound "not found"),
     (getWebServer (fixtures.nn "default" "s1")
        (getPage (fixtures.nn "default" "p1") fixtures.orphanDeleting).2).2)
  /\ Pages (cluster (getWebServer (fixtures.nn "default" "s1")
                       (getPage (fixtures.nn "default" "p1") fixtures.orphanDeleting).2).2)
     = [fixtures.p1_deleting].
Proof.
  pose proof (Reconcile_webserver_unavailable
                (fixtures.nn "default" "p1") fixtures.orphanDeleting
                fixtures.p1_deleting
                (getPage (fixtures.nn "default" "p1") fixtures.orphanDeleting).2
                fixtures.p1_deleting
                (getPage (fixtures.nn "default" "p1") fixtures.orphanDeleting).2
                (NotFound "not found")
                (getWebServer (fixtures.nn "default" "s1")
                   (getPage (fixtures.nn "default" "p1") fixtures.orphanDeleting).2).2
                eq_refl eq_refl eq_refl) as (HR & _ & _ & _ & Hmarked & _).
  split; [exact HR|].
  exact (proj1 (Hmarked ltac:(discriminate))).
Defined.

(** C9, as stated, fails on [p1] whose site does not exist: the fetch of the
    WebServer fails, and by then the finalizer has been added to the page
    and the page has been updated. *)
Lemma fetch_failure_after_finalizer_added :
  ~ fetchFailureComesFirst (fixtures.nn "default" "p1") fixtures.orphan.
Proof.
  intros Hstated.
  destruct (Hstated (fixtures.nn "default" "s1") (NotFound "not found")) as (_ & _ & Hupd).
  - vm_compute. right. right. left. reflexivity.
  - apply (Hupd (fixtures.nn "default" "p1") None).
    vm_compute. right. left. reflexivity.
Qed.

End webserver_unavailable.

(* ------------------------------------------------------------------ *)
(** ** The finalizer of a page whose listing fails *)

Module stale_cache.

Import metav1 v1alpha1 pages.

(** C1, on the code.  [p1] is being deleted, its entry is cached, and the
    listing request of [prepareData] fails: the failure is logged and
    [Reconcile] goes on, removes the finalizer and persists that, the API
    server completes the deletion, and the call reports success, while the
    cached aggregate of [s1] still holds the entry of the page. *)
Lemma finalizer_removed_on_failed_listing :
  (Reconcile (fixtures.nn "default" "p1") fixtures.listingFails).1 = Ok tt
  /\ since fixtures.listingFails (Reconcile (fixtures.nn "default" "p1") fixtures.listingFails).2
     = [ Call VGet KPage (fixtures.nn "default" "p1") None;
         Call VGet KWebServer (fixtures.nn "default" "s1") None;
         Call VList KPage (fixtures.nn "default" "s1") (Some (Failure "list failed"));
         LogError (Failure "list failed") "Failed to get web page data";
         Call VUpdate KPage (fixtures.nn "default" "p1") None ]
  /\ lookup_obj (fixtures.nn "default" "p1") (Pages (cluster fixtures.listingFails))
     = Some fixtures.p1_deleting
  /\ lookup_obj (fixtures.nn "default" "p1")
       (Pages (cluster (Reconcile (fixtures.nn "default" "p1") fixtures.listingFails).2))
     = None
  /\ (GetData (fixtures.nn "default" "s1")
        (Reconcile (fixtures.nn "default" "p1") fixtures.listingFails).2).1
     = Some fixtures.idxHello
  /\ fixtures.idxHello !! "idx" = Some (bytes_of_string "hello").
Proof. vm_compute. repeat split; reflexivity. Qed.

End stale_cache.

(* ------------------------------------------------------------------ *)
(** ** [deploymentDiffers] and the replica count *)

Module deploymentDiffers_facts.

Import v1alpha1 appsv1 webserver.

(** C10, as the code has it.  [deploymentDiffers] reads the replica count
    only when the Deployment has exactly one container and that container
    runs the image of the spec: the comparison of the images comes first
    and settles the answer when the images differ.  So the call panics
    exactly when there is one container, its image is the expected one and
    the replica count is absent; with another number of containers, or
    another image, the answer is [true] whatever the replica count. *)
Theorem deploymentDiffers_panics_iff (web : WebServer) (deployment : Deployment) :
  (deploymentDiffers web deployment = None <->
   exists c, Deployment_Containers deployment = [c]
             /\ Container_Image c = Image (WebServer_Spec web)
             /\ Deployment_Replicas deployment = None)
  /\ (forall c, Deployment_Containers deployment = [c] ->
        Container_Image c <> Image (WebServer_Spec web) ->
        deploymentDiffers web deployment = Some true)
  /\ (forall c replicas, Deployment_Containers deployment = [c] ->
        Container_Image c = Image (WebServer_Spec web) ->
        Deployment_Replicas deployment = Some replicas ->
        deploymentDiffers web deployment
        = Some (bool_decide (Replicas (WebServer_Spec web) <> replicas)))
  /\ (length (Deployment_Containers deployment) <> 1%nat ->
      deploymentDiffers web deployment = Some true).
Proof.
  unfold deploymentDiffers.
  destruct (Deployment_Containers deployment) as [|c [|c' cs]] eqn:Hcs; simpl.
  - repeat split; try discriminate; try congruence.
    intros (c & Hc & _). discriminate.
  - repeat split.
    + case_bool_decide as Hi; [discriminate|].
      destruct (Deployment_Replicas deployment); [discriminate|].
      intros _. exists c. repeat split. apply dec_stable. congruence.
    + intros (c0 & [= <-] & Hi & Hr). rewrite Hr.
      rewrite bool_decide_eq_false_2; [reflexivity|]. intros Hne. now apply Hne.
    + intros c0 [= <-] Hne. rewrite bool_decide_eq_true_2; [reflexivity|]. congruence.
    + intros c0 replicas [= <-] Hi ->.
      rewrite bool_decide_eq_false_2; [reflexivity|]. intros Hne. now apply Hne.
    + intros Hl. now contradiction Hl.
  - repeat split; try discriminate; try congruence.
    intros (c0 & Hc & _). discriminate.
Qed.

(** The theorem on the Deployment of [s1] that has lost its replica count:
    with the image of the spec the call panics. *)
Lemma deploymentDiffers_panics_iff_witness :
  deploymentDiffers
    {| WebServer_Meta := WebServer_Meta fixtures.s1;
       WebServer_Spec := {| Image := "y:9"; Replicas := 2 |};
       WebServer_Status := WebServer_Status fixtures.s1 |}
    fixtures.foreignDeployment = None.
Proof.
  apply (proj1 (deploymentDiffers_panics_iff _ fixtures.foreignDeployment)).
  eexists. repeat split; reflexivity.
Defined.

(** C10, as stated, fails on a Deployment with one container of another
    image and no replica count: the call answers [true] and has not read
    the replica count. *)
Lemma deploymentDiffers_total_without_replicas :
  ~ totalOnlyWithReplicas fixtures.s1 fixtures.foreignDeployment.
Proof.
  intros Hstated. apply Hstated; [reflexivity | discriminate | reflexivity].
Qed.

End deploymentDiffers_facts.

(* ------------------------------------------------------------------ *)
(** ** The WebServer reconciler, step by step *)

Module webserver_facts.

Import metav1 v1alpha1 appsv1 corev1 netv1 webserver pages_facts.

Lemma FindStatusCondition_Set conditions c :
  meta.FindStatusCondition (meta.SetStatusCondition conditions c) (Type_ c) = Some c.
Proof.
  unfold meta.FindStatusCondition.
  induction conditions as [|x rest IH]; simpl.
  - now rewrite bool_decide_eq_true_2.
  - case_bool_decide as Hx; simpl.
    + now rewrite bool_decide_eq_true_2.
    + rewrite bool_decide_eq_false_2 by exact Hx. exact IH.
Qed.

Lemma childFetches_app l l' : childFetches (l ++ l') = childFetches l ++ childFetches l'.
Proof. apply omap_app. Qed.

Lemma childFetches_aboutSite l : Forall aboutSite l -> childFetches l = [].
Proof.
  induction 1 as [|ev l Hev _ IH]; [reflexivity|].
  change (ev :: l) with ([ev] ++ l). rewrite childFetches_app, IH, app_nil_r.
  destruct ev as [v k n o|e msg]; [|reflexivity].
  simpl in Hev. subst k. now destruct v.
Qed.

(** What [Status().Update] tells. *)
Lemma StatusUpdate_inv web w r w' :
  StatusUpdate web w = (r, w') ->
  Data w' = Data w /\ children (cluster w') = children (cluster w)
  /\ Pages (cluster w') = Pages (cluster w)
  /\ match r with
     | Ok new =>
         exists old,
           lookup_obj (key_of web) (WebServers (cluster w)) = Some old
           /\ new = WebServer_withStatus (WebServer_Status web) old
           /\ WebServers (cluster w') = replace_obj new (WebServers (cluster w))
           /\ trace w' = trace w ++ [Call VStatusUpdate KWebServer (key_of web) None]
     | Err e => cluster w' = cluster w
                /\ trace w' = trace w ++ [Call VStatusUpdate KWebServer (key_of web) (Some e)]
     end.
Proof.
  unfold StatusUpdate, request. intros Hg.
  repeat case_match; simplify_eq; simpl; repeat split; auto.
  eexists; repeat split; eauto.
Qed.

(** [setStatus]: it talks to the API server about the WebServer only; when
    it succeeds, the WebServer it hands back is the stored one and carries
    the condition [Available] with the given status, the reason
    ["Reconciling"] and the given message. *)
Lemma setStatus_inv web status message w r w' :
  setStatus web status message w = (r, w') ->
  Data w' = Data w /\ children (cluster w') = children (cluster w)
  /\ Pages (cluster w') = Pages (cluster w)
  /\ (exists l, trace w' = trace w ++ l /\ Forall aboutSite l)
  /\ match r with
     | Ok web' =>
         lookup_obj (key_of web) (WebServers (cluster w')) = Some web'
         /\ key_of web' = key_of web
         /\ WebServer_Spec web' = WebServer_Spec
              (default web (lookup_obj (key_of web) (WebServers (cluster w))))
         /\ Conditions (WebServer_Status web')
            = meta.SetStatusCondition (Conditions (WebServer_Status web))
                {| Type_ := typeAvailableWeb; Status := status;
                   Reason := "Reconciling"; Message := message |}
         /\ trace w' = trace w ++ [Call VStatusUpdate KWebServer (key_of web) None;
                                   Call VGet KWebServer (key_of web) None]
     | Err _ => True
     end.
Proof.
  unfold setStatus, bind, logError, ret.
  destruct (StatusUpdate _ w) as [[new|e] wu] eqn:Hu.
  - apply StatusUpdate_inv in Hu as (HDu & Hchu & Hpu & old & Hold & Hnew & Hws & Htu).
    change (key_of (WebServer_withStatus ?s web)) with (key_of web) in *.
    assert (key_of new = key_of web) as Hkn.
    { subst new. exact (lookup_obj_key _ _ _ Hold). }
    change (nsName (WebServer_Meta new)) with (key_of new). rewrite Hkn.
    assert (lookup_obj (key_of web) (WebServers (cluster wu)) = Some new) as Hlk.
    { rewrite Hws, <- Hkn. eapply lookup_replace_obj. rewrite Hkn. exact Hold. }
    destruct (Get (key_of web) wu) as [[web'|e] wg] eqn:Hg; intros [= <- <-];
      apply Get_inv in Hg as (HDg & Hcg & _ & Hg); simpl.
    + destruct Hg as (_ & Hl & Htg). simpl in Hl, Htg.
      assert (web' = new) as -> by congruence.
      rewrite Hcg. repeat split; try congruence.
      * eexists. split; [rewrite Htg, Htu, <- app_assoc; reflexivity|].
        repeat constructor.
      * rewrite Hold, Hnew. reflexivity.
      * now rewrite Hnew.
      * rewrite Htg, Htu, <- app_assoc. reflexivity.
    + destruct Hg as (Htg & _). simpl in Htg.
      rewrite Hcg. repeat split; try congruence.
      eexists. split; [rewrite Htg, Htu, <- !app_assoc; reflexivity|].
      repeat constructor.
  - apply StatusUpdate_inv in Hu as (HDu & Hchu & Hpu & Hcu & Htu).
    intros [= <- <-]. simpl. repeat split; auto.
    eexists. split; [rewrite Htu, <- app_assoc; reflexivity|]. repeat constructor.
Qed.

(** [failWithStatus] returns the error it was given, whether or not the
    status could be written; it leaves the children, the pages and the
    cache alone. *)
Lemma failWithStatus_inv web err msg w :
  exists w' l,
    failWithStatus web err msg w = (Err err, w')
    /\ trace w' = trace w ++ LogError err msg :: l
    /\ Forall aboutSite l
    /\ Data w' = Data w
    /\ children (cluster w') = children (cluster w)
    /\ Pages (cluster w') = Pages (cluster w).
Proof.
  unfold failWithStatus, bind, logError, ret.
  match goal with
  | |- context [setStatus ?a ?b ?c ?wl] =>
      destruct (setStatus a b c wl) as [r ws] eqn:Hs
  end.
  apply setStatus_inv in Hs as (HD & Hch & Hp & (l & Ht & Hl) & _). simpl in *.
  destruct r as [web'|e].
  - eexists _, l. split; [reflexivity|]. rewrite Ht, <- app_assoc. auto.
  - eexists _, (l ++ [_]). split; [reflexivity|]. simpl.
    rewrite Ht, <- !app_assoc. repeat split; auto.
    apply Forall_app. split; [exact Hl | repeat constructor].
Qed.

(** Running the calls of a step one after the other. *)
Ltac run_call :=
  match goal with
  | |- context [failWithStatus ?web ?err ?msg ?w] =>
      let w' := fresh "wf" in let l := fresh "lf" in
      let Hf := fresh "Hf" in let Ht := fresh "Htf" in let Hl := fresh "Hlf" in
      let HD := fresh "HDf" in let Hc := fresh "Hcf" in let Hp := fresh "Hpf" in
      destruct (failWithStatus_inv web err msg w) as (w' & l & Hf & Ht & Hl & HD & Hc & Hp);
      rewrite Hf
  | |- context [@Get ?A ?O ?n ?w] =>
      let r := fresh "r" in let w' := fresh "wg" in let Hg := fresh "Hg" in
      destruct (@Get A O n w) as [r w'] eqn:Hg;
      apply Get_inv in Hg as (? & ? & ? & Hg); destruct r; simpl in Hg
  | |- context [@Create ?A ?O ?a ?w] =>
      let r := fresh "r" in let w' := fresh "wc" in let Hg := fresh "Hc" in
      destruct (@Create A O a w) as [r w'] eqn:Hg;
      apply Create_inv in Hg as (? & Hg); destruct r; simpl in Hg
  | |- context [@Update ?A ?O ?a ?w] =>
      let r := fresh "r" in let w' := fresh "wu" in let Hg := fresh "Hu" in
      destruct (@Update A O a w) as [r w'] eqn:Hg;
      apply Update_inv in Hg as (? & Hg); destruct r; simpl in Hg
  | |- context [@Delete ?A ?O ?a ?w] =>
      let r := fresh "r" in let w' := fresh "wd" in let Hg := fresh "Hd" in
      destruct (@Delete A O a w) as [r w'] eqn:Hg;
      apply Delete_inv in Hg as (? & Hg); destruct r; simpl in Hg
  end.

Ltac run_branch :=
  match goal with
  | |- context [if ?b then _ else _] => destruct b eqn:?
  | |- context [match ?x with Some _ => _ | None => _ end] => destruct x eqn:?
  end.

Ltac run := repeat (cbv beta iota; first [run_call | run_branch]); cbv beta iota.

Ltac trace_of_run :=
  simpl; destruct_and?;
  repeat match goal with
         | H : ex _ |- _ => destruct H; destruct_and?
         end;
  repeat (cbn [trace];
          match goal with
          | H : trace ?w' = _ |- context [trace ?w'] => rewrite H
          end);
  cbn [trace]; rewrite <- ?app_assoc; eexists; split; [reflexivity|]; split;
  [ rewrite ?childFetches_app; simpl;
    rewrite ?childFetches_aboutSite by assumption; reflexivity
  | intros ? [=]; congruence ].

Lemma reconcileConfigCM_fetch r web w :
  exists l, trace (reconcileConfigCM r web w).2 = trace w ++ l
    /\ childFetches l = [(KConfigMap, {| types.Namespace := Namespace (WebServer_Meta web);
                                         types.Name := ConfigCMName (Name (WebServer_Meta web)) |})]
    /\ forall web', (reconcileConfigCM r web w).1 = Some (Ok web') -> web' = web.
Proof.
  unfold reconcileConfigCM, createConfigCM, createConfigMap, returned, bind, ret, logError.
  run; trace_of_run.
Qed.

Lemma reconcileDataCM_fetch r web w :
  exists l, trace (reconcileDataCM r web w).2 = trace w ++ l
    /\ childFetches l = [(KConfigMap, {| types.Namespace := Namespace (WebServer_Meta web);
                                         types.Name := DataCMName (Name (WebServer_Meta web)) |})]
    /\ forall web', (reconcileDataCM r web w).1 = Some (Ok web') -> web' = web.
Proof.
  unfold reconcileDataCM, createDataCM, createConfigMap, updateConfigMap, pages.GetData,
    returned, bind, ret, logError.
  run; trace_of_run.
Qed.

Lemma reconcileService_fetch r web w :
  exists l, trace (reconcileService r web w).2 = trace w ++ l
    /\ childFetches l = [(KService, nsName (WebServer_Meta web))]
    /\ forall web', (reconcileService r web w).1 = Some (Ok web') -> web' = web.
Proof.
  unfold reconcileService, createService, returned, bind, ret, logError.
  run; trace_of_run.
Qed.

Lemma reconcileIngress_fetch r web w :
  exists l, trace (reconcileIngress r web w).2 = trace w ++ l
    /\ childFetches l = [(KIngress, nsName (WebServer_Meta web))]
    /\ forall web', (reconcileIngress r web w).1 = Some (Ok web') -> web' = web.
Proof.
  unfold reconcileIngress, createIngress, returned, bind, ret, logError.
  run; trace_of_run.
Qed.

Lemma reconcileDeployment_fetch r web w :
  exists l, trace (reconcileDeployment r web w).2 = trace w ++ l
    /\ childFetches l = [(KDeployment, nsName (WebServer_Meta web))]
    /\ forall web', (reconcileDeployment r web w).1 = Some (Ok web') -> web' = web.
Proof.
  unfold reconcileDeployment, createDeployment, updateDeployment, returned, bind, ret, logError.
  run; trace_of_run.
Qed.


Lemma getObj_found req w web err w1 :
  getObj req w = ((Some web, err), w1) ->
  err = None /\ key_of web = req
  /\ trace w1 = trace w ++ [Call VGet KWebServer req None].
Proof.
  unfold getObj, bind, logError, ret.
  destruct (Get req w) as [[web'|e] wg] eqn:Hg.
  - intros [= <- <- <-]. apply Get_inv in Hg as (_ & _ & _ & _ & Hl & Ht).
    repeat split; [exact (lookup_obj_key _ _ _ Hl) | exact Ht].
  - destruct (IsNotFound e); intros [=].
Qed.

Lemma startOfPass_key web w1 web0 w0 :
  startOfPass web w1 = (Ok web0, w0) -> key_of web0 = key_of web.
Proof.
  unfold startOfPass. destruct (_ =? _)%nat.
  - intros Hs. now apply setStatus_inv in Hs as (_ & _ & _ & _ & _ & Hk & _).
  - unfold ret. now intros [= <- <-].
Qed.

Lemma startOfPass_trace web w1 r0 w0 :
  startOfPass web w1 = (r0, w0) ->
  exists l, trace w0 = trace w1 ++ l /\ Forall aboutSite l.
Proof.
  unfold startOfPass. destruct (_ =? _)%nat.
  - intros Hs. now apply setStatus_inv in Hs as (_ & _ & _ & Hl & _).
  - unfold ret. intros [= <- <-]. exists []. now rewrite app_nil_r.
Qed.

Lemma expectedFetches_key web web' :
  key_of web' = key_of web -> expectedFetches web' = expectedFetches web.
Proof.
  unfold key_of, nsName, expectedFetches. simpl. intros [= -> ->]. reflexivity.
Qed.

(** The loop over the steps stops at the first step that returns an
    error: the result is that error and the world is the one that step
    left. *)
Lemma runSteps_abort pre f post web w webk wk e w' :
  runSteps pre web w = (Some (Ok webk), wk) ->
  f webk wk = (Some (Err e), w') ->
  runSteps (pre ++ f :: post) web w = (Some (Err e), w').
Proof.
  revert web w. induction pre as [|g pre IH]; intros web w Hpre Hf; simpl in *.
  - unfold ret in Hpre. injection Hpre as -> ->. unfold bind. now rewrite Hf.
  - unfold bind in *. destruct (g web w) as [[[web1|e1]|] w1]; try discriminate.
    now apply IH.
Qed.

(** The children fetched by the loop are the first ones of the fixed list,
    in its order, and all five of them when the loop succeeds. *)
Lemma runSteps_fetches r web w :
  exists l k,
    trace (runSteps (reconcileFuncs r) web w).2 = trace w ++ l
    /\ childFetches l = take k (expectedFetches web)
    /\ forall web', (runSteps (reconcileFuncs r) web w).1 = Some (Ok web') ->
                    k = 5%nat /\ web' = web.
Proof.
  assert (forall (x : option (result WebServer)) (w' : World) l k,
             trace w' = trace w ++ l ->
             childFetches l = take k (expectedFetches web) ->
             (forall web', x = Some (Ok web') -> False) ->
             exists l k,
               trace (x, w').2 = trace w ++ l
               /\ childFetches l = take k (expectedFetches web)
               /\ forall web', (x, w').1 = Some (Ok web') -> k = 5%nat /\ web' = web)
    as Hstop.
  { intros x w' l k Ht Hf Hx. exists l, k. repeat split; try assumption;
      exfalso; eapply Hx; eassumption. }
  unfold reconcileFuncs, runSteps, bind.
  destruct (reconcileDeployment_fetch r web w) as (l1 & Ht1 & Hf1 & Hw1).
  destruct (reconcileDeployment r web w) as [[[web1|e1]|] w1]; simpl in Ht1, Hw1;
    [rewrite (Hw1 web1 eq_refl) in *; clear Hw1
    | apply (Hstop _ _ l1 1%nat); [assumption | assumption | discriminate]
    | apply (Hstop _ _ l1 1%nat); [assumption | assumption | discriminate]].
  destruct (reconcileConfigCM_fetch r web w1) as (l2 & Ht2 & Hf2 & Hw2).
  rewrite Ht1, <- app_assoc in Ht2.
  assert (childFetches (l1 ++ l2) = take 2 (expectedFetches web)) as Hf12
    by (rewrite childFetches_app, Hf1, Hf2; reflexivity).
  destruct (reconcileConfigCM r web w1) as [[[web2|e2]|] w2]; simpl in Ht2, Hw2;
    [rewrite (Hw2 web2 eq_refl) in *; clear Hw2
    | apply (Hstop _ _ _ 2%nat Ht2 Hf12); discriminate
    | apply (Hstop _ _ _ 2%nat Ht2 Hf12); discriminate].
  destruct (reconcileDataCM_fetch r web w2) as (l3 & Ht3 & Hf3 & Hw3).
  rewrite Ht2, <- app_assoc in Ht3.
  assert (childFetches ((l1 ++ l2) ++ l3) = take 3 (expectedFetches web)) as Hf123
    by (rewrite childFetches_app, Hf12, Hf3; reflexivity).
  destruct (reconcileDataCM r web w2) as [[[web3|e3]|] w3]; simpl in Ht3, Hw3;
    [rewrite (Hw3 web3 eq_refl) in *; clear Hw3
    | apply (Hstop _ _ _ 3%nat Ht3 Hf123); discriminate
    | apply (Hstop _ _ _ 3%nat Ht3 Hf123); discriminate].
  destruct (reconcileService_fetch r web w3) as (l4 & Ht4 & Hf4 & Hw4).
  rewrite Ht3, <- app_assoc in Ht4.
  assert (childFetches (((l1 ++ l2) ++ l3) ++ l4) = take 4 (expectedFetches web)) as Hf1234
    by (rewrite childFetches_app, Hf123, Hf4; reflexivity).
  destruct (reconcileService r web w3) as [[[web4|e4]|] w4]; simpl in Ht4, Hw4;
    [rewrite (Hw4 web4 eq_refl) in *; clear Hw4
    | apply (Hstop _ _ _ 4%nat Ht4 Hf1234); discriminate
    | apply (Hstop _ _ _ 4%nat Ht4 Hf1234); discriminate].
  destruct (reconcileIngress_fetch r web w4) as (l5 & Ht5 & Hf5 & Hw5).
  rewrite Ht4, <- app_assoc in Ht5.
  assert (childFetches ((((l1 ++ l2) ++ l3) ++ l4) ++ l5) = take 5 (expectedFetches web))
    as Hf12345 by (rewrite childFetches_app, Hf1234, Hf5; reflexivity).
  destruct (reconcileIngress r web w4) as [[[web5|e5]|] w5]; simpl in Ht5, Hw5;
    [| apply (Hstop _ _ _ 5%nat Ht5 Hf12345); discriminate
     | apply (Hstop _ _ _ 5%nat Ht5 Hf12345); discriminate].
  eexists _, 5%nat. simpl. split; [exact Ht5|]. split; [exact Hf12345|].
  intros web' [= <-]. split; [reflexivity|]. now apply Hw5.
Qed.

(** An error of the loop is the result of [Reconcile]; nothing runs after
    it. *)
Lemma Reconcile_steps_Err r req w web w1 web0 w0 e w' :
  getObj req w = ((Some web, None), w1) ->
  startOfPass web w1 = (Ok web0, w0) ->
  runSteps (reconcileFuncs r) web0 w0 = (Some (Err e), w') ->
  Reconcile r req w = (Some (Err e), w').
Proof.
  intros Hg Hs Hr. unfold Reconcile, bind. rewrite Hg.
  unfold startOfPass in Hs. rewrite Hs, Hr. reflexivity.
Qed.

(** Over a whole call of [Reconcile] the children are fetched in the fixed
    order, and all five of them when the call succeeds. *)
Lemma Reconcile_fetches r req w web w1 :
  getObj req w = ((Some web, None), w1) ->
  exists k,
    childFetches (since w (Reconcile r req w).2) = take k (expectedFetches web)
    /\ ((Reconcile r req w).1 = Some (Ok tt) -> k = 5%nat).
Proof.
  intros Hg. pose proof (getObj_found _ _ _ _ _ Hg) as (_ & _ & Ht1).
  unfold Reconcile, bind. rewrite Hg. fold (startOfPass web).
  destruct (startOfPass web w1) as [[web0|e0] w0] eqn:Hs;
    pose proof (startOfPass_trace _ _ _ _ Hs) as (l0 & Ht0 & Hl0).
  - pose proof (expectedFetches_key _ _ (startOfPass_key _ _ _ _ Hs)) as Hexp.
    destruct (runSteps_fetches r web0 w0) as (l & k & Ht & Hf & Hk).
    rewrite Hexp in Hf.
    destruct (runSteps (reconcileFuncs r) web0 w0) as [[[web5|e5]|] w5];
      simpl in Ht, Hk.
    + destruct (Hk web5 eq_refl) as [-> ->].
      destruct (setStatus web0 ConditionTrue "Finished reconciliation" w5)
        as [r6 w6] eqn:H6.
      apply setStatus_inv in H6 as (_ & _ & _ & (l6 & Ht6 & Hl6) & _).
      exists 5%nat. split.
      * assert (trace w6 = trace w ++ [Call VGet KWebServer req None] ++ l0 ++ l ++ l6)
          as Hall by (rewrite Ht6, Ht, Ht0, Ht1, <- !app_assoc; reflexivity).
        destruct r6; simpl; rewrite (since_app _ _ _ Hall), !childFetches_app, Hf,
          (childFetches_aboutSite l0 Hl0), (childFetches_aboutSite l6 Hl6), app_nil_r;
          reflexivity.
      * reflexivity.
    + exists k. simpl. split; [|discriminate].
      assert (trace w5 = trace w ++ [Call VGet KWebServer req None] ++ l0 ++ l)
        as Hall by (rewrite Ht, Ht0, Ht1, <- !app_assoc; reflexivity).
      rewrite (since_app _ _ _ Hall), !childFetches_app, Hf,
        (childFetches_aboutSite l0 Hl0). reflexivity.
    + exists k. simpl. split; [|discriminate].
      assert (trace w5 = trace w ++ [Call VGet KWebServer req None] ++ l0 ++ l)
        as Hall by (rewrite Ht, Ht0, Ht1, <- !app_assoc; reflexivity).
      rewrite (since_app _ _ _ Hall), !childFetches_app, Hf,
        (childFetches_aboutSite l0 Hl0). reflexivity.
  - exists 0%nat. simpl. split; [|discriminate].
    assert (trace w0 = trace w ++ [Call VGet KWebServer req None] ++ l0)
      as Hall by (rewrite Ht0, Ht1, <- !app_assoc; reflexivity).
    rewrite (since_app _ _ _ Hall), !childFetches_app,
      (childFetches_aboutSite l0 Hl0). reflexivity.
Qed.

End webserver_facts.

(* ------------------------------------------------------------------ *)
(** ** The five ensure-steps *)

Module ensure_steps.

Import metav1 v1alpha1 webserver webserver_facts.

(** C4. [Reconcile] of a WebServer runs the ensure-steps in the fixed
    order Deployment, config ConfigMap, data ConfigMap, Service, Ingress:
    the children the loop fetches are the first ones of that list, in that
    order, and all five when the loop succeeds.  The first step that
    returns an error ends the loop: the loop, and with it the call,
    returns that error, and the world they leave is the one the failing
    step left, so none of the remaining steps has run.  Over the whole
    call, too, the children are fetched in that order, five of them when
    the call succeeds. *)
Theorem steps_in_order_until_error (r : Reconciler) :
  reconcileFuncs r
  = [reconcileDeployment r; reconcileConfigCM r; reconcileDataCM r;
     reconcileService r; reconcileIngress r]
  /\ (forall web w,
        exists k,
          childFetches (since w (runSteps (reconcileFuncs r) web w).2)
          = take k (expectedFetches web)
          /\ forall web', (runSteps (reconcileFuncs r) web w).1 = Some (Ok web') ->
                          k = 5%nat)
  /\ (forall pre f post web w webk wk e w',
        reconcileFuncs r = pre ++ f :: post ->
        runSteps pre web w = (Some (Ok webk), wk) ->
        f webk wk = (Some (Err e), w') ->
        runSteps (reconcileFuncs r) web w = (Some (Err e), w'))
  /\ (forall req w web w1 web0 w0 e w',
        getObj req w = ((Some web, None), w1) ->
        startOfPass web w1 = (Ok web0, w0) ->
        runSteps (reconcileFuncs r) web0 w0 = (Some (Err e), w') ->
        Reconcile r req w = (Some (Err e), w'))
  /\ (forall req w web w1,
        getObj req w = ((Some web, None), w1) ->
        exists k,
          childFetches (since w (Reconcile r req w).2) = take k (expectedFetches web)
          /\ ((Reconcile r req w).1 = Some (Ok tt) -> k = 5%nat)).
Proof.
  split; [reflexivity|]. split; [|split; [|split]]; [| | |exact (Reconcile_fetches r)].
  - intros web w. destruct (runSteps_fetches r web w) as (l & k & Ht & Hf & Hk).
    exists k. rewrite (since_app _ _ _ Ht). split; [exact Hf|].
    intros web' Hok. exact (proj1 (Hk web' Hok)).
  - intros pre f post web w webk wk e w' -> Hpre Hf.
    eapply runSteps_abort; eassumption.
  - intros req w web w1 web0 w0 e w'. apply Reconcile_steps_Err.
Qed.

End ensure_steps.

Module ensure_steps_example.

Import metav1 v1alpha1 webserver.

(** The theorem on [s1] when the fetch of the Ingress fails: four steps
    succeed, the fifth returns the error, and that error is what
    [Reconcile] returns. *)
Lemma steps_in_order_until_error_witness :
  (Reconcile fixtures.rec (fixtures.nn "default" "s1") fixtures.ingressDown).1
  = Some (Err (Failure "connection refused"))
  /\ childFetches (since fixtures.ingressDown
                     (Reconcile fixtures.rec (fixtures.nn "default" "s1")
                        fixtures.ingressDown).2)
     = expectedFetches fixtures.s1.
Proof.
  pose (w1 := (getObj (fixtures.nn "default" "s1") fixtures.ingressDown).2).
  pose (web0 := match (startOfPass fixtures.s1 w1).1 with
                | Ok x => x
                | Err _ => fixtures.s1
                end).
  pose (w0 := (startOfPass fixtures.s1 w1).2).
  pose (w' := (runSteps (reconcileFuncs fixtures.rec) web0 w0).2).
  destruct (ensure_steps.steps_in_order_until_error fixtures.rec) as (_ & _ & _ & Hret & _).
  assert (Reconcile fixtures.rec (fixtures.nn "default" "s1") fixtures.ingressDown
          = (Some (Err (Failure "connection refused")), w')) as HR.
  { apply (Hret _ _ fixtures.s1 w1 web0 w0); vm_compute; reflexivity. }
  split.
  - rewrite HR. reflexivity.
  - vm_compute. reflexivity.
Defined.

End ensure_steps_example.

(* ------------------------------------------------------------------ *)
(** ** Reporting the failure of a step: [failWithStatus] *)

Module failWithStatus_facts.

Import metav1 v1alpha1 webserver webserver_facts.

(** Whatever message the failing step passes, the condition that
    [failWithStatus] writes carries the message of the Deployment step. *)
Lemma failWithStatus_condition web err msg w web' ws :
  setStatus web ConditionFalse "Failed to create deployment" (logError err msg w).2
  = (Ok web', ws) ->
  availableCondition (key_of web) (failWithStatus web err msg w).2
  = Some {| Type_ := "Available"; Status := ConditionFalse;
            Reason := "Reconciling"; Message := "Failed to create deployment" |}.
Proof.
  intros Hs. unfold failWithStatus, bind. simpl in Hs |- *.
  unfold logError in Hs |- *. rewrite Hs. simpl.
  apply setStatus_inv in Hs as (_ & _ & _ & _ & Hl & _ & _ & Hc & _).
  unfold availableCondition. rewrite Hl, Hc.
  apply (FindStatusCondition_Set _
           {| Type_ := "Available"; Status := ConditionFalse;
              Reason := "Reconciling"; Message := "Failed to create deployment" |}).
Qed.

(** The error a step reports is the error [failWithStatus] returns, also
    when the status cannot be written. *)
Lemma failWithStatus_returns_the_error web err msg w :
  (failWithStatus web err msg w).1 = Err err.
Proof.
  destruct (failWithStatus_inv web err msg w) as (w' & l & -> & _). reflexivity.
Qed.

(** C7, on the code.  The fetch of the Ingress of [s1] fails.  The step
    logs its own message, ["Failed to fetch ingress"], and [Reconcile]
    returns the error of the step; but the condition [Available=False] that
    is stored carries the message ["Failed to create deployment"], the one
    [failWithStatus] writes for every step. *)
Lemma condition_message_is_not_of_the_step :
  (Reconcile fixtures.rec (fixtures.nn "default" "s1") fixtures.ingressDown).1
  = Some (Err (Failure "connection refused"))
  /\ In (LogError (Failure "connection refused") "Failed to fetch ingress")
        (since fixtures.ingressDown
           (Reconcile fixtures.rec (fixtures.nn "default" "s1") fixtures.ingressDown).2)
  /\ availableCondition (fixtures.nn "default" "s1")
       (Reconcile fixtures.rec (fixtures.nn "default" "s1") fixtures.ingressDown).2
     = Some {| Type_ := "Available"; Status := ConditionFalse;
               Reason := "Reconciling"; Message := "Failed to create deployment" |}.
Proof.
  split; [vm_compute; reflexivity|]. split; [|vm_compute; reflexivity].
  vm_compute. do 12 right. left. reflexivity.
Qed.

End failWithStatus_facts.

(* ------------------------------------------------------------------ *)
(** ** A Deployment with the wrong number of containers *)

Module corrupt_deployment.

Import metav1 v1alpha1 appsv1 webserver webserver_facts pages_facts.

Lemma deploymentDiffers_corrupt web d :
  length (Deployment_Containers d) <> 1%nat -> deploymentDiffers web d = Some true.
Proof.
  intros Hl. unfold deploymentDiffers.
  now rewrite (proj2 (Nat.eqb_neq _ _) Hl).
Qed.

(** C5. When the Deployment fetched by [reconcileDeployment] does not have
    exactly one container, the step asks the API server to delete it, asks
    nothing else about it (no update, no creation), and returns the error
    that names the container count.  Once the deletion is accepted, a
    Deployment without finalizers is gone from the cluster; one that
    carries finalizers stays stored, unchanged but for the mark of
    deletion, until they are cleared.  A refused deletion is logged and
    the Deployment stays as it was.  The loop over the steps, hence the
    pass, ends with that error. *)
Theorem corrupt_deployment_deleted r web w d w1 :
  Get (nsName (WebServer_Meta web)) w = (Ok d, w1) ->
  length (Deployment_Containers d) <> 1%nat ->
  exists w' o l,
    reconcileDeployment r web w = (Some (Err (containersError d)), w')
    /\ since w w'
       = Call VGet KDeployment (nsName (WebServer_Meta web)) None
           :: Call VDelete KDeployment (nsName (WebServer_Meta web)) o :: l
    /\ Forall aboutSite l
    /\ Deployments (cluster w')
       = match o with
         | None =>
             match Finalizers (Deployment_Meta d) with
             | [] => remove_obj (nsName (WebServer_Meta web)) (Deployments (cluster w))
             | _ :: _ =>
                 replace_obj (Deployment_withMeta (markDeleted (Deployment_Meta d)) d)
                   (Deployments (cluster w))
             end
         | Some _ => Deployments (cluster w)
         end
    /\ (o = None -> Finalizers (Deployment_Meta d) = [] ->
        lookup_obj (nsName (WebServer_Meta web)) (Deployments (cluster w')) = None)
    /\ (o = None -> Finalizers (Deployment_Meta d) <> [] ->
        lookup_obj (nsName (WebServer_Meta web)) (Deployments (cluster w'))
        = Some (Deployment_withMeta (markDeleted (Deployment_Meta d)) d)
        /\ DeletionTimestamp (markDeleted (Deployment_Meta d)) <> None)
    /\ runSteps (reconcileFuncs r) web w = (Some (Err (containersError d)), w')
    /\ (forall req wp web0 w0,
          getObj req wp = ((Some web0, None), w0) ->
          startOfPass web0 w0 = (Ok web, w) ->
          Reconcile r req wp = (Some (Err (containersError d)), w')).
Proof.
  intros Hg Hl.
  pose proof Hg as Hg0.
  apply Get_inv in Hg0 as (_ & Hc1 & _ & _ & Hl1 & Ht1). simpl in Hl1, Ht1.
  pose proof (lookup_obj_key _ _ _ Hl1) as Hkey.
  assert (exists w' o l,
             reconcileDeployment r web w = (Some (Err (containersError d)), w')
             /\ trace w' = trace w ++
                  Call VGet KDeployment (nsName (WebServer_Meta web)) None
                    :: Call VDelete KDeployment (nsName (WebServer_Meta web)) o :: l
             /\ Forall aboutSite l
             /\ Deployments (cluster w')
                = match o with
                  | None =>
                      match Finalizers (Deployment_Meta d) with
                      | [] => remove_obj (nsName (WebServer_Meta web))
                                (Deployments (cluster w))
                      | _ :: _ =>
                          replace_obj
                            (Deployment_withMeta (markDeleted (Deployment_Meta d)) d)
                            (Deployments (cluster w))
                      end
                  | Some _ => Deployments (cluster w)
                  end) as (w' & o & l & HR & Ht & Hl' & HD).
  { unfold reconcileDeployment, bind. rewrite Hg.
    rewrite (deploymentDiffers_corrupt web d Hl).
    unfold updateDeployment, bind. rewrite (proj2 (Nat.eqb_neq _ _) Hl). simpl.
    destruct (Delete d w1) as [[[]|e] wd] eqn:Hd;
      apply Delete_inv in Hd as (_ & Hd); simpl in Hd;
      unfold logError, ret, returned, bind; cbv beta iota.
    - destruct Hd as (old & Hold & Hcd & Htd).
      assert (old = d) as ->.
      { rewrite Hkey, Hc1 in Hold. simpl in Hl1. congruence. }
      destruct (failWithStatus_inv web (containersError d) "Failed to update deployment" wd)
        as (wf & lf & -> & Htf & Hlf & _ & Hcf & _).
      exists wf, None, (LogError (containersError d) "Failed to update deployment" :: lf).
      split; [reflexivity|]. split; [|split].
      + rewrite Htf, Htd, Ht1, Hkey, <- !app_assoc. reflexivity.
      + constructor; [exact I | exact Hlf].
      + injection Hcf as Hdep _ _ _. rewrite Hdep, Hcd, Hkey, Hc1.
        destruct (Finalizers (Deployment_Meta d)); reflexivity.
    - destruct Hd as (Hcd & Htd).
      match goal with
      | |- context [failWithStatus ?a ?b ?c ?wl] =>
          destruct (failWithStatus_inv a b c wl) as (wf & lf & -> & Htf & Hlf & _ & Hcf & _)
      end.
      exists wf, (Some e),
        (LogError e "deleting deployment"
           :: LogError (containersError d) "Failed to update deployment" :: lf).
      split; [reflexivity|]. split; [|split].
      + rewrite Htf. simpl. rewrite Htd, Ht1, Hkey, <- !app_assoc. reflexivity.
      + repeat constructor. exact Hlf.
      + injection Hcf as Hdep _ _ _. rewrite Hdep. simpl. now rewrite Hcd, Hc1. }
  exists w', o, l. split; [exact HR|]. split; [now apply since_app|].
  split; [exact Hl'|]. split; [exact HD|].
  assert (runSteps (reconcileFuncs r) web w = (Some (Err (containersError d)), w')) as Hrun.
  { unfold reconcileFuncs, runSteps, bind. now rewrite HR. }
  split; [|split; [|split; [exact Hrun|]]].
  - intros -> Hfin. rewrite HD, Hfin. apply lookup_remove_obj.
  - intros -> Hfin. split.
    + rewrite HD. destruct (Finalizers (Deployment_Meta d)) eqn:Hf; [congruence|].
      assert (key_of (Deployment_withMeta (markDeleted (Deployment_Meta d)) d)
              = nsName (WebServer_Meta web)) as Hk.
      { rewrite <- Hkey. unfold key_of, markDeleted. simpl.
        destruct (DeletionTimestamp (Deployment_Meta d)); reflexivity. }
      rewrite <- Hk. eapply lookup_replace_obj. rewrite Hk. exact Hl1.
    + unfold markDeleted. destruct (DeletionTimestamp (Deployment_Meta d)) eqn:Hdt.
      * rewrite Hdt. discriminate.
      * simpl. discriminate.
  - intros req wp web0 w0 Hgo Hst. eapply Reconcile_steps_Err; eassumption.
Qed.

(** The theorem on the Deployment of [s1] that has no container left. *)
Lemma corrupt_deployment_deleted_witness :
  (reconcileDeployment fixtures.rec fixtures.s1 fixtures.brokenWorkload).1
  = Some (Err (Failure "deployment 's1' has 0 containers (expected 1)"))
  /\ lookup_obj (fixtures.nn "default" "s1")
       (Deployments
          (cluster (reconcileDeployment fixtures.rec fixtures.s1 fixtures.brokenWorkload).2))
     = None.
Proof.
  pose (w1 := (Get (A := Deployment) (fixtures.nn "default" "s1") fixtures.brokenWorkload).2).
  assert (Get (nsName (WebServer_Meta fixtures.s1)) fixtures.brokenWorkload
          = (Ok fixtures.brokenDeployment, w1)) as Hget by (vm_compute; reflexivity).
  assert (length (Deployment_Containers fixtures.brokenDeployment) <> 1%nat) as Hlen
    by (simpl; lia).
  destruct (corrupt_deployment_deleted fixtures.rec fixtures.s1 fixtures.brokenWorkload
              fixtures.brokenDeployment w1 Hget Hlen)
    as (w' & o & l & HR & Hs & _ & HD & _).
  rewrite HR. simpl. split; [reflexivity|].
  destruct o as [e|]; [|rewrite HD; reflexivity].
  exfalso. pose proof (f_equal snd HR) as Hw'. simpl in Hw'. subst w'.
  apply (f_equal (fun t => nth 1 t (LogError e ""))) in Hs.
  vm_compute in Hs. discriminate Hs.
Defined.

End corrupt_deployment.

(* ------------------------------------------------------------------ *)
(** ** The condition [Available] over one pass *)

Module available_condition.

Import metav1 v1alpha1 webserver webserver_facts pages_facts.

(** C8, as the code has it.  For a WebServer fetched without any status
    condition, the start of the pass writes the condition [Available] with
    status [Unknown], reason ["Reconciling"] and message ["Starting
    reconciliation"] through the status endpoint and fetches the object
    again; what it goes on with is the stored object.  When the five
    steps succeed and the last status write gets through, [Reconcile]
    returns success; and whenever it returns success for a WebServer it
    has fetched, the stored condition [Available] has status [True],
    reason ["Reconciling"] and message ["Finished reconciliation"]. *)
Theorem available_condition_of_a_pass r req w web w1 :
  getObj req w = ((Some web, None), w1) ->
  (forall web0 w0,
      Conditions (WebServer_Status web) = [] ->
      startOfPass web w1 = (Ok web0, w0) ->
      availableCondition req w0
      = Some {| Type_ := "Available"; Status := ConditionUnknown;
                Reason := "Reconciling"; Message := "Starting reconciliation" |}
      /\ lookup_obj req (WebServers (cluster w0)) = Some web0
      /\ since w1 w0 = [Call VStatusUpdate KWebServer req None;
                        Call VGet KWebServer req None])
  /\ (forall web0 w0 web5 w5 web6 w6,
        startOfPass web w1 = (Ok web0, w0) ->
        runSteps (reconcileFuncs r) web0 w0 = (Some (Ok web5), w5) ->
        setStatus web5 ConditionTrue "Finished reconciliation" w5 = (Ok web6, w6) ->
        Reconcile r req w = (Some (Ok tt), w6))
  /\ (forall w',
        Reconcile r req w = (Some (Ok tt), w') ->
        availableCondition req w'
        = Some {| Type_ := "Available"; Status := ConditionTrue;
                  Reason := "Reconciling"; Message := "Finished reconciliation" |}).
Proof.
  intros Hg. pose proof (getObj_found _ _ _ _ _ Hg) as (_ & Hkey & _).
  split; [|split].
  - intros web0 w0 Hnil Hs. unfold startOfPass in Hs. rewrite Hnil in Hs. simpl in Hs.
    apply setStatus_inv in Hs as (_ & _ & _ & _ & Hl & _ & _ & Hc & Ht).
    rewrite Hkey in *. split; [|split].
    + unfold availableCondition. rewrite Hl, Hc.
      apply (FindStatusCondition_Set _
               {| Type_ := "Available"; Status := ConditionUnknown;
                  Reason := "Reconciling"; Message := "Starting reconciliation" |}).
    + exact Hl.
    + now apply since_app.
  - intros web0 w0 web5 w5 web6 w6 Hs Hr Hf.
    unfold Reconcile, bind. rewrite Hg. unfold startOfPass in Hs.
    rewrite Hs, Hr, Hf. reflexivity.
  - intros w'. unfold Reconcile, bind. rewrite Hg.
    fold (startOfPass web).
    destruct (startOfPass web w1) as [[web0|e0] w0] eqn:Hs; [|intros [=]].
    destruct (runSteps_fetches r web0 w0) as (l & k & _ & _ & Hk).
    destruct (runSteps (reconcileFuncs r) web0 w0) as [[[web5|e5]|] w5];
      try (intros Hbad; discriminate Hbad).
    destruct (Hk web5 eq_refl) as [_ ->].
    destruct (setStatus web0 ConditionTrue "Finished reconciliation" w5)
      as [[web6|e6] w6] eqn:Hf; [intros [= <-] | intros [=]].
    apply setStatus_inv in Hf as (_ & _ & _ & _ & Hl & _ & _ & Hc & _).
    rewrite (startOfPass_key _ _ _ _ Hs), Hkey in Hl.
    unfold availableCondition. rewrite Hl, Hc.
    apply (FindStatusCondition_Set _
             {| Type_ := "Available"; Status := ConditionTrue;
                Reason := "Reconciling"; Message := "Finished reconciliation" |}).
Qed.

(** The theorem on [s1], freshly created: the pass succeeds and leaves
    [Available=True]. *)
Lemma available_condition_of_a_pass_witness :
  availableCondition (fixtures.nn "default" "s1")
    (Reconcile fixtures.rec (fixtures.nn "default" "s1") fixtures.freshSite).2
  = Some {| Type_ := "Available"; Status := ConditionTrue;
            Reason := "Reconciling"; Message := "Finished reconciliation" |}.
Proof.
  pose (w1 := (getObj (fixtures.nn "default" "s1") fixtures.freshSite).2).
  assert (getObj (fixtures.nn "default" "s1") fixtures.freshSite
          = ((Some fixtures.s1, None), w1)) as Hg by (vm_compute; reflexivity).
  destruct (available_condition_of_a_pass fixtures.rec _ _ _ _ Hg) as (_ & _ & Hfin).
  apply Hfin. vm_compute. reflexivity.
Defined.

(** C8, as stated, fails on [s1], freshly created: the conditions written
    at the start and at the end of the pass both carry the reason
    ["Reconciling"]; ["Starting reconciliation"] and ["Finished
    reconciliation"] are their messages. *)
Lemma reasons_are_messages :
  ~ reasonsAsStated fixtures.rec (fixtures.nn "default" "s1") fixtures.freshSite.
Proof.
  intros [_ Hfin].
  destruct (Hfin (Reconcile fixtures.rec (fixtures.nn "default" "s1") fixtures.freshSite).2)
    as (c & Hc & _ & Hr).
  - vm_compute. reflexivity.
  - vm_compute in Hc. injection Hc as <-. discriminate Hr.
Qed.

End available_condition.

(* ------------------------------------------------------------------ *)
(** ** The finalizer of a page whose listing gets through *)

Module exclusion_first.

Import metav1 v1alpha1 pages pages_facts prepareData_facts.

Lemma getWebServer_Ok n w web w' :
  getWebServer n w = (Ok web, w') ->
  cluster w' = cluster w /\ Data w' = Data w
  /\ trace w' = trace w ++ [Call VGet KWebServer n None].
Proof.
  unfold getWebServer, bind, logError, ret.
  destruct (Get n w) as [[web'|e] wg] eqn:Hg.
  - intros [= <- <-]. apply Get_inv in Hg as (HD & Hc & _ & _ & _ & Ht). auto.
  - destruct (IsNotFound e); intros [=].
Qed.

Lemma setWebStatus_Data web hash w : Data (setWebStatus web hash w).2 = Data w.
Proof.
  unfold setWebStatus, bind, logError, ret.
  match goal with
  | |- context [Update ?a w] => destruct (Update a w) as [[new|e] wu] eqn:Hu
  end; apply Update_inv in Hu as (HD & _); exact HD.
Qed.

Lemma removeFinalizer_Data page w : Data (removeFinalizer page w).2 = Data w.
Proof.
  unfold removeFinalizer.
  destruct (controllerutil.RemoveFinalizer (Page_Meta page) pageFinalizer) as [m removed].
  destruct removed; simpl; [|reflexivity].
  unfold bind, logError, ret.
  destruct (Update (Page_withMeta m page) w) as [[new|e] wu] eqn:Hu;
    apply Update_inv in Hu as (HD & _); exact HD.
Qed.

(** For a page marked for deletion whose listing gets through,
    [prepareData] leaves in the cache the aggregate of the other pages: the
    page itself does not contribute.  This is the cache [removeFinalizer]
    runs against, and the one [Reconcile] leaves. *)
Lemma exclusion_precedes_removal req w page w1 web w2 :
  getPage req w = ((Some page, None), w1) ->
  GetDeletionTimestamp page <> None ->
  getWebServer {| types.Namespace := Namespace (Page_Meta page);
                  types.Name := PageSpec_WebServer (Page_Spec page) |} w1
  = (Ok web, w2) ->
  next_fault w2 = None ->
  exists changed sha w3,
    prepareData (Namespace (Page_Meta page)) (PageSpec_WebServer (Page_Spec page)) w2
    = ((changed, sha, None), w3)
    /\ GetData {| types.Namespace := Namespace (Page_Meta page);
                  types.Name := PageSpec_WebServer (Page_Spec page) |} w3
       = (Some (aggregateOf (Namespace (Page_Meta page))
                  (PageSpec_WebServer (Page_Spec page)) (Pages (cluster w))), w3)
    /\ contributes (Namespace (Page_Meta page)) (PageSpec_WebServer (Page_Spec page)) page
       = false
    /\ Data (Reconcile req w).2 = Data w3.
Proof.
  intros Hg Hm Hw Hf.
  destruct (prepareData_listed (Namespace (Page_Meta page))
              (PageSpec_WebServer (Page_Spec page)) w2 Hf)
    as (changed & sha & w3 & Hp & Hc & _ & _).
  exists changed, sha, w3.
  pose proof (getPage_found _ _ _ _ _ Hg) as (_ & _ & Hw1).
  pose proof (getWebServer_Ok _ _ _ _ Hw) as (Hc2 & _ & _).
  assert (cluster w2 = cluster w) as Hcl by (rewrite Hc2, Hw1; reflexivity).
  rewrite Hcl in Hc. split; [exact Hp|]. split; [exact Hc|]. split.
  - unfold contributes. rewrite (bool_decide_eq_false_2 _ Hm). apply andb_false_r.
  - unfold Reconcile, bind. rewrite Hg. cbv zeta.
    rewrite (bool_decide_eq_true_2 _ Hm). simpl. unfold ret at 1.
    rewrite Hw, Hp. unfold ret at 1.
    destruct changed.
    + destruct (setWebStatus web sha w3) as [[e|] ws] eqn:Hs;
        pose proof (setWebStatus_Data web sha w3) as HD; rewrite Hs in HD; simpl in HD.
      * exact HD.
      * pose proof (removeFinalizer_Data page ws) as HR.
        destruct (removeFinalizer page ws) as [[p' [e|]] wr]; simpl in *; congruence.
    + unfold ret at 1.
      pose proof (removeFinalizer_Data page w3) as HR.
      destruct (removeFinalizer page w3) as [[p' [e|]] wr]; simpl in *; congruence.
Qed.

End exclusion_first.

(* ================================================================== *)
(** * Further properties of the code *)

(* ------------------------------------------------------------------ *)
(** ** The cache: [GetData] and [SetData] *)

Module cache_facts.

Import pages.

(** X1: [SetData] followed by [GetData]: the aggregate stored for a site is the
    one read back for it, the aggregates of the other sites are read as
    before, and neither call touches the cluster or sends a request.  A
    site nothing was stored for reads as the nil map. *)
Theorem SetData_GetData (site other : NamespacedName) (data : PageData) (w : World) :
  (GetData site (SetData site data w).2).1 = data
  /\ (other <> site ->
      (GetData other (SetData site data w).2).1 = (GetData other w).1)
  /\ cluster (SetData site data w).2 = cluster w
  /\ trace (SetData site data w).2 = trace w
  /\ faults (SetData site data w).2 = faults w
  /\ (GetData site w).2 = w
  /\ (Data w !! site = None -> (GetData site w).1 = None).
Proof.
  unfold GetData, SetData. simpl. repeat split.
  - now rewrite lookup_insert_eq.
  - intros Hne. rewrite lookup_insert_ne; [reflexivity | congruence].
  - now intros ->.
Qed.

(** The theorem on two sites of one namespace. *)
Lemma SetData_GetData_witness :
  (GetData (fixtures.nn "default" "s2")
     (SetData (fixtures.nn "default" "s1") (Some fixtures.idxHello)
        fixtures.freshSite).2).1 = None.
Proof.
  destruct (SetData_GetData (fixtures.nn "default" "s1") (fixtures.nn "default" "s2")
              (Some fixtures.idxHello) fixtures.freshSite) as (_ & Hother & _).
  rewrite Hother; [reflexivity | discriminate].
Defined.

End cache_facts.

(* ------------------------------------------------------------------ *)
(** ** The names of the ConfigMaps *)

Module names_facts.

Import webserver.

Lemma list_ascii_of_string_app (a b : string) :
  list_ascii_of_string (a +:+ b) = list_ascii_of_string a ++ list_ascii_of_string b.
Proof. induction a as [|c a IH]; simpl; [reflexivity | now rewrite IH]. Qed.

Lemma list_ascii_of_string_inj (a b : string) :
  list_ascii_of_string a = list_ascii_of_string b -> a = b.
Proof.
  intros H. rewrite <- (string_of_list_ascii_of_string a),
    <- (string_of_list_ascii_of_string b). now rewrite H.
Qed.

Lemma append_inv_tail (a b s : string) : a +:+ s = b +:+ s -> a = b.
Proof.
  intros H. apply list_ascii_of_string_inj.
  apply (f_equal list_ascii_of_string) in H.
  rewrite !list_ascii_of_string_app in H. now apply app_inv_tail in H.
Qed.

(** X2: The config ConfigMap and the data ConfigMap of a site are named after
    the site alone, and no two ConfigMaps the operator creates share a
    name: the names of two sites' config ConfigMaps (or data ConfigMaps)
    differ when the sites differ, and a config ConfigMap is never named as
    any site's data ConfigMap. *)
Theorem ConfigMap_names_distinct (a b : string) :
  (ConfigCMName a = ConfigCMName b -> a = b)
  /\ (DataCMName a = DataCMName b -> a = b)
  /\ ConfigCMName a <> DataCMName b.
Proof.
  unfold ConfigCMName, DataCMName, typeConfig, typeData. repeat split.
  - apply append_inv_tail.
  - apply append_inv_tail.
  - intros H. apply (f_equal list_ascii_of_string) in H.
    rewrite !list_ascii_of_string_app in H.
    apply (f_equal (@rev ascii)) in H. rewrite !rev_app_distr in H.
    simpl in H. discriminate H.
Qed.

End names_facts.

(* ------------------------------------------------------------------ *)
(** ** What the digest tells apart *)

Module digest_facts.

Import pages makeHash_facts names_facts.


Lemma makeHash_singleton (k : string) (v : bytes) :
  makeHash (Some {[k := v]})
  = Base64.EncodeToString (SHA1.Sum (bytes_of_string k ++ v)).
Proof.
  rewrite makeHash_unfold. unfold keysOf. rewrite map_to_list_singleton.
  change ([(k, v)].*1) with [k].
  assert (sort_Strings [k] = [k]) as ->.
  { apply Permutation_singleton_r. apply sort_Strings_perm. }
  cbn [map concat]. unfold chunk, valueAt. rewrite lookup_singleton_eq.
  cbn [default]. now rewrite app_nil_r.
Qed.









(** X4: The digest does not depend on the order in which the keys of the
    aggregate are visited, nor on the order in which its entries were put
    in: the keys are sorted before anything is hashed. *)
Theorem makeHash_order_independent (data : PageData) (order order' : list string)
    (entries entries' : list (string * bytes)) :
  (order ≡ₚ order' -> makeHashFrom order data = makeHashFrom order' data)
  /\ (NoDup entries.*1 -> entries ≡ₚ entries' ->
      makeHash (Some (list_to_map entries)) = makeHash (Some (list_to_map entries'))).
Proof.
  split.
  - intros Hp. unfold makeHashFrom.
    now rewrite (sort_Strings_order_irrelevant order order' Hp).
  - intros Hnd Hp.
    now rewrite (list_to_map_proper (M := gmap string) entries entries' Hnd Hp).
Qed.

(** The theorem on the two orders of the entries [idx] and [about]. *)
Lemma makeHash_order_independent_witness :
  makeHashFrom ["idx"; "about"] (Some fixtures.idxHello)
  = makeHashFrom ["about"; "idx"] (Some fixtures.idxHello)
  /\ makeHash (Some (list_to_map [("idx", bytes_of_string "hello");
                                  ("about", bytes_of_string "bye")]))
     = makeHash (Some (list_to_map [("about", bytes_of_string "bye");
                                    ("idx", bytes_of_string "hello")])).
Proof.
  destruct (makeHash_order_independent (Some fixtures.idxHello)
              ["idx"; "about"]%string ["about"; "idx"]%string
              [("idx", bytes_of_string "hello"); ("about", bytes_of_string "bye")]%string
              [("about", bytes_of_string "bye"); ("idx", bytes_of_string "hello")]%string)
    as [Ho He].
  split.
  - apply Ho. apply perm_swap.
  - apply He.
    + repeat constructor; simpl; intros Hin.
      * apply list_elem_of_singleton in Hin. discriminate Hin.
      * now apply elem_of_nil in Hin.
    + apply perm_swap.
Defined.

End digest_facts.

(* ------------------------------------------------------------------ *)
(** ** Requests that get through, and requests that do not *)

Section forward_facts.

Context `{Object A}.

Lemma Get_found (n : NamespacedName) w (a : A) :
  next_fault w = None -> lookup_obj n (objects (cluster w)) = Some a ->
  Get n w = (Ok a, answered VGet kind n None w).
Proof.
  intros Hf Hl. unfold Get, request, serveGet. now rewrite Hf, Hl.
Qed.

Lemma Get_missing (n : NamespacedName) w :
  next_fault w = None -> lookup_obj n (objects (cluster w)) = None ->
  Get (A := A) n w
  = (Err (NotFound "not found"), answered VGet kind n (Some (NotFound "not found")) w).
Proof.
  intros Hf Hl. unfold Get, request, serveGet. now rewrite Hf, Hl.
Qed.

Lemma Get_failed (n : NamespacedName) w e :
  next_fault w = Some e ->
  Get (A := A) n w = (Err e, answered VGet kind n (Some e) w).
Proof. intros Hf. unfold Get, request. now rewrite Hf. Qed.

End forward_facts.

Lemma answered_no_faults v k n o w :
  faults w = [] ->
  faults (answered v k n o w) = [] /\ next_fault (answered v k n o w) = None
  /\ next_fault w = None.
Proof. intros Hf. unfold next_fault, answered. simpl. now rewrite Hf. Qed.

(* ------------------------------------------------------------------ *)
(** ** The Page reconciler: absent pages, finalizers, steady state *)

Module pages_more.

Import metav1 v1alpha1 pages pages_facts prepareData_facts.

(** X5: [Reconcile] of a page that is not there (any more) is a success: one
    request is sent, the fetch of the page, and nothing stored or cached
    changes.  Any other failure of that fetch is logged and returned, and
    again nothing else happens. *)
Theorem Reconcile_page_absent (req : NamespacedName) (w : World) :
  (next_fault w = None -> lookup_obj req (Pages (cluster w)) = None ->
   Reconcile req w = (Ok tt, answered VGet KPage req (Some (NotFound "not found")) w))
  /\ (forall e, next_fault w = Some e -> IsNotFound e = true ->
        Reconcile req w = (Ok tt, answered VGet KPage req (Some e) w))
  /\ (forall e, next_fault w = Some e -> IsNotFound e = false ->
        Reconcile req w
        = (Err e, (logError e "Failed to get page" (answered VGet KPage req (Some e) w)).2)).
Proof.
  unfold Reconcile, getPage, bind. repeat split.
  - intros Hf Hl. now rewrite (Get_missing req w Hf Hl).
  - intros e Hf He. rewrite (Get_failed req w e Hf). now rewrite He.
  - intros e Hf He. rewrite (Get_failed req w e Hf). now rewrite He.
Qed.

(** The theorem on a cluster without pages, and on an API server that is
    down. *)
Lemma Reconcile_page_absent_witness :
  Reconcile (fixtures.nn "default" "p1") fixtures.freshSite
  = (Ok tt, answered VGet KPage (fixtures.nn "default" "p1")
              (Some (NotFound "not found")) fixtures.freshSite)
  /\ (Reconcile (fixtures.nn "default" "p1")
        (fixtures.world fixtures.emptyCluster [Some (Failure "timeout")] ∅)).1
     = Err (Failure "timeout").
Proof.
  destruct (Reconcile_page_absent (fixtures.nn "default" "p1") fixtures.freshSite)
    as (Hgone & _ & _).
  destruct (Reconcile_page_absent (fixtures.nn "default" "p1")
              (fixtures.world fixtures.emptyCluster [Some (Failure "timeout")] ∅))
    as (_ & _ & Herr).
  split.
  - apply Hgone; reflexivity.
  - rewrite (Herr (Failure "timeout")); reflexivity.
Defined.

Lemma withFinalizers_same m : withFinalizers (Finalizers m) m = m.
Proof. now destruct m. Qed.

Lemma Page_withMeta_same page : Page_withMeta (Page_Meta page) page = page.
Proof. now destruct page. Qed.

Lemma filter_keeps_all (f : string) (l : list string) :
  f ∉ l -> List.filter (fun x => negb (bool_decide (x = f))) l = l.
Proof.
  induction l as [|x l IH]; intros Hn; [reflexivity|]. simpl.
  apply not_elem_of_cons in Hn as [Hx Hl].
  rewrite bool_decide_eq_false_2 by congruence. simpl. now rewrite IH.
Qed.

Lemma filter_drops (f : string) (l : list string) :
  f ∉ List.filter (fun x => negb (bool_decide (x = f))) l.
Proof.
  intros Hin. apply list_elem_of_In, filter_In in Hin as [_ Hf].
  now rewrite bool_decide_eq_true_2 in Hf.
Qed.

(** X6: The two finalizer steps are idempotent.  [addFinalizer] on a page that
    carries the finalizer, and [removeFinalizer] on a page that does not,
    send no request and change nothing.  The page [addFinalizer] hands
    back carries the finalizer, so a second [addFinalizer] is such a
    no-op; the page [removeFinalizer] hands back on success carries it no
    more. *)
Theorem finalizer_steps_idempotent (page : Page) (w : World) :
  (pageFinalizer ∈ Finalizers (Page_Meta page) -> addFinalizer page w = ((page, None), w))
  /\ (pageFinalizer ∉ Finalizers (Page_Meta page) ->
      removeFinalizer page w = ((page, None), w))
  /\ (forall page' w', addFinalizer page w = ((page', None), w') ->
        addFinalizer page' w' = ((page', None), w'))
  /\ (forall page' w', removeFinalizer page w = ((page', None), w') ->
        (pageFinalizer ∉ Finalizers (Page_Meta page'))
        /\ removeFinalizer page' w' = ((page', None), w')).
Proof.
  assert (forall p w0, pageFinalizer ∈ Finalizers (Page_Meta p) ->
            addFinalizer p w0 = ((p, None), w0)) as Hadd.
  { intros p w0 Hin. unfold addFinalizer, controllerutil.AddFinalizer.
    rewrite bool_decide_eq_true_2 by exact Hin. simpl.
    now rewrite Page_withMeta_same. }
  assert (forall p w0, pageFinalizer ∉ Finalizers (Page_Meta p) ->
            removeFinalizer p w0 = ((p, None), w0)) as Hrem.
  { intros p w0 Hn. unfold removeFinalizer, controllerutil.RemoveFinalizer.
    rewrite (filter_keeps_all _ _ Hn), Nat.eqb_refl. simpl.
    now rewrite withFinalizers_same, Page_withMeta_same. }
  split; [apply Hadd|]. split; [apply Hrem|]. split.
  - intros page' w' Ha. apply Hadd.
    unfold addFinalizer in Ha.
    pose proof (AddFinalizer_adds (Page_Meta page) pageFinalizer) as Hin.
    destruct (controllerutil.AddFinalizer (Page_Meta page) pageFinalizer) as [m added].
    simpl in Hin. destruct added; simpl in Ha.
    + unfold bind, logError, ret in Ha.
      destruct (Update (Page_withMeta m page) w) as [[new|e] wu] eqn:Hu; [|discriminate].
      injection Ha as <- <-.
      apply Update_inv in Hu as (_ & old & _ & -> & _). exact Hin.
    + unfold ret in Ha. injection Ha as <- <-. exact Hin.
  - intros page' w' Hr.
    assert (pageFinalizer ∉ Finalizers (Page_Meta page')) as Hn.
    { unfold removeFinalizer, controllerutil.RemoveFinalizer in Hr.
      pose proof (filter_drops pageFinalizer (Finalizers (Page_Meta page))) as Hd.
      destruct (_ =? _)%nat; simpl in Hr.
      - unfold ret in Hr. injection Hr as <- <-. exact Hd.
      - unfold bind, logError, ret in Hr.
        match type of Hr with
        | context [@Update ?T ?O ?a w] =>
            destruct (@Update T O a w) as [[new|e] wu] eqn:Hu
        end; [|discriminate].
        injection Hr as <- <-.
        apply Update_inv in Hu as (_ & old & _ & -> & _). exact Hd. }
    split; [exact Hn | now apply Hrem].
Qed.

(** The theorem on [p1] being deleted: the finalizer is there, so adding
    it changes nothing. *)
Lemma finalizer_steps_idempotent_witness :
  addFinalizer fixtures.p1_deleting fixtures.orphanDeleting
  = ((fixtures.p1_deleting, None), fixtures.orphanDeleting)
  /\ removeFinalizer fixtures.p1 fixtures.orphan = ((fixtures.p1, None), fixtures.orphan).
Proof.
  split.
  - apply (proj1 (finalizer_steps_idempotent fixtures.p1_deleting fixtures.orphanDeleting)).
    apply list_elem_of_singleton. reflexivity.
  - apply (proj1 (proj2 (finalizer_steps_idempotent fixtures.p1 fixtures.orphan))).
    apply not_elem_of_nil.
Defined.

End pages_more.

(* ------------------------------------------------------------------ *)
(** ** The Page reconciler: whole passes *)

Module pages_passes.

Import metav1 v1alpha1 pages pages_facts prepareData_facts pages_more.

Lemma next_fault_cons w f fs : faults w = f :: fs -> next_fault w = f.
Proof. unfold next_fault. now intros ->. Qed.

Lemma addFinalizer_present page w :
  pageFinalizer ∈ Finalizers (Page_Meta page) -> addFinalizer page w = ((page, None), w).
Proof.
  intros Hin. unfold addFinalizer, controllerutil.AddFinalizer.
  rewrite bool_decide_eq_true_2 by exact Hin. simpl.
  now rewrite Page_withMeta_same.
Qed.

(** No request for a page that is marked for deletion or carries the
    finalizer. *)
Lemma ensureFinalizer_skip page w :
  GetDeletionTimestamp page <> None \/ pageFinalizer ∈ Finalizers (Page_Meta page) ->
  (if negb (bool_decide (GetDeletionTimestamp page <> None))
   then addFinalizer page else ret (page, None)) w = ((page, None), w).
Proof.
  intros [Hm | Hin].
  - now rewrite (bool_decide_eq_true_2 _ Hm).
  - destruct (bool_decide _); simpl; [reflexivity | now apply addFinalizer_present].
Qed.

Lemma prepareData_unchanged ns site w :
  next_fault w = None ->
  Data w !! {| types.Namespace := ns; types.Name := site |}
  = Some (Some (aggregateOf ns site (Pages (cluster w)))) ->
  prepareData ns site w
  = ((false, EmptyString, None),
     answered VList KPage {| types.Namespace := ns; types.Name := site |} None w).
Proof.
  intros Hf Hd. unfold prepareData, bind, ListPages.
  erewrite request_served; [|exact Hf|reflexivity].
  fold (listed ns site). rewrite collect_listing.
  unfold GetData at 1. cbn [Data]. rewrite Hd. cbn [default].
  now rewrite DataDiffer_facts.DataDiffer_refl.
Qed.

Lemma prepareData_changed ns site w :
  next_fault w = None ->
  DataDiffer (default None (Data w !! {| types.Namespace := ns; types.Name := site |}))
    (Some (aggregateOf ns site (Pages (cluster w)))) = true ->
  prepareData ns site w
  = ((true, makeHash (Some (aggregateOf ns site (Pages (cluster w)))), None),
     {| cluster := cluster w; faults := tail (faults w);
        trace := trace w ++ [Call VList KPage
                               {| types.Namespace := ns; types.Name := site |} None];
        Data := <[{| types.Namespace := ns; types.Name := site |}
                  := Some (aggregateOf ns site (Pages (cluster w)))]> (Data w) |}).
Proof.
  intros Hf Hd. unfold prepareData, bind, ListPages.
  erewrite request_served; [|exact Hf|reflexivity].
  fold (listed ns site). rewrite collect_listing.
  unfold GetData at 1. cbn [Data]. rewrite Hd. reflexivity.
Qed.

(** X7: A pass over a page in its steady state only reads.  When the page
    carries the finalizer and is not being deleted, its site exists, the
    cached aggregate of the site is the one the pages give, and no request
    fails, [Reconcile] succeeds after three requests (the fetch of the
    page, the fetch of the site, the listing): no object is written and
    the cache is as it was. *)
Theorem Reconcile_steady_state (req : NamespacedName) (w : World) (page : Page)
    (web : WebServer) :
  let site := {| types.Namespace := Namespace (Page_Meta page);
                 types.Name := PageSpec_WebServer (Page_Spec page) |} in
  faults w = [] ->
  lookup_obj req (Pages (cluster w)) = Some page ->
  GetDeletionTimestamp page = None ->
  pageFinalizer ∈ Finalizers (Page_Meta page) ->
  lookup_obj site (WebServers (cluster w)) = Some web ->
  Data w !! site
  = Some (Some (aggregateOf (Namespace (Page_Meta page))
                  (PageSpec_WebServer (Page_Spec page)) (Pages (cluster w)))) ->
  Reconcile req w
  = (Ok tt,
     {| cluster := cluster w; faults := [];
        trace := trace w ++ [Call VGet KPage req None; Call VGet KWebServer site None;
                             Call VList KPage site None];
        Data := Data w |}).
Proof.
  intros site Hf Hp Hd Hfin Hw Hc.
  unfold Reconcile, getPage, bind.
  destruct (answered_no_faults VGet KPage req None w Hf) as (Hf1 & Hn1 & Hn0).
  rewrite (Get_found req w page Hn0 Hp). unfold ret at 1. cbv beta iota zeta.
  cbn [kind Page_Object].
  rewrite ensureFinalizer_skip by (now right).
  unfold getWebServer, bind. fold site.
  rewrite (Get_found site _ web Hn1 Hw). unfold ret at 1. cbv beta iota.
  cbn [kind WebServer_Object].
  destruct (answered_no_faults VGet KWebServer site None _ Hf1) as (Hf2 & Hn2 & _).
  rewrite (prepareData_unchanged _ _ _ Hn2 Hc). cbv beta iota.
  rewrite (bool_decide_eq_false_2 (GetDeletionTimestamp page <> None)) by congruence.
  unfold ret, answered. simpl. rewrite Hf. simpl.
  now rewrite <- !app_assoc.
Qed.

(** The theorem on [p1] and [s1] at rest. *)
Lemma Reconcile_steady_state_witness :
  Reconcile (fixtures.nn "default" "p1") fixtures.atRest
  = (Ok tt,
     {| cluster := cluster fixtures.atRest; faults := [];
        trace := [Call VGet KPage (fixtures.nn "default" "p1") None;
                  Call VGet KWebServer (fixtures.nn "default" "s1") None;
                  Call VList KPage (fixtures.nn "default" "s1") None];
        Data := Data fixtures.atRest |}).
Proof.
  assert (pageFinalizer ∈ Finalizers (Page_Meta fixtures.p1_active)) as Hfin
    by (apply list_elem_of_singleton; reflexivity).
  assert (Data fixtures.atRest !! fixtures.nn "default" "s1"
          = Some (Some (aggregateOf "default" "s1" (Pages (cluster fixtures.atRest)))))
    as Hc by (vm_compute; reflexivity).
  exact (Reconcile_steady_state (fixtures.nn "default" "p1") fixtures.atRest
           fixtures.p1_active fixtures.s1 eq_refl eq_refl eq_refl Hfin eq_refl Hc).
Defined.

End pages_passes.

(* ------------------------------------------------------------------ *)
(** ** The Page reconciler: telling the site *)

Module pages_signal.

Import metav1 v1alpha1 pages pages_facts prepareData_facts pages_more pages_passes.

Section update_facts.

Context `{Object A}.

Lemma Update_found (a old : A) w :
  next_fault w = None ->
  lookup_obj (key_of a) (objects (cluster w)) = Some old ->
  finalised (persist old a) = false ->
  Update a w
  = (Ok (persist old a),
     {| cluster := set_objects (replace_obj (persist old a) (objects (cluster w)))
                     (cluster w);
        faults := tail (faults w);
        trace := trace w ++ [Call VUpdate kind (key_of a) None];
        Data := Data w |}).
Proof.
  intros Hf Hl Hfin. unfold Update, request, serveUpdate. now rewrite Hf, Hl, Hfin.
Qed.

Lemma Update_failed (a : A) w e :
  next_fault w = Some e ->
  Update a w = (Err e, answered VUpdate kind (key_of a) (Some e) w).
Proof. intros Hf. unfold Update, request. now rewrite Hf. Qed.

End update_facts.

(** The WebServer [setWebStatus] submits. *)
Lemma setWebStatus_failed web hash w e :
  next_fault w = Some e ->
  (setWebStatus web hash w).1 = Some e
  /\ cluster (setWebStatus web hash w).2 = cluster w
  /\ Data (setWebStatus web hash w).2 = Data w.
Proof.
  intros Hf. unfold setWebStatus, bind. rewrite (Update_failed _ w e Hf).
  unfold logError, ret, answered. simpl. auto.
Qed.

(** X8: When the aggregate of the site has changed, a pass tells the site.
    For a page that carries the finalizer and is not being deleted, with no
    request failing: [Reconcile] succeeds after four requests, the last one
    the update of the site; the cache holds the new aggregate; the stored
    site carries the digest of the new aggregate under the annotation
    [pages], its other annotations and its spec as before; pages and
    children are untouched. *)
Theorem Reconcile_signals_change (req : NamespacedName) (w : World) (page : Page)
    (web : WebServer) :
  let ns := Namespace (Page_Meta page) in
  let name := PageSpec_WebServer (Page_Spec page) in
  let site := {| types.Namespace := ns; types.Name := name |} in
  let agg := aggregateOf ns name (Pages (cluster w)) in
  faults w = [] ->
  lookup_obj req (Pages (cluster w)) = Some page ->
  GetDeletionTimestamp page = None ->
  pageFinalizer ∈ Finalizers (Page_Meta page) ->
  lookup_obj site (WebServers (cluster w)) = Some web ->
  DeletionTimestamp (WebServer_Meta web) = None ->
  DataDiffer (GetData site w).1 (Some agg) = true ->
  exists w' stored,
    Reconcile req w = (Ok tt, w')
    /\ (GetData site w').1 = Some agg
    /\ lookup_obj site (WebServers (cluster w')) = Some stored
    /\ Annotations (WebServer_Meta stored)
       = Some (<["pages" := makeHash (Some agg)]>
                 (default ∅ (Annotations (WebServer_Meta web))))
    /\ WebServer_Spec stored = WebServer_Spec web
    /\ besidesSites (cluster w') = besidesSites (cluster w)
    /\ since w w' = [Call VGet KPage req None; Call VGet KWebServer site None;
                     Call VList KPage site None; Call VUpdate KWebServer site None].
Proof.
  intros ns name site agg Hf Hp Hd Hfin Hw Hwd Hc.
  pose proof (lookup_obj_key _ _ _ Hw) as Hkey.
  unfold Reconcile, getPage, bind.
  destruct (answered_no_faults VGet KPage req None w Hf) as (Hf1 & Hn1 & Hn0).
  rewrite (Get_found req w page Hn0 Hp). unfold ret at 1. cbv beta iota zeta.
  cbn [kind Page_Object].
  rewrite ensureFinalizer_skip by (now right).
  unfold getWebServer, bind. fold ns name site.
  rewrite (Get_found site _ web Hn1 Hw). unfold ret at 1. cbv beta iota.
  cbn [kind WebServer_Object].
  destruct (answered_no_faults VGet KWebServer site None _ Hf1) as (Hf2 & Hn2 & _).
  rewrite (prepareData_changed ns name _ Hn2 Hc). cbv beta iota.
  unfold ret at 1. cbv beta iota.
  unfold setWebStatus, bind.
  match goal with
  | |- context [@Update ?T ?O ?a ?wl] =>
      assert (key_of a = site) as Hka by exact Hkey;
      rewrite (Update_found a web wl)
  end; [| unfold next_fault; cbn [faults]; now rewrite Hf2
        | rewrite Hka; exact Hw
        | unfold finalised; simpl; now rewrite Hwd ].
  cbv beta iota. rewrite Hka.
  rewrite (bool_decide_eq_false_2 (GetDeletionTimestamp page <> None)) by congruence.
  unfold ret. cbn [negb fst snd].
  eexists _, _. split; [reflexivity|]. cbn [cluster Data trace].
  split; [unfold GetData; simpl; now rewrite lookup_insert_eq|].
  split.
  { cbn [objects WebServer_Object set_objects WebServers set_WebServers cluster].
    rewrite <- Hka at 1.
    match goal with
    | |- lookup_obj (key_of ?a) (replace_obj ?b _) = _ =>
        change (key_of a) with (key_of b)
    end.
    eapply lookup_replace_obj. change (key_of _) with (key_of web) at 1.
    rewrite Hkey. exact Hw. }
  split; [reflexivity|]. split; [reflexivity|]. split; [reflexivity|].
  apply since_app. simpl. now rewrite <- !app_assoc.
Qed.

(** The theorem on [p1] when nothing is cached for [s1] yet: the site is
    annotated with the digest of [{idx: hello}]. *)
Lemma Reconcile_signals_change_witness :
  exists w' stored,
    Reconcile (fixtures.nn "default" "p1") fixtures.firstAggregate = (Ok tt, w')
    /\ (GetData (fixtures.nn "default" "s1") w').1 = Some fixtures.idxHello
    /\ lookup_obj (fixtures.nn "default" "s1") (WebServers (cluster w')) = Some stored
    /\ Annotations (WebServer_Meta stored)
       = Some (<["pages" := "oWpI/JxWWRlzW6NvU6Dvnn7umkw="%string]> ∅).
Proof.
  assert (pageFinalizer ∈ Finalizers (Page_Meta fixtures.p1_active)) as Hfin
    by (apply list_elem_of_singleton; reflexivity).
  assert (DataDiffer (GetData (fixtures.nn "default" "s1") fixtures.firstAggregate).1
            (Some (aggregateOf "default" "s1" (Pages (cluster fixtures.firstAggregate))))
          = true) as Hc by (vm_compute; reflexivity).
  destruct (Reconcile_signals_change (fixtures.nn "default" "p1") fixtures.firstAggregate
              fixtures.p1_active fixtures.s1 eq_refl eq_refl eq_refl Hfin eq_refl eq_refl Hc)
    as (w' & stored & HR & Hd & Hl & Ha & _).
  exists w', stored. split; [exact HR|]. split; [|split; [exact Hl|]].
  - etransitivity; [exact Hd|]. vm_compute. reflexivity.
  - etransitivity; [exact Ha|]. vm_compute. reflexivity.
Defined.

(** X9: A signal that is lost.  When the aggregate has changed and the update
    of the site fails, [Reconcile] returns that error and nothing is
    written to the cluster, but the cache holds the new aggregate already:
    as long as the pages stay as they are, every later [prepareData] finds
    nothing changed, so no later pass writes the digest to the site. *)
Theorem Reconcile_loses_signal (req : NamespacedName) (w : World) (page : Page)
    (web : WebServer) (e : error) (rest : list (option error)) :
  let ns := Namespace (Page_Meta page) in
  let name := PageSpec_WebServer (Page_Spec page) in
  let site := {| types.Namespace := ns; types.Name := name |} in
  let agg := aggregateOf ns name (Pages (cluster w)) in
  faults w = None :: None :: None :: Some e :: rest ->
  lookup_obj req (Pages (cluster w)) = Some page ->
  GetDeletionTimestamp page <> None \/ pageFinalizer ∈ Finalizers (Page_Meta page) ->
  lookup_obj site (WebServers (cluster w)) = Some web ->
  DataDiffer (GetData site w).1 (Some agg) = true ->
  exists w',
    Reconcile req w = (Err e, w')
    /\ cluster w' = cluster w
    /\ (GetData site w').1 = Some agg
    /\ (forall w'',
          Pages (cluster w'') = Pages (cluster w) -> Data w'' = Data w' ->
          next_fault w'' = None ->
          (prepareData ns name w'').1 = (false, EmptyString, None)).
Proof.
  intros ns name site agg Hf Hp Hfin Hw Hc.
  unfold Reconcile, getPage, bind.
  rewrite (Get_found req w page (next_fault_cons _ _ _ Hf) Hp).
  unfold ret at 1. cbv beta iota zeta. cbn [kind Page_Object].
  rewrite ensureFinalizer_skip by exact Hfin.
  unfold getWebServer, bind. fold ns name site.
  assert (faults (answered VGet KPage req None w) = None :: None :: Some e :: rest) as Hf1
    by (unfold answered; simpl; now rewrite Hf).
  rewrite (Get_found site _ web (next_fault_cons _ _ _ Hf1) Hw).
  unfold ret at 1. cbv beta iota. cbn [kind WebServer_Object].
  assert (faults (answered VGet KWebServer site None (answered VGet KPage req None w))
          = None :: Some e :: rest) as Hf2
    by (unfold answered at 1; cbn [faults]; now rewrite Hf1).
  rewrite (prepareData_changed ns name _ (next_fault_cons _ _ _ Hf2) Hc).
  cbv beta iota. unfold ret at 1. cbv beta iota.
  match goal with
  | |- context [setWebStatus ?a ?h ?wl] =>
      destruct (setWebStatus_failed a h wl e) as (Hr & Hcl & HD);
      [unfold next_fault; cbn [faults]; now rewrite Hf2|];
      destruct (setWebStatus a h wl) as [r ws]
  end.
  simpl in Hr, Hcl, HD. subst r. unfold ret.
  exists ws. split; [reflexivity|]. split; [exact Hcl|].
  assert ((GetData site ws).1 = Some agg) as Hg.
  { unfold GetData. simpl. rewrite HD. now rewrite lookup_insert_eq. }
  split; [exact Hg|].
  intros w'' Hpages Hdata Hnf.
  rewrite prepareData_unchanged; [reflexivity | exact Hnf |].
  rewrite Hpages, Hdata, HD. fold ns name site agg. now rewrite lookup_insert_eq.
Qed.

(** The theorem on [p1] when the update of [s1] meets a conflict: the pass
    fails, and the pass after it sends no update to the site. *)
Lemma Reconcile_loses_signal_witness :
  (Reconcile (fixtures.nn "default" "p1") fixtures.siteUpdateFails).1
  = Err (Failure "conflict")
  /\ (prepareData "default" "s1"
        (Reconcile (fixtures.nn "default" "p1") fixtures.siteUpdateFails).2).1
     = (false, EmptyString, None).
Proof.
  assert (pageFinalizer ∈ Finalizers (Page_Meta fixtures.p1_active)) as Hfin
    by (apply list_elem_of_singleton; reflexivity).
  assert (DataDiffer (GetData (fixtures.nn "default" "s1") fixtures.siteUpdateFails).1
            (Some (aggregateOf "default" "s1" (Pages (cluster fixtures.siteUpdateFails))))
          = true) as Hc by (vm_compute; reflexivity).
  destruct (Reconcile_loses_signal (fixtures.nn "default" "p1") fixtures.siteUpdateFails
              fixtures.p1_active fixtures.s1 (Failure "conflict") []
              eq_refl eq_refl (or_intror Hfin) eq_refl Hc)
    as (w' & HR & Hcl & _ & Hlater).
  rewrite HR. simpl. split; [reflexivity|].
  apply Hlater; [now rewrite Hcl | reflexivity|].
  pose proof (f_equal snd HR) as Hw'. simpl in Hw'. subst w'. vm_compute. reflexivity.
Defined.

End pages_signal.

(* ------------------------------------------------------------------ *)
(** ** The WebServer reconciler: absent sites, failures, children that
    are there *)

Module webserver_more.

Import metav1 v1alpha1 appsv1 corev1 netv1 webserver webserver_facts pages_facts.

(** X10: [Reconcile] of a WebServer that is not there (any more) is a success:
    one request is sent, the fetch of the WebServer; no status is written
    and no child is fetched, created or deleted.  Any other failure of that
    fetch is logged and returned, and again nothing else happens. *)
Theorem Reconcile_site_absent (r : Reconciler) (req : NamespacedName) (w : World) :
  (next_fault w = None -> lookup_obj req (WebServers (cluster w)) = None ->
   Reconcile r req w
   = (Some (Ok tt), answered VGet KWebServer req (Some (NotFound "not found")) w))
  /\ (forall e, next_fault w = Some e -> IsNotFound e = true ->
        Reconcile r req w = (Some (Ok tt), answered VGet KWebServer req (Some e) w))
  /\ (forall e, next_fault w = Some e -> IsNotFound e = false ->
        Reconcile r req w
        = (Some (Err e),
           (logError e "Failed to get webserver"
              (answered VGet KWebServer req (Some e) w)).2)).
Proof.
  unfold Reconcile, getObj, bind. repeat split.
  - intros Hf Hl. now rewrite (Get_missing req w Hf Hl).
  - intros e Hf He. rewrite (Get_failed req w e Hf). now rewrite He.
  - intros e Hf He. rewrite (Get_failed req w e Hf). now rewrite He.
Qed.

(** The theorem on a cluster that holds [p1] but no site. *)
Lemma Reconcile_site_absent_witness :
  Reconcile fixtures.rec (fixtures.nn "default" "s1") fixtures.orphan
  = (Some (Ok tt),
     answered VGet KWebServer (fixtures.nn "default" "s1")
       (Some (NotFound "not found")) fixtures.orphan)
  /\ (Reconcile fixtures.rec (fixtures.nn "default" "s1")
        (fixtures.world fixtures.emptyCluster [Some (Failure "timeout")] ∅)).1
     = Some (Err (Failure "timeout")).
Proof.
  destruct (Reconcile_site_absent fixtures.rec (fixtures.nn "default" "s1") fixtures.orphan)
    as (Hgone & _ & _).
  destruct (Reconcile_site_absent fixtures.rec (fixtures.nn "default" "s1")
              (fixtures.world fixtures.emptyCluster [Some (Failure "timeout")] ∅))
    as (_ & _ & Herr).
  split.
  - apply Hgone; reflexivity.
  - rewrite (Herr (Failure "timeout")); reflexivity.
Defined.

(** X11: [failWithStatus] never loses the error it reports: whatever becomes of
    the status write, it returns the error it was given.  It logs that
    error with the message of the step first, and it changes neither the
    pages, nor any child, nor the cache; all it asks of the API server
    concerns the WebServer. *)
Theorem failWithStatus_keeps_error (web : WebServer) (err : error) (msg : string)
    (w : World) :
  (failWithStatus web err msg w).1 = Err err
  /\ besidesSites (cluster (failWithStatus web err msg w).2) = besidesSites (cluster w)
  /\ Data (failWithStatus web err msg w).2 = Data w
  /\ exists l,
       since w (failWithStatus web err msg w).2 = LogError err msg :: l
       /\ Forall aboutSite l.
Proof.
  destruct (failWithStatus_inv web err msg w) as (w' & l & -> & Ht & Hl & HD & Hc & Hp).
  simpl. split; [reflexivity|]. split; [|split; [exact HD|]].
  - unfold besidesSites. unfold children in Hc. injection Hc as -> -> -> ->.
    now rewrite Hp.
  - exists l. split; [now apply since_app | exact Hl].
Qed.

(** X12: Children that are created once.  When the config ConfigMap, the
    Service or the Ingress of a site is there, its step is content with
    that: it returns right after the fetch, whatever the child holds, and
    sends no create, update or delete. *)
Theorem children_never_repaired (r : Reconciler) (web : WebServer) (w : World) :
  next_fault w = None ->
  (forall cm,
      lookup_obj {| types.Namespace := Namespace (WebServer_Meta web);
                    types.Name := ConfigCMName (Name (WebServer_Meta web)) |}
        (ConfigMaps (cluster w)) = Some cm ->
      reconcileConfigCM r web w
      = (Some (Ok web),
         answered VGet KConfigMap
           {| types.Namespace := Namespace (WebServer_Meta web);
              types.Name := ConfigCMName (Name (WebServer_Meta web)) |} None w))
  /\ (forall svc,
        lookup_obj (nsName (WebServer_Meta web)) (Services (cluster w)) = Some svc ->
        reconcileService r web w
        = (Some (Ok web), answered VGet KService (nsName (WebServer_Meta web)) None w))
  /\ (forall ing,
        lookup_obj (nsName (WebServer_Meta web)) (Ingresses (cluster w)) = Some ing ->
        reconcileIngress r web w
        = (Some (Ok web), answered VGet KIngress (nsName (WebServer_Meta web)) None w)).
Proof.
  intros Hf. repeat split.
  - intros cm Hl. unfold reconcileConfigCM, bind. now rewrite (Get_found _ w cm Hf Hl).
  - intros svc Hl. unfold reconcileService, bind. now rewrite (Get_found _ w svc Hf Hl).
  - intros ing Hl. unfold reconcileIngress, bind. now rewrite (Get_found _ w ing Hf Hl).
Qed.

(** The theorem on the drifted Service of [s1]: it is left as it is. *)
Lemma children_never_repaired_witness :
  reconcileService fixtures.rec fixtures.s1 fixtures.drifted
  = (Some (Ok fixtures.s1),
     answered VGet KService (fixtures.nn "default" "s1") None fixtures.drifted).
Proof.
  destruct (children_never_repaired fixtures.rec fixtures.s1 fixtures.drifted eq_refl)
    as (_ & Hsvc & _).
  exact (Hsvc fixtures.driftedService eq_refl).
Defined.

End webserver_more.

(* ------------------------------------------------------------------ *)
(** ** What a step leaves alone *)

Module step_frame.

Import metav1 v1alpha1 appsv1 corev1 netv1 webserver webserver_facts pages_facts.

Ltac frame_chain :=
  repeat match goal with
         | H : children _ = children _ |- _ =>
             unfold children in H; injection H as ? ? ? ?
         end;
  unfold forget;
  repeat (simpl;
          match goal with
          | H : cluster ?x = _ |- context [cluster ?x] => rewrite H
          | H : Pages (cluster ?x) = _ |- context [Pages (cluster ?x)] => rewrite H
          | H : Deployments (cluster ?x) = _ |- context [Deployments (cluster ?x)] =>
              rewrite H
          | H : ConfigMaps (cluster ?x) = _ |- context [ConfigMaps (cluster ?x)] =>
              rewrite H
          | H : Services (cluster ?x) = _ |- context [Services (cluster ?x)] => rewrite H
          | H : Ingresses (cluster ?x) = _ |- context [Ingresses (cluster ?x)] => rewrite H
          | H : Data ?x = _ |- context [Data ?x] => rewrite H
          end);
  simpl; try reflexivity.

Ltac frame_of_run :=
  simpl; destruct_and?;
  repeat match goal with
         | H : ex _ |- _ => destruct H; destruct_and?
         end;
  split; [frame_chain | split; [frame_chain | ]];
  try (let Hok := fresh "Hok" in
       intros ? Hok; simpl in Hok;
       first [ discriminate Hok
             | injection Hok as <-; split; [reflexivity | frame_chain] ]).

Lemma reconcileConfigCM_minds r : mindsOnly KConfigMap (reconcileConfigCM r).
Proof.
  intros web w.
  unfold reconcileConfigCM, createConfigCM, createConfigMap, returned, bind, ret, logError.
  run; frame_of_run.
Qed.

Lemma reconcileDataCM_minds r : mindsOnly KConfigMap (reconcileDataCM r).
Proof.
  intros web w.
  unfold reconcileDataCM, createDataCM, createConfigMap, updateConfigMap, pages.GetData,
    returned, bind, ret, logError.
  run; frame_of_run.
Qed.

Lemma reconcileService_minds r : mindsOnly KService (reconcileService r).
Proof.
  intros web w.
  unfold reconcileService, createService, returned, bind, ret, logError.
  run; frame_of_run.
Qed.

Lemma reconcileIngress_minds r : mindsOnly KIngress (reconcileIngress r).
Proof.
  intros web w.
  unfold reconcileIngress, createIngress, returned, bind, ret, logError.
  run; frame_of_run.
Qed.

Lemma reconcileDeployment_minds r : mindsOnly KDeployment (reconcileDeployment r).
Proof.
  intros web w.
  unfold reconcileDeployment, createDeployment, updateDeployment, returned, bind, ret, logError.
  run; frame_of_run.
Qed.

(** X13: Every step of the WebServer reconciler minds its own child: whatever
    the API answers, [reconcileDeployment] changes no Page, ConfigMap,
    Service or Ingress, the two ConfigMap steps change no Deployment,
    Service or Ingress, and so on; none of them writes the cache of page
    data; and a step that succeeds has written to no WebServer and hands
    the next step the WebServer it received. *)
Theorem steps_mind_their_own_child r :
  mindsOnly KDeployment (reconcileDeployment r)
  /\ mindsOnly KConfigMap (reconcileConfigCM r)
  /\ mindsOnly KConfigMap (reconcileDataCM r)
  /\ mindsOnly KService (reconcileService r)
  /\ mindsOnly KIngress (reconcileIngress r).
Proof.
  exact (conj (reconcileDeployment_minds r)
          (conj (reconcileConfigCM_minds r)
             (conj (reconcileDataCM_minds r)
                (conj (reconcileService_minds r) (reconcileIngress_minds r))))).
Qed.

End step_frame.

(* ------------------------------------------------------------------ *)
(** ** What a step leaves behind *)

Section stored_facts.

Context `{Object A}.
Hypothesis objects_set : forall l c, objects (set_objects l c) = l.

Lemma lookup_obj_app_new (a : A) (l : list A) :
  lookup_obj (key_of a) l = None -> lookup_obj (key_of a) (l ++ [a]) = Some a.
Proof.
  unfold lookup_obj. induction l as [|b l IH]; simpl.
  - intros _. now rewrite bool_decide_eq_true_2.
  - destruct (bool_decide (key_of b = key_of a)); [discriminate | exact IH].
Qed.

(** A [Create] that succeeds leaves the object stored under its name. *)
Lemma Create_stored (a : A) w u w' :
  key_of (as_stored a) = key_of a ->
  Create a w = (Ok u, w') ->
  lookup_obj (key_of a) (objects (cluster w')) = Some (as_stored a).
Proof.
  intros Hk. unfold Create, request, serveCreate.
  destruct (next_fault w); [intros Hc; discriminate Hc|].
  destruct (lookup_obj (key_of a) (objects (cluster w))) eqn:Hl;
    [intros Hc; discriminate Hc|].
  intros [= _ <-]. simpl. rewrite objects_set, <- Hk.
  apply lookup_obj_app_new. now rewrite Hk.
Qed.

(** An [Update] that succeeds leaves what it hands back stored under the
    name of the object, unless that was the update that let the object go. *)
Lemma Update_stored (a : A) w new w' :
  Update a w = (Ok new, w') ->
  exists old,
    lookup_obj (key_of a) (objects (cluster w)) = Some old
    /\ new = persist old a
    /\ (key_of new = key_of a -> finalised new = false ->
        lookup_obj (key_of a) (objects (cluster w')) = Some new).
Proof.
  unfold Update, request, serveUpdate.
  destruct (next_fault w); [intros Hc; discriminate Hc|].
  destruct (lookup_obj (key_of a) (objects (cluster w))) as [old|] eqn:Hl;
    [|intros Hc; discriminate Hc].
  destruct (finalised (persist old a)) eqn:Hfin; intros [= <- <-];
    exists old; repeat split; intros Hk Hf; [congruence|].
  simpl. rewrite objects_set.
  rewrite <- Hk. eapply pages_facts.lookup_replace_obj. rewrite Hk. exact Hl.
Qed.

End stored_facts.

Module children_settle.

Import metav1 v1alpha1 appsv1 corev1 netv1 webserver webserver_facts pages_facts.

(** X14: A successful [reconcileDeployment] leaves a Deployment under the name
    of the WebServer that [deploymentDiffers] finds in order (one
    container, the image and the replica count of the WebServer), whether
    it found it so, created it or updated it.  The Deployment found, if
    any, must not be one that is already on its way out (marked for
    deletion with no finalizer left). *)
Theorem reconcileDeployment_settles r web w web' :
  (forall d, lookup_obj (nsName (WebServer_Meta web)) (Deployments (cluster w)) = Some d ->
             finalised d = false) ->
  (reconcileDeployment r web w).1 = Some (Ok web') ->
  exists d,
    lookup_obj (nsName (WebServer_Meta web))
      (Deployments (cluster (reconcileDeployment r web w).2)) = Some d
    /\ deploymentDiffers web d = Some false.
Proof.
  intros Hlive. unfold reconcileDeployment, bind.
  destruct (Get (A := Deployment) (nsName (WebServer_Meta web)) w) as [[d|e] wg] eqn:Hg;
    apply Get_inv in Hg as (_ & Hcg & _ & Hg).
  - destruct Hg as (_ & Hl & _). cbn [objects Deployment_Object] in Hl.
    destruct (deploymentDiffers web d) as [[|]|] eqn:Hdd.
    + unfold updateDeployment, bind.
      destruct (negb (length (Deployment_Containers d) =? 1)%nat) eqn:Hlen.
      * unfold returned, bind, ret, logError. run; simpl; intros Hr; discriminate Hr.
      * match goal with
        | |- context [@Update ?T ?O ?a wg] =>
            destruct (@Update T O a wg) as [[new|e] wu] eqn:Hu
        end.
        -- unfold ret. cbn [fst snd]. intros _.
           pose proof (lookup_obj_key _ _ _ Hl) as Hkey.
           apply (@Update_stored Deployment Deployment_Object (fun _ _ => eq_refl))
             in Hu as (old & Hold & Hnew & Hst).
           cbn [persist Deployment_Object] in Hnew.
           change (lookup_obj (key_of d) (Deployments (cluster wg)) = Some old) in Hold.
           rewrite Hkey, Hcg, Hl in Hold. injection Hold as <-.
           exists new. split.
           ++ change (key_of new = key_of d -> finalised new = false ->
                      lookup_obj (key_of d) (Deployments (cluster wu)) = Some new) in Hst.
              rewrite Hkey in Hst. apply Hst.
              ** rewrite Hnew. exact Hkey.
              ** rewrite Hnew. exact (Hlive d Hl).
           ++ subst new. unfold deploymentDiffers in *. cbn.
              apply negb_false_iff, Nat.eqb_eq in Hlen.
              destruct (Deployment_Containers d) as [|c0 [|c1 l]]; try discriminate Hlen.
              cbn. rewrite bool_decide_eq_false_2 by (intros Hn; now apply Hn).
              f_equal. apply bool_decide_eq_false_2. intros Hn; now apply Hn.
        -- unfold returned, bind, ret. run. simpl. intros Hr; discriminate Hr.
    + unfold ret. cbn [fst snd]. intros _. exists d. rewrite Hcg. auto.
    + unfold ret. cbn [fst]. intros Hr; discriminate Hr.
  - destruct (negb (IsNotFound e)).
    + unfold returned, bind, ret. run; simpl; intros Hr; discriminate Hr.
    + unfold createDeployment, bind.
      match goal with
      | |- context [@Create ?T ?O ?a wg] =>
          destruct (@Create T O a wg) as [[u|e'] wc] eqn:Hc
      end.
      * unfold ret. cbn [fst snd]. intros _.
        apply (@Create_stored Deployment Deployment_Object (fun _ _ => eq_refl)) in Hc;
          [|reflexivity]. cbn [as_stored Deployment_Object] in Hc.
        eexists. split; [exact Hc|].
        unfold deploymentDiffers. cbn.
        rewrite bool_decide_eq_false_2 by (intros Hn; now apply Hn).
        f_equal. apply bool_decide_eq_false_2. intros Hn; now apply Hn.
      * unfold returned, bind, ret, logError. run; simpl; intros Hr; discriminate Hr.
Qed.

(** The theorem on [s1] with the foreign Deployment (image [y:9], no
    replica count): the update puts both right. *)
Lemma reconcileDeployment_settles_witness :
  exists d,
    lookup_obj (nsName (WebServer_Meta fixtures.s1))
      (Deployments (cluster (reconcileDeployment fixtures.rec fixtures.s1
                               fixtures.foreignWorkload).2)) = Some d
    /\ deploymentDiffers fixtures.s1 d = Some false.
Proof.
  assert (forall d, lookup_obj (nsName (WebServer_Meta fixtures.s1))
                      (Deployments (cluster fixtures.foreignWorkload)) = Some d ->
                    finalised d = false) as Hlive.
  { intros d Hd. vm_compute in Hd. injection Hd as <-. reflexivity. }
  assert ((reconcileDeployment fixtures.rec fixtures.s1 fixtures.foreignWorkload).1
          = Some (Ok fixtures.s1)) as Hok by (vm_compute; reflexivity).
  exact (reconcileDeployment_settles fixtures.rec fixtures.s1 fixtures.foreignWorkload
           fixtures.s1 Hlive Hok).
Defined.

Lemma DataDiffer_false_eq (a b : option (gmap string bytes)) :
  pages.DataDiffer a b = false -> a = b.
Proof.
  destruct a as [a|], b as [b|]; try (intros Hd; discriminate Hd); [|reflexivity].
  intros Hd. f_equal. now apply DataDiffer_facts.DataDiffer_present.
Qed.

(** A ConfigMap whose [BinaryData] is absent or holds an entry is stored
    as it is. *)
Lemma ConfigMap_stored_kept (cm : ConfigMap) :
  ConfigMap_BinaryData cm <> Some ∅ ->
  ConfigMap_BinaryData (ConfigMap_stored cm) = ConfigMap_BinaryData cm.
Proof.
  unfold ConfigMap_stored. cbn [ConfigMap_BinaryData].
  destruct (ConfigMap_BinaryData cm) as [m|]; [|reflexivity].
  intros Hne. destruct (size m =? 0)%nat eqn:Hs; [|reflexivity].
  apply Nat.eqb_eq, map_size_empty_iff in Hs. congruence.
Qed.

(** X15: A successful [reconcileDataCM] leaves the data ConfigMap of the
    WebServer stored with exactly the cached aggregate of its pages as
    [BinaryData], whether it found it so, created it or updated it.  The
    ConfigMap found, if any, must not be already on its way out.  The
    aggregate is taken to be absent or to hold a page: an empty map does not
    survive the trip to the API server (it comes back as nil), which the
    store of the model does not show. *)
Theorem reconcileDataCM_settles r web w web' :
  default None (Data w !! nsName (WebServer_Meta web)) <> Some ∅ ->
  (forall cm, lookup_obj {| types.Namespace := Namespace (WebServer_Meta web);
                            types.Name := DataCMName (Name (WebServer_Meta web)) |}
                (ConfigMaps (cluster w)) = Some cm ->
              finalised cm = false) ->
  (reconcileDataCM r web w).1 = Some (Ok web') ->
  exists cm,
    lookup_obj {| types.Namespace := Namespace (WebServer_Meta web);
                  types.Name := DataCMName (Name (WebServer_Meta web)) |}
      (ConfigMaps (cluster (reconcileDataCM r web w).2)) = Some cm
    /\ ConfigMap_BinaryData cm = default None (Data w !! nsName (WebServer_Meta web)).
Proof.
  intros Hfull Hlive. unfold reconcileDataCM, bind. cbv zeta.
  match goal with
  | |- context [@Get ?T ?O ?n w] =>
      destruct (@Get T O n w) as [[cm|e] wg] eqn:Hg;
      apply Get_inv in Hg as (HDg & Hcg & _ & Hg)
  end.
  - destruct Hg as (_ & Hl & _). cbn [objects ConfigMap_Object] in Hl.
    unfold pages.GetData. cbv beta iota. rewrite HDg.
    set (data := default None (Data w !! nsName (WebServer_Meta web))).
    destruct (configMapDiffers cm data) eqn:Hdd.
    + unfold updateConfigMap, bind.
      match goal with
      | |- context [@Update ?T ?O ?a wg] =>
          destruct (@Update T O a wg) as [[new|e] wu] eqn:Hu
      end.
      * unfold ret. cbn [fst snd]. intros _.
        pose proof (lookup_obj_key _ _ _ Hl) as Hkey.
        apply (@Update_stored ConfigMap ConfigMap_Object (fun _ _ => eq_refl))
          in Hu as (old & Hold & Hnew & Hst).
        cbn [persist ConfigMap_Object] in Hnew.
        change (key_of new = key_of cm -> finalised new = false ->
                lookup_obj (key_of cm) (ConfigMaps (cluster wu)) = Some new) in Hst.
        rewrite Hkey in Hst.
        exists new. split.
        -- apply Hst; rewrite Hnew; [exact Hkey | exact (Hlive cm Hl)].
        -- rewrite Hnew, ConfigMap_stored_kept; [reflexivity | exact Hfull].
      * unfold returned, bind, ret. run; simpl; intros Hr; discriminate Hr.
    + unfold ret. cbn [fst snd]. intros _. exists cm. rewrite Hcg.
      split; [exact Hl | now apply DataDiffer_false_eq].
  - destruct (negb (IsNotFound e)).
    + unfold returned, bind, ret. run; simpl; intros Hr; discriminate Hr.
    + unfold createDataCM, createConfigMap, pages.GetData, bind. cbv beta iota zeta.
      match goal with
      | |- context [@Create ?T ?O ?a wg] =>
          destruct (@Create T O a wg) as [[u|e'] wc] eqn:Hc
      end.
      * unfold ret. cbn [fst snd]. intros _.
        apply (@Create_stored ConfigMap ConfigMap_Object (fun _ _ => eq_refl)) in Hc;
          [|reflexivity]. cbn [as_stored ConfigMap_Object] in Hc.
        eexists. split; [exact Hc|]. rewrite ConfigMap_stored_kept.
        -- cbn [ConfigMap_BinaryData]. now rewrite HDg.
        -- cbn [ConfigMap_BinaryData]. now rewrite HDg.
      * unfold returned, bind, ret, logError. run; simpl; intros Hr; discriminate Hr.
Qed.

(** The theorem on [s1] with a data ConfigMap made before its page was
    aggregated: the update fills it. *)
Lemma reconcileDataCM_settles_witness :
  exists cm,
    lookup_obj (fixtures.nn "default" "s1-data")
      (ConfigMaps (cluster (reconcileDataCM fixtures.rec fixtures.s1
                              fixtures.staleDataCM).2)) = Some cm
    /\ ConfigMap_BinaryData cm = Some fixtures.idxHello.
Proof.
  assert (default None (Data fixtures.staleDataCM !! nsName (WebServer_Meta fixtures.s1))
          = Some fixtures.idxHello) as Hdata by (vm_compute; reflexivity).
  assert (default None (Data fixtures.staleDataCM !! nsName (WebServer_Meta fixtures.s1))
          <> Some ∅) as Hne.
  { rewrite Hdata. intros He.
    apply (f_equal (fun o : option (gmap string bytes) =>
                      match o with Some m => m !! "idx" | None => None end)) in He.
    vm_compute in He. discriminate He. }
  assert (forall cm, lookup_obj {| types.Namespace := Namespace (WebServer_Meta fixtures.s1);
                                   types.Name := DataCMName (Name (WebServer_Meta fixtures.s1)) |}
                       (ConfigMaps (cluster fixtures.staleDataCM)) = Some cm ->
                     finalised cm = false) as Hlive.
  { intros cm Hcm. vm_compute in Hcm. injection Hcm as <-. reflexivity. }
  assert ((reconcileDataCM fixtures.rec fixtures.s1 fixtures.staleDataCM).1
          = Some (Ok fixtures.s1)) as Hok by (vm_compute; reflexivity).
  destruct (reconcileDataCM_settles fixtures.rec fixtures.s1 fixtures.staleDataCM
              fixtures.s1 Hne Hlive Hok) as (cm & Hl & Hb).
  exists cm. split; [exact Hl | now rewrite Hb].
Defined.

End children_settle.

(* ------------------------------------------------------------------ *)
(** ** Building a site from nothing *)

Section create_facts.

Context `{Object A}.




End create_facts.

Module build_site.

Import metav1 v1alpha1 appsv1 corev1 netv1 webserver webserver_facts pages_facts.













(** X17: A pass of the five steps over a settled site, with no request
    failing, sends the five fetches of the children and nothing else: no
    create, no update, no delete, and no error is logged; the store and the
    cache are as before. *)
Theorem settled_site_is_only_read r web w :
  faults w = [] -> settled web w ->
  runSteps (reconcileFuncs r) web w
  = (Some (Ok web),
     {| cluster := cluster w; faults := [];
        trace := trace w ++ map (fun kn => Call VGet kn.1 kn.2 None) (expectedFetches web);
        Data := Data w |}).
Proof.
  intros Hf ((dep & Hd & Hdiff) & (cfg & Hc) & (data & Hdt & Hdd) & (svc & Hs) & (ing & Hi)).
  destruct w as [c fs tr D]. cbn [faults cluster Data] in *. subst fs.
  unfold runSteps, reconcileFuncs, bind.
  unfold reconcileDeployment, bind.
  rewrite (Get_found _ _ dep) by first [reflexivity | exact Hd].
  cbv beta iota. rewrite Hdiff. unfold ret at 1. cbv beta iota.
  unfold reconcileConfigCM, bind. cbv zeta.
  rewrite (Get_found _ _ cfg) by first [reflexivity | exact Hc].
  cbv beta iota. unfold ret at 1. cbv beta iota.
  unfold reconcileDataCM, bind. cbv zeta.
  rewrite (Get_found _ _ data) by first [reflexivity | exact Hdt].
  cbv beta iota. unfold pages.GetData. cbv beta iota.
  unfold answered at 1 2 3. cbn [Data faults cluster trace].
  rewrite Hdd. unfold ret at 1. cbv beta iota.
  unfold reconcileService, bind.
  rewrite (Get_found _ _ svc) by first [reflexivity | exact Hs].
  cbv beta iota. unfold ret at 1. cbv beta iota.
  unfold reconcileIngress, bind.
  rewrite (Get_found _ _ ing) by first [reflexivity | exact Hi].
  cbv beta iota. unfold ret. unfold answered. cbn [Data faults cluster trace].
  rewrite <- !app_assoc. reflexivity.
Qed.

(** The theorem on what the pass that builds [s1] leaves: a second pass
    right after only reads. *)
Lemma settled_site_is_only_read_witness :
  (runSteps (reconcileFuncs fixtures.rec) fixtures.s1
     (runSteps (reconcileFuncs fixtures.rec) fixtures.s1 fixtures.freshSite).2).1
  = Some (Ok fixtures.s1).
Proof.
  assert (faults (runSteps (reconcileFuncs fixtures.rec) fixtures.s1 fixtures.freshSite).2
          = []) as Hf by (vm_compute; reflexivity).
  assert (settled fixtures.s1
            (runSteps (reconcileFuncs fixtures.rec) fixtures.s1 fixtures.freshSite).2) as Hs.
  { split; [eexists; split; vm_compute; reflexivity|].
    split; [eexists; vm_compute; reflexivity|].
    split; [eexists; split; vm_compute; reflexivity|].
    split; eexists; vm_compute; reflexivity. }
  exact (f_equal fst (settled_site_is_only_read fixtures.rec fixtures.s1 _ Hf Hs)).
Defined.

End build_site.
